(** * excel-convert: the recovery-and-normalization pipeline of [lib/converter]

    A shallow embedding of the newest generation of the converter
    (detectDelimiter, parseCSVLine, normalizeCell, textBasedRecovery,
    normalizeWorkbook, convertToXlsx, processFile) and the properties of the
    specification settled against it.  Part V goes on with properties read
    off the code itself, function by function, and with the properties of the
    specification that rest on them.

    Conventions.
    - A JavaScript string is the list of its UTF-16 code units ([jsstring]).
    - A JavaScript number is an IEEE 754 binary64 value, modelled by the
      Standard Library's [spec_float] at precision 53 and exponent bound 1024;
      array lengths and loop indices stay integers ([nat], [Z]).
    - A thrown [Error] is the [Err] branch of [Result].
    - The spreadsheet library, the charset detector and the codecs are
      interfaces ([SheetJS], [Codecs]): the converter is written against them. *)

From Stdlib Require Import Strings.String Strings.Ascii Strings.Byte.
From Stdlib Require Import ZArith NArith PArith List Bool Lia.
From Stdlib Require Import SpecFloat.
Import ListNotations.

Set Implicit Arguments.
Local Open Scope N_scope.

(* ===================================================================== *)
(** * Part I. The JavaScript runtime, as far as the converter uses it     *)
(* ===================================================================== *)

Module Js.

(** ** Strings *)

Definition char16 := N.
Definition jsstring := list char16.

(** An ASCII literal as a JavaScript string. *)
Fixpoint lit (s : string) : jsstring :=
  match s with
  | EmptyString => []
  | String a rest => N_of_ascii a :: lit rest
  end.

Definition str_eqb (a b : jsstring) : bool :=
  if list_eq_dec N.eq_dec a b then true else false.

Definition is_empty (s : jsstring) : bool :=
  match s with [] => true | _ => false end.

(** [WhiteSpace] and [LineTerminator] of ECMAScript: what [trim] strips and
    what the class [\s] matches. *)
Definition is_space (c : char16) : bool :=
  ((9 <=? c) && (c <=? 13)) || (c =? 32) || (c =? 160) || (c =? 5760)
  || ((8192 <=? c) && (c <=? 8202)) || (c =? 8232) || (c =? 8233)
  || (c =? 8239) || (c =? 8287) || (c =? 12288) || (c =? 65279).

Fixpoint trimStart (s : jsstring) : jsstring :=
  match s with
  | c :: rest => if is_space c then trimStart rest else s
  | [] => []
  end.

Fixpoint trimEnd (s : jsstring) : jsstring :=
  match s with
  | [] => []
  | c :: rest =>
      match trimEnd rest with
      | [] => if is_space c then [] else [c]
      | kept => c :: kept
      end
  end.

(** [String.prototype.trim]. *)
Definition trim (s : jsstring) : jsstring := trimEnd (trimStart s).

(** [s.includes(c)] for a one-character needle. *)
Definition includes (c : char16) (s : jsstring) : bool := existsb (N.eqb c) s.

Fixpoint starts_with (p s : jsstring) : bool :=
  match p, s with
  | [], _ => true
  | a :: p', b :: s' => (a =? b) && starts_with p' s'
  | _ :: _, [] => false
  end.

(** [s.includes(needle)] for a string needle. *)
Fixpoint includes_str (needle s : jsstring) : bool :=
  starts_with needle s
  || match s with [] => false | _ :: rest => includes_str needle rest end.

(** [s.split(sep)] for a one-character separator: one piece more than there are
    separators, so the empty string splits into one empty piece. *)
Fixpoint split (sep : char16) (s : jsstring) : list jsstring :=
  match s with
  | [] => [[]]
  | c :: rest =>
      if c =? sep then [] :: split sep rest
      else match split sep rest with
           | piece :: pieces => (c :: piece) :: pieces
           | [] => [[c]]
           end
  end.

(** [arr.indexOf(x)] on an array of strings: the first index holding an equal
    string, or -1. *)
Fixpoint indexOf (arr : list jsstring) (x : jsstring) : Z :=
  match arr with
  | [] => (-1)%Z
  | y :: rest =>
      if str_eqb y x then 0%Z
      else match indexOf rest x with
           | Zneg _ => (-1)%Z
           | i => Z.succ i
           end
  end.

(** [s.lastIndexOf(c)] for a one-character needle, or -1. *)
Fixpoint lastIndexOf (c : char16) (s : jsstring) : Z :=
  match s with
  | [] => (-1)%Z
  | d :: rest =>
      match lastIndexOf c rest with
      | Zneg _ => if d =? c then 0%Z else (-1)%Z
      | i => Z.succ i
      end
  end.

(** [s.substring(i)]: a negative start counts as 0, a start past the end gives
    the empty string. *)
Definition substring_from (i : Z) (s : jsstring) : jsstring :=
  skipn (Z.to_nat i) s.

(** [s.substring(0, n)]. *)
Definition substring_to (n : nat) (s : jsstring) : jsstring := firstn n s.

(** [String.prototype.toLowerCase], code unit by code unit.  Basic Latin
    capitals map to their small letters; U+212A KELVIN SIGN maps to k and
    U+0130 to i followed by U+0307 (the one mapping that changes the length).
    The other cased scripts map letters outside Basic Latin to letters outside
    Basic Latin and are left in place here: the converter only ever compares a
    lowered string with literals made of Basic Latin letters, digit-free
    punctuation and Hangul, and for those comparisons the two agree. *)
Definition lower_unit (c : char16) : jsstring :=
  if (65 <=? c) && (c <=? 90) then [c + 32]
  else if c =? 8490 then [107]
  else if c =? 304 then [105; 775]
  else [c].

Definition toLowerCase (s : jsstring) : jsstring := flat_map lower_unit s.

Definition is_digit (c : char16) : bool := (48 <=? c) && (c <=? 57).

(** The class [\w]. *)
Definition is_word (c : char16) : bool :=
  is_digit c || ((65 <=? c) && (c <=? 90)) || ((97 <=? c) && (c <=? 122))
  || (c =? 95).

(** Decimal digits of a natural number, as in a template literal. *)
Fixpoint uint_units (u : Decimal.uint) : jsstring :=
  match u with
  | Decimal.Nil => []
  | Decimal.D0 r => 48 :: uint_units r
  | Decimal.D1 r => 49 :: uint_units r
  | Decimal.D2 r => 50 :: uint_units r
  | Decimal.D3 r => 51 :: uint_units r
  | Decimal.D4 r => 52 :: uint_units r
  | Decimal.D5 r => 53 :: uint_units r
  | Decimal.D6 r => 54 :: uint_units r
  | Decimal.D7 r => 55 :: uint_units r
  | Decimal.D8 r => 56 :: uint_units r
  | Decimal.D9 r => 57 :: uint_units r
  end.

(** [String(i)] for an integer. *)
Definition int_to_string (i : Z) : jsstring :=
  match i with
  | Zneg p => 45 :: uint_units (Pos.to_uint p)
  | Z0 => [48]
  | Zpos p => uint_units (Pos.to_uint p)
  end.

(** ** Numbers: IEEE 754 binary64 *)

Definition prec : Z := 53.
Definition emax : Z := 1024.

Definition number := spec_float.

(** The number of an integer, rounded to nearest even when it needs more
    than 53 bits. *)
Definition of_Z (z : Z) : number := binary_normalize prec emax z 0 false.

Definition num_sub : number -> number -> number := SFsub prec emax.
Definition num_mul : number -> number -> number := SFmul prec emax.
Definition num_div : number -> number -> number := SFdiv prec emax.

(** [a > b] and [a < b]: false as soon as one side is NaN. *)
Definition num_gt (a b : number) : bool := SFltb b a.
Definition num_lt (a b : number) : bool := SFltb a b.

Definition isNaN (x : number) : bool :=
  match x with S754_nan => true | _ => false end.

Definition isFinite (x : number) : bool :=
  match x with S754_zero _ | S754_finite _ _ _ => true | _ => false end.

(** [Math.max(a, b)]: NaN if either is; +0 is larger than -0. *)
Definition Math_max (a b : number) : number :=
  match a, b with
  | S754_nan, _ | _, S754_nan => S754_nan
  | _, _ =>
      if SFltb a b then b
      else if SFltb b a then a
      else match a with S754_zero true => b | _ => a end
  end.

(** The number nearest to [m * 10^e10], signed: the value of a decimal literal
    or of a parsed decimal string.  The quotient of the two integers is formed
    with enough bits and rounded once, to nearest even. *)
Definition of_decimal (neg : bool) (m : N) (e10 : Z) : number :=
  match m with
  | N0 => S754_zero neg
  | Npos p =>
      let num := match e10 with Zpos k => (p * 10 ^ k)%positive | _ => p end in
      let den := match e10 with Zneg k => (10 ^ k)%positive | _ => 1%positive end in
      SFdiv prec emax (S754_finite neg num 0) (S754_finite false den 0)
  end.

(** The literals of the source. *)
Definition num_0 : number := S754_zero false.
Definition num_1 : number := of_Z 1.
Definition num_3 : number := of_Z 3.
Definition num_100 : number := of_Z 100.
Definition num_0_1 : number := of_decimal false 1 (-1).
Definition num_0_5 : number := of_decimal false 5 (-1).
Definition num_0_7 : number := of_decimal false 7 (-1).
Definition num_0_8 : number := of_decimal false 8 (-1).

(** The longest run of decimal digits at the front, as digit values. *)
Fixpoint span_digits (s : jsstring) : list N * jsstring :=
  match s with
  | c :: rest =>
      if is_digit c
      then let (ds, r) := span_digits rest in ((c - 48) :: ds, r)
      else ([], s)
  | [] => ([], [])
  end.

Definition digits_value (ds : list N) : N :=
  fold_left (fun acc d => 10 * acc + d) ds 0.

Definition take_sign (s : jsstring) : bool * jsstring :=
  match s with
  | c :: rest =>
      if c =? 45 then (true, rest)
      else if c =? 43 then (false, rest)
      else (false, s)
  | [] => (false, [])
  end.

(** The exponent part [e[+-]digits] at the front, when there is one. *)
Definition take_exponent (s : jsstring) : Z :=
  match s with
  | c :: rest =>
      if (c =? 101) || (c =? 69) then
        let (neg, r) := take_sign rest in
        match span_digits r with
        | ([], _) => 0%Z
        | (ds, _) =>
            let e := Z.of_N (digits_value ds) in
            if neg then (- e)%Z else e
        end
      else 0%Z
  | [] => 0%Z
  end.

(** [parseFloat]: leading white space is skipped, the longest prefix that is a
    decimal literal is read and the rest ignored; NaN when there is none. *)
Definition parseFloat (input : jsstring) : number :=
  let (neg, s) := take_sign (trimStart input) in
  if starts_with (lit "Infinity") s then S754_infinity neg
  else
    let (ip, r1) := span_digits s in
    let (fp, r2) :=
      match r1 with
      | c :: r => if c =? 46 then span_digits r else ([], r1)
      | [] => ([], [])
      end in
    match ip ++ fp with
    | [] => S754_nan
    | ds =>
        of_decimal neg (digits_value ds)
          (take_exponent r2 - Z.of_nat (length fp))
    end.

(** ** Regular expressions

    The patterns of the source are all anchored at both ends and are only asked
    whether the whole string matches; they are run by derivatives. *)

Inductive regex : Type :=
  | Void
  | Eps
  | Chr (p : char16 -> bool)
  | Seq (a b : regex)
  | Alt (a b : regex)
  | Star (a : regex).

Definition Opt (r : regex) : regex := Alt Eps r.
Definition Plus (r : regex) : regex := Seq r (Star r).

Fixpoint nullable (r : regex) : bool :=
  match r with
  | Void => false
  | Eps => true
  | Chr _ => false
  | Seq a b => nullable a && nullable b
  | Alt a b => nullable a || nullable b
  | Star _ => true
  end.

Fixpoint deriv (c : char16) (r : regex) : regex :=
  match r with
  | Void => Void
  | Eps => Void
  | Chr p => if p c then Eps else Void
  | Seq a b =>
      if nullable a then Alt (Seq (deriv c a) b) (deriv c b)
      else Seq (deriv c a) b
  | Alt a b => Alt (deriv c a) (deriv c b)
  | Star a => Seq (deriv c a) (Star a)
  end.

Fixpoint derivs (s : jsstring) (r : regex) : regex :=
  match s with
  | [] => r
  | c :: rest => derivs rest (deriv c r)
  end.

(** [/^r$/.test(s)]. *)
Definition test (r : regex) (s : jsstring) : bool := nullable (derivs s r).

(** ** Values

    What a cell of an array of arrays can hold. *)

Record Date : Type := { year : Z; month : Z; day : Z }.

Inductive JsValue : Type :=
  | JNull
  | JString (s : jsstring)
  | JNumber (x : number)
  | JBoolean (b : bool)
  | JDate (d : Date).

(** Truthiness, as in [cell && ...]. *)
Definition truthy (v : JsValue) : bool :=
  match v with
  | JNull => false
  | JString s => negb (is_empty s)
  | JNumber x => match x with S754_zero _ | S754_nan => false | _ => true end
  | JBoolean b => b
  | JDate _ => true
  end.

(** [String(v).trim() === '']: only a string can render as blank text; null,
    numbers, booleans and dates all render with visible characters. *)
Definition String_is_blank (v : JsValue) : bool :=
  match v with
  | JString s => is_empty (trim s)
  | _ => false
  end.

End Js.

Import Js.

(** ** date-fns

    [parseISO] followed by [isValid], on the ten-character form
    [YYYY-MM-DD] that the caller has already checked: the date is valid exactly
    when the month is 1..12 and the day exists in that month of the proleptic
    Gregorian calendar. *)

Module DateFns.

Definition isLeapYearIndex (y : Z) : bool :=
  ((y mod 400 =? 0) || ((y mod 4 =? 0) && negb (y mod 100 =? 0)))%Z.

Definition daysInMonth (y m : Z) : Z :=
  (if m =? 2 then (if isLeapYearIndex y then 29 else 28)
   else if (m =? 4) || (m =? 6) || (m =? 9) || (m =? 11) then 30
   else 31)%Z.

Definition validateDate (y m d : Z) : bool :=
  ((1 <=? m) && (m <=? 12) && (1 <=? d) && (d <=? daysInMonth y m))%Z.

Definition digit (c : char16) : Z := Z.of_N (c - 48).

Definition parseISO (s : jsstring) : option Date :=
  match s with
  | [y1; y2; y3; y4; _; m1; m2; _; d1; d2] =>
      let y := (1000 * digit y1 + 100 * digit y2 + 10 * digit y3 + digit y4)%Z in
      let m := (10 * digit m1 + digit m2)%Z in
      let d := (10 * digit d1 + digit d2)%Z in
      if validateDate y m d then Some {| year := y; month := m; day := d |}
      else None
  | _ => None
  end.

End DateFns.

(* ===================================================================== *)
(** * Part II. The converter                                              *)
(* ===================================================================== *)

Definition Buffer := list byte.

(** The messages an [Error] of the converter can carry. *)
Inductive Message : Type :=
  | MsgUnsupportedFormat          (* processFile: extension not supported *)
  | MsgFileTooLarge               (* processFile: over MAX_FILE_SIZE *)
  | MsgEmptyWorkbook              (* convertToXlsx: no sheet *)
  | MsgEmptyHeader                (* convertToXlsx: header all blank *)
  | MsgNoParsedData               (* textBasedRecovery: no row *)
  | MsgSheetExists (name : jsstring)  (* book_append_sheet: duplicate name *)
  | MsgLibrary (text : jsstring)  (* raised inside XLSX.read or XLSX.write *)
  | MsgConversionFailed (cause : Message). (* convertToXlsx: the wrapper *)

Inductive Result (A : Type) : Type :=
  | Ok (a : A)
  | Err (m : Message).
Arguments Ok {A} a.
Arguments Err {A} m.

Definition bind {A B : Type} (r : Result A) (k : A -> Result B) : Result B :=
  match r with
  | Ok a => k a
  | Err m => Err m
  end.

Notation "x <- r ;; k" := (bind r (fun x => k))
  (at level 61, r at next level, right associativity).

(** [try { r } catch { handler }]. *)
Definition catch {A : Type} (r : Result A) (handler : Message -> Result A) : Result A :=
  match r with
  | Ok a => Ok a
  | Err m => handler m
  end.

Definition row := list JsValue.
Definition grid := list row.

(** ** The libraries the converter is written against *)

(** A worksheet is known by the array of arrays it holds. *)
Record WorkSheet : Type := aoa_to_sheet { sheet_cells : grid }.

(** A workbook: its sheets in the order of [SheetNames], each with its name. *)
Definition WorkBook := list (jsstring * WorkSheet).

Definition book_new : WorkBook := [].

Definition SheetNames (wb : WorkBook) : list jsstring := map fst wb.

(** [XLSX.utils.book_append_sheet]: a name already present is refused. *)
Definition book_append_sheet (wb : WorkBook) (ws : WorkSheet) (name : jsstring)
  : Result WorkBook :=
  if existsb (str_eqb name) (SheetNames wb) then Err (MsgSheetExists name)
  else Ok (wb ++ [(name, ws)]).

Class SheetJS : Type := {
  (** [XLSX.read(buffer, {type:'buffer', cellDates:true, ..., codepage:65001})] *)
  XLSX_read : Buffer -> Result WorkBook;
  (** [XLSX.utils.sheet_to_json(sheet, {header:1, defval:null, raw:false})] *)
  sheet_to_json : WorkSheet -> grid;
  (** [XLSX.write(workbook, {type:'buffer', bookType:'xlsx', ...})] *)
  XLSX_write : WorkBook -> Result Buffer
}.

Class Codecs : Type := {
  (** [buffer.toString('utf8')]: U+FFFD wherever the bytes are not UTF-8 *)
  utf8_toString : Buffer -> jsstring;
  (** jschardet's [detect]: an encoding name and a confidence, or nothing *)
  detect : Buffer -> option (jsstring * number);
  iconv_encodingExists : jsstring -> bool;
  iconv_decode : Buffer -> jsstring -> jsstring
}.

(** ** Constants and validation *)

Definition SUPPORTED_EXTENSIONS : list jsstring :=
  [lit ".xls"; lit ".xlsx"; lit ".csv"; lit ".tsv"; lit ".txt"].

Definition MAX_FILE_SIZE : Z := 50 * 1024 * 1024.

Definition validateFileExtension (filename : jsstring) : bool :=
  let ext := substring_from (lastIndexOf 46 filename) (toLowerCase filename) in
  existsb (str_eqb ext) SUPPORTED_EXTENSIONS.

Definition validateFileSize (size : Z) : bool := (size <=? MAX_FILE_SIZE)%Z.

(** The class [[\w가-힣.\-_]] of [sanitizeFilename]. *)
Definition is_safe_char (c : char16) : bool :=
  is_word c || ((44032 <=? c) && (c <=? 55203)) || (c =? 46) || (c =? 45)
  || (c =? 95).

(** [.replace(/_{2,}/g, '_')]: every run of underscores becomes one. *)
Fixpoint collapse_underscores (s : jsstring) : jsstring :=
  match s with
  | [] => []
  | c :: rest =>
      match rest with
      | d :: _ =>
          if (c =? 95) && (d =? 95) then collapse_underscores rest
          else c :: collapse_underscores rest
      | [] => [c]
      end
  end.

Definition sanitizeFilename (filename : jsstring) : jsstring :=
  let sanitized :=
    trim (collapse_underscores
            (map (fun c => if is_safe_char c then c else 95) filename)) in
  if is_empty sanitized then lit "converted_file" else sanitized.

(** ** detectAndDecode *)

Definition REPLACEMENT : char16 := 65533.

(** The first of the listed encodings whose decoding is non-empty and free of
    U+FFFD. *)
Fixpoint first_clean_decoding `{Codecs} (buffer : Buffer) (encodings : list jsstring)
  : option jsstring :=
  match encodings with
  | [] => None
  | encoding :: rest =>
      let decoded := iconv_decode buffer encoding in
      if negb (is_empty decoded) && negb (includes REPLACEMENT decoded)
      then Some decoded
      else first_clean_decoding buffer rest
  end.

Definition detectAndDecode `{Codecs} (buffer : Buffer) : jsstring :=
  let utf8Text := utf8_toString buffer in
  if negb (includes REPLACEMENT utf8Text) then utf8Text
  else
    let detected :=
      match detect buffer with
      | Some (name, confidence) =>
          if negb (is_empty name) && num_gt confidence num_0_7 then
            let encoding := toLowerCase name in
            if includes_str (lit "euc-kr") encoding
               || includes_str (lit "cp949") encoding
            then Some (iconv_decode buffer (lit "euc-kr"))
            else if iconv_encodingExists encoding
            then Some (iconv_decode buffer encoding)
            else None
          else None
      | None => None
      end in
    match detected with
    | Some text => text
    | None =>
        match first_clean_decoding buffer
                [lit "euc-kr"; lit "cp949"; lit "utf8"; lit "latin1"] with
        | Some text => text
        | None => iconv_decode buffer (lit "latin1")
        end
    end.

(** ** detectDelimiter *)

Definition TAB : char16 := 9.
Definition LF : char16 := 10.
Definition COMMA : char16 := 44.
Definition SEMICOLON : char16 := 59.
Definition PIPE : char16 := 124.

Definition delimiters : list char16 := [TAB; COMMA; SEMICOLON; PIPE].

(** [line => line.trim()] used as a filter: the line is not blank. *)
Definition not_blank (line : jsstring) : bool := negb (is_empty (trim line)).

(** [text.split('\n').slice(0, 10).filter(line => line.trim())] *)
Definition sampled_lines (text : jsstring) : list jsstring :=
  filter not_blank (firstn 10 (split LF text)).

(** The inner loop: the column count of every sampled line that the plain
    [split] cuts into more than one column. *)
Definition columnCounts (delimiter : char16) (lines : list jsstring) : list Z :=
  fold_left
    (fun counts line =>
       if not_blank line then
         let columnCount := Z.of_nat (length (split delimiter line)) in
         if (1 <? columnCount)%Z then counts ++ [columnCount] else counts
       else counts)
    lines [].

Definition sum_Z (l : list Z) : Z := fold_left Z.add l 0%Z.
Definition max_Z (l : list Z) : Z := fold_left Z.max (tl l) (hd 0%Z l).
Definition min_Z (l : list Z) : Z := fold_left Z.min (tl l) (hd 0%Z l).

(** The score of a candidate from its column counts; 0 when it has none. *)
Definition score_of (counts : list Z) : number :=
  if (0 <? Z.of_nat (length counts))%Z then
    let avgColumns := num_div (of_Z (sum_Z counts)) (of_Z (Z.of_nat (length counts))) in
    let maxCols := max_Z counts in
    let minCols := min_Z counts in
    let consistency :=
      if (10 <? maxCols)%Z then num_0_8
      else num_sub num_1
             (num_div (of_Z (maxCols - minCols)) (Math_max avgColumns num_1)) in
    num_mul (num_mul avgColumns (Math_max consistency num_0_5))
            (of_Z (Z.of_nat (length counts)))
  else num_0.

(** One turn of the outer loop on the state [(bestDelimiter, maxScore)]. *)
Definition consider (lines : list jsstring) (state : char16 * number)
    (delimiter : char16) : char16 * number :=
  let '(bestDelimiter, maxScore) := state in
  let counts := columnCounts delimiter lines in
  if (0 <? Z.of_nat (length counts))%Z then
    let score := score_of counts in
    if num_gt score maxScore then (delimiter, score)
    else (bestDelimiter, maxScore)
  else (bestDelimiter, maxScore).

Definition detectDelimiter_loop (text : jsstring) : char16 * number :=
  fold_left (consider (sampled_lines text)) delimiters (COMMA, num_0).

Definition detectDelimiter (text : jsstring) : char16 :=
  fst (detectDelimiter_loop text).

(** ** parseCSVLine *)

Definition DQUOTE : char16 := 34.
Definition SQUOTE : char16 := 39.

Definition is_quote (c : char16) : bool := (c =? DQUOTE) || (c =? SQUOTE).

(** The scanner.  [quoteChar] is [None] outside quotes (the source's
    [inQuotes = false, quoteChar = '']) and [Some q] inside a span opened by
    [q]; [result] and [current] are the cells pushed so far and the cell being
    built.  In a quoted span, a quote followed by the same quote consumes both
    characters. *)
Fixpoint scan (delimiter : char16) (line : jsstring) (result : list jsstring)
    (current : jsstring) (quoteChar : option char16) : list jsstring * jsstring :=
  match line with
  | [] => (result, current)
  | char :: rest =>
      match quoteChar with
      | None =>
          if is_quote char then scan delimiter rest result current (Some char)
          else if char =? delimiter
          then scan delimiter rest (result ++ [trim current]) [] None
          else scan delimiter rest result (current ++ [char]) None
      | Some q =>
          if char =? q then
            match rest with
            | next :: rest' =>
                if next =? q
                then scan delimiter rest' result (current ++ [char]) (Some q)
                else scan delimiter rest result current None
            | [] => scan delimiter rest result current None
            end
          else scan delimiter rest result (current ++ [char]) (Some q)
      end
  end.

(** The delimiter is one character: every caller passes one of [delimiters]. *)
Definition parseCSVLine (line : jsstring) (delimiter : char16) : list jsstring :=
  let '(result, current) := scan delimiter (trim line) [] [] None in
  result ++ [trim current].

(** ** normalizeCell *)

Definition is_char (c : char16) : char16 -> bool := N.eqb c.

(** [-?[\d,]+\.?\d*] *)
Definition numberBody : regex :=
  Seq (Opt (Chr (is_char 45)))
      (Seq (Plus (Chr (fun c => is_digit c || (c =? 44))))
           (Seq (Opt (Chr (is_char 46))) (Star (Chr is_digit)))).

(** [/^-?[\d,]+\.?\d*$/] *)
Definition numberPattern : regex := numberBody.

(** The percent pattern: [numberBody] as group 1, then [\s*%], anchored. *)
Definition percentPattern : regex :=
  Seq numberBody (Seq (Star (Chr is_space)) (Chr (is_char 37))).

(** Group 1 of a match of [percentPattern]: no character of the group is white
    space or a percent sign, so the group is what is left once the final [%]
    and the white space before it are taken off. *)
Definition percentGroup (s : jsstring) : jsstring := trimEnd (removelast s).

(** [/^\d{4}-\d{2}-\d{2}$/] *)
Definition simpleDatePattern : regex :=
  let d := Chr is_digit in
  let dash := Chr (is_char 45) in
  Seq d (Seq d (Seq d (Seq d (Seq dash (Seq d (Seq d (Seq dash (Seq d d)))))))).

(** [.replace(/,/g, '')] *)
Definition remove_commas (s : jsstring) : jsstring :=
  filter (fun c => negb (c =? 44)) s.

Definition HANGUL_TRUE : jsstring := [52280].          (* 참 *)
Definition HANGUL_FALSE : jsstring := [44144; 51667].  (* 거짓 *)

Definition normalizeCell (value : jsstring) : JsValue :=
  if is_empty value || is_empty (trim value) then JString []
  else
    let trimmed := trim value in
    if includes 40 trimmed && includes 41 trimmed then JString trimmed
    else
      let asNumber :=
        if test numberPattern trimmed && negb (includes 40 trimmed) then
          let num := parseFloat (remove_commas trimmed) in
          if negb (isNaN num) && isFinite num then Some (JNumber num) else None
        else None in
      match asNumber with
      | Some v => v
      | None =>
      let asPercent :=
        if test percentPattern trimmed then
          let num := parseFloat (remove_commas (percentGroup trimmed)) in
          if negb (isNaN num) && isFinite num
          then Some (JNumber (num_div num num_100)) else None
        else None in
      match asPercent with
      | Some v => v
      | None =>
      let asDate :=
        if test simpleDatePattern trimmed
        then option_map JDate (DateFns.parseISO trimmed) else None in
      match asDate with
      | Some v => v
      | None =>
      let lowerValue := toLowerCase trimmed in
      if str_eqb lowerValue (lit "true") || str_eqb lowerValue HANGUL_TRUE
         || str_eqb lowerValue (lit "yes")
      then JBoolean true
      else if str_eqb lowerValue (lit "false") || str_eqb lowerValue HANGUL_FALSE
              || str_eqb lowerValue (lit "no")
      then JBoolean false
      else JString trimmed
      end end end.

(** ** textBasedRecovery *)

Definition COLUMN_LABEL : jsstring := [52972; 47100].  (* 컬럼 *)

(** The header callback: [cell => cell.trim() || `컬럼${cells.indexOf(cell) + 1}`] *)
Definition headerCell (cells : list jsstring) (cell : jsstring) : JsValue :=
  if is_empty (trim cell)
  then JString (COLUMN_LABEL ++ int_to_string (indexOf cells cell + 1))
  else JString (trim cell).

(** [cell => cell !== null && cell !== ''] *)
Definition has_content (cell : JsValue) : bool :=
  match cell with
  | JNull => false
  | JString s => negb (is_empty s)
  | _ => true
  end.

(** The loop over the lines, on the state [(data, maxColumns)].  [parseCSVLine]
    and [normalizeCell] cannot throw, so the handler of the source's [try] with
    its chain of fallback splitters never runs and has no counterpart here. *)
Fixpoint recovery_loop (delimiter : char16) (lines : list jsstring)
    (lineIndex : nat) (data : grid) (maxColumns : nat) : grid * nat :=
  match lines with
  | [] => (data, maxColumns)
  | line :: rest =>
      let cells := parseCSVLine line delimiter in
      let processedCells :=
        if Nat.eqb lineIndex 0 then map (headerCell cells) cells
        else map normalizeCell cells in
      let maxColumns := Nat.max maxColumns (length processedCells) in
      if Nat.eqb lineIndex 0 || existsb has_content processedCells
      then recovery_loop delimiter rest (S lineIndex) (data ++ [processedCells]) maxColumns
      else recovery_loop delimiter rest (S lineIndex) data maxColumns
  end.

(** [while (row.length < maxColumns) row.push('')] *)
Definition pad_row (maxColumns : nat) (r : row) : row :=
  r ++ repeat (JString []) (maxColumns - length r).

(** The rows handed to [aoa_to_sheet], from the decoded text. *)
Definition recovered_data (text : jsstring) : grid :=
  let delimiter := detectDelimiter text in
  let lines := filter not_blank (split LF text) in
  let '(data, maxColumns) := recovery_loop delimiter lines 0 [] 0 in
  map (pad_row maxColumns) data.

Definition textBasedRecovery `{Codecs} (buffer : Buffer) : Result WorkBook :=
  let data := recovered_data (detectAndDecode buffer) in
  if Nat.eqb (length data) 0 then Err MsgNoParsedData
  else book_append_sheet book_new (aoa_to_sheet data) (lit "Sheet1").

(** ** normalizeWorkbook *)

(** [cell => typeof cell === 'string' ? normalizeCell(cell) : cell] *)
Definition normalizeValue (cell : JsValue) : JsValue :=
  match cell with
  | JString s => normalizeCell s
  | _ => cell
  end.

Definition normalizeData (jsonData : grid) : grid :=
  map (map normalizeValue) jsonData.

Definition normalizeSheet `{SheetJS} (normalizedWorkbook : Result WorkBook)
    (entry : jsstring * WorkSheet) : Result WorkBook :=
  wb <- normalizedWorkbook ;;
  let '(sheetName, worksheet) := entry in
  let jsonData := sheet_to_json worksheet in
  let normalizedSheet := aoa_to_sheet (normalizeData jsonData) in
  let safeSheetName := substring_to 31 (sanitizeFilename sheetName) in
  book_append_sheet wb normalizedSheet safeSheetName.

Definition normalizeWorkbook `{SheetJS} (workbook : WorkBook) : Result WorkBook :=
  fold_left normalizeSheet workbook (Ok book_new).

(** ** convertToXlsx *)

(** The first stage: the standard parser, refused when there is no sheet or
    when no header cell of the first sheet has visible text. *)
Definition standardParse `{SheetJS} (buffer : Buffer) : Result WorkBook :=
  workbook <- XLSX_read buffer ;;
  match workbook with
  | [] => Err MsgEmptyWorkbook
  | (_, firstSheet) :: _ =>
      let jsonData := sheet_to_json firstSheet in
      let hasValidHeader :=
        match jsonData with
        | [] => false
        | header :: _ =>
            existsb (fun cell => truthy cell && negb (String_is_blank cell)) header
        end in
      if hasValidHeader then Ok workbook else Err MsgEmptyHeader
  end.

(** Stages one to three: the workbook that is handed to [XLSX.write]. *)
Definition convertedWorkbook `{SheetJS} `{Codecs}
    (buffer : Buffer) (forceTextRecovery : bool) : Result WorkBook :=
  workbook <-
    (if negb forceTextRecovery
     then catch (standardParse buffer) (fun _ => textBasedRecovery buffer)
     else textBasedRecovery buffer) ;;
  normalizeWorkbook workbook.

Definition convertToXlsx `{SheetJS} `{Codecs}
    (buffer : Buffer) (filename : jsstring) (forceTextRecovery : bool)
  : Result Buffer :=
  let fileExtension := last (split 46 (toLowerCase filename)) [] in
  if str_eqb fileExtension (lit "xlsx") then Ok buffer
  else
    catch
      (normalizedWorkbook <- convertedWorkbook buffer forceTextRecovery ;;
       XLSX_write normalizedWorkbook)
      (fun error => Err (MsgConversionFailed error)).

(** ** processFile *)

Inductive Warning : Type :=
  | WarnMuchLarger    (* ratio > 3 *)
  | WarnMuchSmaller.  (* ratio < 0.1 and the original over 1000 bytes *)

Record ConversionResult : Type := {
  success : bool;
  buffer : option Buffer;
  filename : jsstring;
  originalSize : Z;
  convertedSize : option Z;
  message : option Message;
  warnings : option (list Warning)
}.

(** [originalFilename.replace(/\.[^.]+$/, '')]: the last dot and what follows
    it go, when something follows it. *)
Definition strip_extension (name : jsstring) : jsstring :=
  let i := lastIndexOf 46 name in
  if (0 <=? i)%Z && negb (is_empty (skipn (S (Z.to_nat i)) name))
  then firstn (Z.to_nat i) name
  else name.

Definition CONVERTED_SUFFIX : jsstring :=
  [95; 48320; 54872; 50756; 47308] ++ lit ".xlsx".  (* _변환완료.xlsx *)

Definition buffer_length (b : Buffer) : Z := Z.of_nat (length b).

Definition processFile `{SheetJS} `{Codecs}
    (buffer : Buffer) (originalFilename : jsstring) (forceTextRecovery : bool)
  : ConversionResult :=
  let attempt :=
    _ <- (if validateFileExtension originalFilename then Ok tt
          else Err MsgUnsupportedFormat) ;;
    _ <- (if validateFileSize (buffer_length buffer) then Ok tt
          else Err MsgFileTooLarge) ;;
    convertToXlsx buffer originalFilename forceTextRecovery in
  match attempt with
  | Ok convertedBuffer =>
      let resultFilename :=
        sanitizeFilename (strip_extension originalFilename) ++ CONVERTED_SUFFIX in
      let sizeRatio :=
        num_div (of_Z (buffer_length convertedBuffer)) (of_Z (buffer_length buffer)) in
      let warnings :=
        if num_gt sizeRatio num_3 then [WarnMuchLarger]
        else if num_lt sizeRatio num_0_1 && (1000 <? buffer_length buffer)%Z
        then [WarnMuchSmaller]
        else [] in
      {| success := true;
         buffer := Some convertedBuffer;
         filename := resultFilename;
         originalSize := buffer_length buffer;
         convertedSize := Some (buffer_length convertedBuffer);
         message := None;
         warnings := match warnings with [] => None | _ => Some warnings end |}
  | Err error =>
      {| success := false;
         buffer := None;
         filename := originalFilename;
         originalSize := buffer_length buffer;
         convertedSize := None;
         message := Some error;
         warnings := None |}
  end.

(* ===================================================================== *)
(** * Part III. The vocabulary of the specification                       *)
(* ===================================================================== *)

(** ** Canonical cells

    [Empty] is the empty string, [Text] a non-empty string; [Number] and
    [Percent] are both numbers. *)

Definition is_Text (v : JsValue) : bool :=
  match v with JString (_ :: _) => true | _ => false end.

Definition Empty : JsValue := JString [].

(** A grid is rectangular when every row is as long as row 0. *)
Definition rectangular (g : grid) : Prop :=
  Forall (fun r => length r = length (hd [] g)) g.

(** The widths the recovery loop has seen: the cell count of every line. *)
Definition observed_widths (delimiter : char16) (lines : list jsstring) : list nat :=
  map (fun line => length (parseCSVLine line delimiter)) lines.

(** ** DelimiterInferencer, as section 4.2 words it

    The first 10 non-blank lines are sampled and every sampled line is cut by
    the quote-aware row parser; the scoring and the choice are those of
    [detectDelimiter]. *)

Definition spec_sampled_lines (text : jsstring) : list jsstring :=
  firstn 10 (filter not_blank (split LF text)).

Definition spec_columnCounts (delimiter : char16) (lines : list jsstring) : list Z :=
  filter (Z.ltb 1)
    (map (fun line => Z.of_nat (length (parseCSVLine line delimiter))) lines).

Definition spec_consider (lines : list jsstring) (state : char16 * number)
    (delimiter : char16) : char16 * number :=
  let score := score_of (spec_columnCounts delimiter lines) in
  if num_gt score (snd state) then (delimiter, score) else state.

Definition spec_infer (text : jsstring) : char16 :=
  fst (fold_left (spec_consider (spec_sampled_lines text)) delimiters (COMMA, num_0)).

(** The score [detectDelimiter] gives a candidate on a text. *)
Definition score (text : jsstring) (delimiter : char16) : number :=
  score_of (columnCounts delimiter (sampled_lines text)).

(** The columns a plain split cuts a line into: one more than the candidate
    occurs in it, quoted or not. *)
Definition column_count (delimiter : char16) (line : jsstring) : Z :=
  Z.of_nat (S (count_occ N.eq_dec line delimiter)).

(** What the outer loop keeps true of [(bestDelimiter, maxScore)] once the
    candidates [seen] have had their turn. *)
Definition chosen (lines : list jsstring) (seen : list char16)
    (state : char16 * number) : Prop :=
  let sc := fun c => score_of (columnCounts c lines) in
  (forall c, In c seen -> SFltb (snd state) (sc c) = false)
  /\ ((fst state = COMMA /\ snd state = num_0)
      \/ (exists earlier later,
            seen = earlier ++ fst state :: later
            /\ snd state = sc (fst state)
            /\ SFltb num_0 (snd state) = true
            /\ forall c, In c earlier -> SFleb (sc (fst state)) (sc c) = false)).

(** ** The language of a pattern: the strings it matches as a whole. *)

Inductive Lang : regex -> jsstring -> Prop :=
  | LangEps : Lang Eps []
  | LangChr (p : char16 -> bool) (c : char16) : p c = true -> Lang (Chr p) [c]
  | LangSeq (a b : regex) (s t : jsstring) :
      Lang a s -> Lang b t -> Lang (Seq a b) (s ++ t)
  | LangAltL (a b : regex) (s : jsstring) : Lang a s -> Lang (Alt a b) s
  | LangAltR (a b : regex) (s : jsstring) : Lang b s -> Lang (Alt a b) s
  | LangStarNil (a : regex) : Lang (Star a) []
  | LangStarCons (a : regex) (s t : jsstring) :
      Lang a s -> Lang (Star a) t -> Lang (Star a) (s ++ t).

Create HintDb regex.
#[local] Hint Constructors Lang : regex.

(** Every character class of the pattern lies within [q]. *)
Fixpoint over (q : char16 -> bool) (r : regex) : Prop :=
  match r with
  | Void | Eps => True
  | Chr p => forall c, p c = true -> q c = true
  | Seq a b | Alt a b => over q a /\ over q b
  | Star a => over q a
  end.

(** Not white space. *)
Definition solid (c : char16) : bool := negb (is_space c).

(** ** The header placeholder, as section 4.5 words it: from the 1-based
    position of the cell. *)

Definition placeholder (position : nat) : JsValue :=
  JString (COLUMN_LABEL ++ int_to_string (Z.of_nat position)).

(** ** The strings of the numeric rule, as C10 words them: an optional
    minus, one or more digits or commas with a digit among them, then
    optionally a dot and digits. *)

Definition digit_or_comma (c : char16) : bool := is_digit c || (c =? 44).

(** The characters a string of the numeric rule is made of. *)
Definition numeric_char (c : char16) : bool :=
  is_digit c || (c =? 44) || (c =? 45) || (c =? 46).

(** The values of the decimal digits of a string, in order. *)
Definition digit_values (s : jsstring) : list N :=
  map (fun c => c - 48) (filter is_digit s).

Definition numeric_shape (s : jsstring) : Prop :=
  exists sign body frac,
    s = sign ++ body ++ frac
    /\ (sign = [] \/ sign = [45])
    /\ forallb digit_or_comma body = true
    /\ existsb is_digit body = true
    /\ (frac = [] \/ exists ds, frac = 46 :: ds /\ forallb is_digit ds = true).

(** A one followed by 309 zeros. *)
Definition ten_to_the_309 : jsstring := 49 :: repeat 48 309.

(** ** What normalizeWorkbook makes of one sheet: its name sanitized and cut
    to 31 characters, its cells read back and normalized. *)

Definition safeSheetName (sheetName : jsstring) : jsstring :=
  substring_to 31 (sanitizeFilename sheetName).

Definition normalizeEntry `{SheetJS} (entry : jsstring * WorkSheet)
  : jsstring * WorkSheet :=
  (safeSheetName (fst entry),
   aoa_to_sheet (normalizeData (sheet_to_json (snd entry)))).

(** No two underscores side by side. *)
Fixpoint single_underscores (s : jsstring) : bool :=
  match s with
  | c :: rest =>
      match rest with
      | d :: _ => negb ((c =? 95) && (d =? 95)) && single_underscores rest
      | [] => true
      end
  | [] => true
  end.

(** ** Texts that tell [detectDelimiter] from the inferencer of section 4.2 *)

(** One line: a quoted cell holding three commas, a semicolon, a last cell. *)
Definition quoted_commas : jsstring :=
  DQUOTE :: lit "a,b,c,d" ++ DQUOTE :: lit ";x".

(** Ten empty lines, then one line with a semicolon. *)
Definition late_first_line : jsstring := repeat LF 10 ++ lit "a;b".

(** Scenario A of the specification. *)
Definition scenario_A : jsstring :=
  lit "name,age" ++ LF :: lit "Alice,30" ++ LF :: lit "Bob,25".

(** Scenario C of the specification. *)
Definition scenario_C : jsstring :=
  lit "A" ++ TAB :: lit "B" ++ TAB :: lit "C" ++ LF
  :: lit "1" ++ TAB :: lit "2" ++ TAB :: lit "3".

(** Two lines that the semicolon cuts in three and the comma in two. *)
Definition semicolon_rows : jsstring :=
  lit "a;b;c,d" ++ LF :: lit "1;2;3,4".

(** ** Libraries to run the converter on

    Codecs for 7-bit text: a byte below 128 decodes to the character of that
    code under every encoding, any other byte to U+FFFD under UTF-8; the
    detector has no guess. *)

Definition SevenBitCodecs : Codecs := {|
  utf8_toString := map (fun b => let n := Byte.to_N b in
                                 if n <? 128 then n else REPLACEMENT);
  detect := fun _ => None;
  iconv_encodingExists := fun _ => false;
  iconv_decode := fun b _ => map Byte.to_N b
|}.

(** A spreadsheet library that reads the cells of a sheet back as they were
    stored, which is what [sheet_to_json] does with strings and with cells
    that hold nothing; the reader answers [book] and the writer [out], whatever
    they are given. *)

Definition StoredCells (book : Result WorkBook) (out : Buffer) : SheetJS := {|
  XLSX_read := fun _ => book;
  sheet_to_json := sheet_cells;
  XLSX_write := fun _ => Ok out
|}.

(** A reader that refuses every buffer. *)
Definition NoReader : SheetJS :=
  StoredCells (Err (MsgLibrary (lit "unsupported file"))) [].

(** The bytes of a 7-bit text. *)
Definition bytes (s : string) : Buffer := list_byte_of_string s.

(** ** A library that reads typed cells back as text

    [sheet_to_json] is called with [raw:false]: of a cell that holds a number,
    a boolean or a date it hands back the formatted text, of a string the
    string, and null where nothing is stored.  [number_text] and [date_text]
    are the texts the library makes of a number and of a date; a boolean reads
    [TRUE] or [FALSE]. *)

Definition formatted (number_text : number -> jsstring)
    (date_text : Date -> jsstring) (cell : JsValue) : JsValue :=
  match cell with
  | JNull => JNull
  | JString s => JString s
  | JNumber x => JString (number_text x)
  | JBoolean b => JString (if b then lit "TRUE" else lit "FALSE")
  | JDate d => JString (date_text d)
  end.

Definition FormattedCells (number_text : number -> jsstring)
    (date_text : Date -> jsstring) (book : Result WorkBook) (out : Buffer)
  : SheetJS := {|
  XLSX_read := fun _ => book;
  sheet_to_json := fun sheet =>
    map (map (formatted number_text date_text)) (sheet_cells sheet);
  XLSX_write := fun _ => Ok out
|}.

(** The format [aoa_to_sheet] gives a date, [m/d/yy]. *)
Definition mdyy (d : Date) : jsstring :=
  int_to_string (month d) ++ 47 :: int_to_string (day d)
  ++ 47 :: (if (year d mod 100 <? 10)%Z then lit "0" else [])
  ++ int_to_string (year d mod 100).

(** The text of the number zero.  The runs below read back no other number. *)
Definition zero_text (x : number) : jsstring := lit "0".

Definition mid_january : Date := {| year := 2024; month := 1; day := 15 |}.

(** ** A row as a CSV writer quotes it

    Every cell stands between two quote characters, a quote character inside a
    cell is doubled, and the cells are joined by the delimiter. *)

Fixpoint double_quotes (q : char16) (cell : jsstring) : jsstring :=
  match cell with
  | [] => []
  | c :: rest =>
      if c =? q then q :: q :: double_quotes q rest
      else c :: double_quotes q rest
  end.

Definition quoted (q : char16) (cell : jsstring) : jsstring :=
  q :: double_quotes q cell ++ [q].

(** [pieces.join(d)] *)
Fixpoint join (d : char16) (pieces : list jsstring) : jsstring :=
  match pieces with
  | [] => []
  | piece :: rest =>
      match rest with
      | [] => piece
      | _ :: _ => piece ++ d :: join d rest
      end
  end.

Definition quoted_row (q d : char16) (cells : list jsstring) : jsstring :=
  join d (map (quoted q) cells).

(** ** The words of the boolean rule, lowered. *)

Definition boolean_words (b : bool) : list jsstring :=
  if b then [lit "true"; HANGUL_TRUE; lit "yes"]
  else [lit "false"; HANGUL_FALSE; lit "no"].

(** The replacement [sanitizeFilename] starts with: every character outside
    the class becomes an underscore. *)
Definition replace_unsafe (filename : jsstring) : jsstring :=
  map (fun c => if is_safe_char c then c else 95) filename.

(** ** A header cell that shows nothing

    What the test [cell && String(cell).trim() !== ''] of [convertToXlsx]
    rejects among the values that [sheet_to_json] hands back with [raw:false],
    null and strings: null and a blank string. *)
Definition shows_nothing (cell : JsValue) : Prop :=
  match cell with
  | JNull => True
  | JString s => trim s = []
  | _ => False
  end.

(** A library whose reader answers one sheet with a first row of an empty
    cell, a space and an empty string. *)
Definition BlankHeaderBook : SheetJS :=
  FormattedCells zero_text mdyy
    (Ok [(lit "Data",
          aoa_to_sheet [[JNull; JString (lit " "); JString []];
                        [JString (lit "1"); JString (lit "2"); JString (lit "3")]])])
    (bytes "written").

(** A library whose reader answers one sheet with a first row of a zero and a
    false. *)
Definition ZeroHeaderBook : SheetJS :=
  FormattedCells zero_text mdyy
    (Ok [(lit "Data",
          aoa_to_sheet [[JNumber (of_Z 0); JBoolean false];
                        [JString (lit "1"); JString (lit "2")]])])
    (bytes "written").

(** A line without quote characters. *)
Definition quote_free (line : jsstring) : bool :=
  forallb (fun c => negb (is_quote c)) line.

(** ** The score, from what it is computed from

    The sum and the number of the column counts, whether the largest is above
    ten, and the largest less the smallest. *)
Definition score_from (sum count : Z) (wide : bool) (spread : Z) : number :=
  let avgColumns := num_div (of_Z sum) (of_Z count) in
  let consistency :=
    if wide then num_0_8
    else num_sub num_1 (num_div (of_Z spread) (Math_max avgColumns num_1)) in
  num_mul (num_mul avgColumns (Math_max consistency num_0_5)) (of_Z count).

(** The integers [lo], [lo + 1], ..., [lo + n - 1]. *)
Definition Z_range (lo : Z) (n : nat) : list Z :=
  map (fun k => (lo + Z.of_nat k)%Z) (seq 0 n).

(** The widest line the scores have been computed for. *)
Definition COLUMN_BOUND : Z := 256.

(* ===================================================================== *)
(** * Part IV. Properties                                                 *)
(* ===================================================================== *)

(** ** Strings *)

Lemma is_empty_true (s : jsstring) : is_empty s = true <-> s = [].
Proof. destruct s; simpl; split; congruence. Qed.

Lemma is_empty_false (s : jsstring) : is_empty s = false <-> s <> [].
Proof. destruct s; simpl; split; congruence. Qed.

Lemma str_eqb_eq (a b : jsstring) : str_eqb a b = true <-> a = b.
Proof. unfold str_eqb. destruct (list_eq_dec N.eq_dec a b); split; congruence. Qed.

Lemma str_eqb_refl (a : jsstring) : str_eqb a a = true.
Proof. now apply str_eqb_eq. Qed.

Lemma trimStart_idem (s : jsstring) : trimStart (trimStart s) = trimStart s.
Proof.
  induction s as [|c s IH]; simpl; auto.
  destruct (is_space c) eqn:E; auto.
  simpl. now rewrite E.
Qed.

Lemma trimEnd_cons (c : char16) (s : jsstring) :
  trimEnd s <> [] -> trimEnd (c :: s) = c :: trimEnd s.
Proof. simpl. destruct (trimEnd s); congruence. Qed.

Lemma trimEnd_cons_solid (c : char16) (s : jsstring) :
  is_space c = false -> trimEnd (c :: s) = c :: trimEnd s.
Proof. intros E. simpl. rewrite E. now destruct (trimEnd s). Qed.

Lemma trimEnd_idem (s : jsstring) : trimEnd (trimEnd s) = trimEnd s.
Proof.
  induction s as [|c s IH]; simpl; auto.
  destruct (trimEnd s) as [|k kept] eqn:E.
  - destruct (is_space c) eqn:Ec; simpl; auto. now rewrite Ec.
  - rewrite trimEnd_cons; rewrite IH; congruence.
Qed.

Lemma trimStart_trimEnd (s : jsstring) :
  trimStart (trimEnd s) = trimEnd (trimStart s).
Proof.
  induction s as [|c s IH]; auto.
  destruct (is_space c) eqn:Ec.
  - assert (trimStart (c :: s) = trimStart s) as -> by (simpl; now rewrite Ec).
    rewrite <- IH. simpl.
    destruct (trimEnd s) eqn:E; rewrite ?Ec; simpl; now rewrite ?Ec.
  - rewrite trimEnd_cons_solid by assumption. simpl. now rewrite Ec, trimEnd_cons_solid.
Qed.

Lemma trim_idem (s : jsstring) : trim (trim s) = trim s.
Proof.
  unfold trim.
  now rewrite <- trimStart_trimEnd, trimEnd_idem, trimStart_trimEnd, trimStart_idem.
Qed.

Lemma trim_trimEnd (s : jsstring) : trim (trimEnd s) = trim s.
Proof. unfold trim. now rewrite trimStart_trimEnd, trimEnd_idem. Qed.

Lemma trim_nil : trim [] = [].
Proof. reflexivity. Qed.

(** A string without white space is its own trim. *)
Lemma trimEnd_solid (s : jsstring) :
  forallb solid s = true -> trimEnd s = s.
Proof.
  induction s as [|c s IH]; simpl; auto.
  intros H. apply andb_true_iff in H as [Hc Hs].
  rewrite (IH Hs). apply negb_true_iff in Hc. rewrite Hc. now destruct s.
Qed.

Lemma trim_solid (s : jsstring) :
  forallb solid s = true -> trim s = s.
Proof.
  intros H. unfold trim.
  assert (trimStart s = s) as ->.
  { destruct s as [|c s]; simpl in *; auto.
    apply andb_true_iff in H as [Hc _]. apply negb_true_iff in Hc. now rewrite Hc. }
  now apply trimEnd_solid.
Qed.

Lemma includes_nonempty (c : char16) (s : jsstring) :
  includes c s = true -> s <> [].
Proof. destruct s; simpl; congruence. Qed.

(** ** parseCSVLine *)

Lemma scan_cells_trimmed (delimiter : char16) (n : nat) :
  forall line result current quoteChar,
    (length line <= n)%nat ->
    Forall (fun cell => trim cell = cell) result ->
    Forall (fun cell => trim cell = cell)
           (fst (scan delimiter line result current quoteChar)).
Proof.
  induction n as [|n IH]; intros line result current quoteChar Hlen Hres.
  - destruct line; [exact Hres|simpl in Hlen; lia].
  - destruct line as [|char rest]; [exact Hres|].
    simpl in Hlen. simpl.
    destruct quoteChar as [q|].
    + destruct (char =? q).
      * destruct rest as [|next rest'].
        -- exact Hres.
        -- destruct (next =? q); apply IH; auto; simpl in *; lia.
      * apply IH; auto; lia.
    + destruct (is_quote char); [apply IH; auto; lia|].
      destruct (char =? delimiter); apply IH; auto; try lia.
      apply Forall_app. split; [exact Hres|].
      constructor; [apply trim_idem|constructor].
Qed.

(** Inside a span opened by [q], characters other than [q] only accumulate. *)
Lemma scan_open_quote (delimiter q : char16) (body : jsstring) :
  forall result current,
    includes q body = false ->
    scan delimiter body result current (Some q) = (result, current ++ body).
Proof.
  induction body as [|c body IH]; intros result current Hq; simpl.
  - now rewrite app_nil_r.
  - simpl in Hq. apply orb_false_iff in Hq as [Hc Hbody].
    rewrite N.eqb_sym, Hc. rewrite IH by assumption.
    now rewrite <- app_assoc.
Qed.

Lemma includes_trimEnd (c : char16) (s : jsstring) :
  includes c s = false -> includes c (trimEnd s) = false.
Proof.
  induction s as [|d s IH]; [reflexivity|].
  intros H.
  change (includes c (d :: s)) with ((c =? d) || includes c s) in H.
  apply orb_false_iff in H as [Hd Hs]. specialize (IH Hs).
  simpl trimEnd. destruct (trimEnd s) as [|k kept].
  - destruct (is_space d); [reflexivity|]. simpl. now rewrite Hd.
  - change (includes c (d :: k :: kept)) with ((c =? d) || includes c (k :: kept)).
    now rewrite Hd, IH.
Qed.

(** ** normalizeCell: the parentheses rule *)

Lemma normalizeCell_blank (value : jsstring) :
  trim value = [] -> normalizeCell value = JString [].
Proof.
  intros E. unfold normalizeCell. rewrite E. simpl. now rewrite orb_true_r.
Qed.

Lemma normalizeCell_not_blank (value : jsstring) :
  trim value <> [] ->
  is_empty value || is_empty (trim value) = false.
Proof.
  intros H. apply orb_false_iff. split; apply is_empty_false; auto.
  intros ->. now apply H.
Qed.

(** C2. Whenever the trimmed input holds both an opening and a closing
    parenthesis, normalizeCell answers the trimmed string itself, as Text:
    none of the number, percent, date and boolean rules gets to see it. *)
Theorem normalizeCell_parentheses_text (value : jsstring) :
  includes 40 (trim value) = true ->
  includes 41 (trim value) = true ->
  normalizeCell value = JString (trim value)
  /\ is_Text (normalizeCell value) = true.
Proof.
  intros Hopen Hclose.
  assert (normalizeCell value = JString (trim value)) as E.
  { unfold normalizeCell.
    rewrite normalizeCell_not_blank by now apply includes_nonempty with 40.
    now rewrite Hopen, Hclose. }
  split; [exact E|].
  rewrite E. apply includes_nonempty in Hopen. simpl. now destruct (trim value).
Qed.

Lemma normalizeCell_parentheses_text_witness :
  includes 40 (trim (lit "true (flag)")) = true
  /\ includes 41 (trim (lit "true (flag)")) = true
  /\ normalizeCell (lit "true (flag)") = JString (lit "true (flag)")
  /\ normalizeCell (lit " 2024-01-01 (rev) ") = JString (lit "2024-01-01 (rev)").
Proof.
  split; [reflexivity|]. split; [reflexivity|]. split.
  - exact (proj1 (normalizeCell_parentheses_text (lit "true (flag)") eq_refl eq_refl)).
  - exact (proj1 (normalizeCell_parentheses_text (lit " 2024-01-01 (rev) ") eq_refl eq_refl)).
Defined.

(** ** Regular expressions: what the derivatives accept *)

Lemma Lang_nil_nullable (r : regex) (s : jsstring) :
  Lang r s -> s = [] -> nullable r = true.
Proof.
  induction 1; intros E; simpl; auto; try discriminate.
  - apply app_eq_nil in E as [-> ->]. now rewrite IHLang1, IHLang2.
  - now rewrite IHLang.
  - rewrite IHLang by assumption. apply orb_true_r.
Qed.

Lemma Lang_deriv (r : regex) (w : jsstring) :
  Lang r w -> forall c s, w = c :: s -> Lang (deriv c r) s.
Proof.
  induction 1 as [ | p d Hp | a b s1 s2 Ha IHa Hb IHb | a b s1 Ha IHa
                 | a b s1 Hb IHb | a | a s1 s2 Ha IHa Hs IHs ];
    intros c s E; simpl.
  - discriminate.
  - injection E as -> <-. rewrite Hp. constructor.
  - destruct s1 as [|c1 s1'].
    + simpl in E. subst s2.
      rewrite (Lang_nil_nullable Ha eq_refl).
      apply LangAltR. now apply IHb.
    + simpl in E. injection E as -> <-.
      assert (Lang (Seq (deriv c a) b) (s1' ++ s2)) as Hseq
        by (constructor; auto).
      destruct (nullable a); auto with regex.
  - apply LangAltL. now apply IHa.
  - apply LangAltR. now apply IHb.
  - discriminate.
  - destruct s1 as [|c1 s1'].
    + simpl in E. now apply IHs.
    + simpl in E. injection E as -> <-. constructor; auto.
Qed.

(** Every string of the language passes the test. *)
Lemma test_complete (s : jsstring) :
  forall r, Lang r s -> test r s = true.
Proof.
  unfold test. induction s as [|c s IH]; intros r H; simpl.
  - now apply Lang_nil_nullable with [].
  - apply IH. now apply Lang_deriv with (c :: s).
Qed.

Lemma nullable_Lang (r : regex) : nullable r = true -> Lang r [].
Proof.
  induction r; simpl; intros H; try discriminate; auto with regex.
  - apply andb_true_iff in H as [Ha Hb].
    change (@nil char16) with (@nil char16 ++ []). auto with regex.
  - apply orb_true_iff in H as [Ha | Hb]; auto with regex.
Qed.

Lemma deriv_Lang (c : char16) (r : regex) :
  forall s, Lang (deriv c r) s -> Lang r (c :: s).
Proof.
  induction r as [ | | p | a IHa b IHb | a IHa b IHb | a IHa ]; simpl; intros s H.
  - inversion H.
  - inversion H.
  - destruct (p c) eqn:Hp; inversion H; subst. now constructor.
  - assert (forall t, Lang (Seq (deriv c a) b) t -> Lang (Seq a b) (c :: t)) as Hleft.
    { intros t Ht. inversion Ht; subst.
      change (c :: s0 ++ t0) with ((c :: s0) ++ t0). auto with regex. }
    destruct (nullable a) eqn:Hnull; [|now apply Hleft].
    inversion H; subst; [now apply Hleft|].
    change (c :: s) with ([] ++ c :: s). constructor; auto.
    now apply nullable_Lang.
  - inversion H; subst; auto with regex.
  - inversion H; subst.
    change (c :: s0 ++ t) with ((c :: s0) ++ t). auto with regex.
Qed.

(** Every string that passes the test is in the language. *)
Lemma test_sound (s : jsstring) :
  forall r, test r s = true -> Lang r s.
Proof.
  unfold test. induction s as [|c s IH]; intros r H; simpl in H.
  - now apply nullable_Lang.
  - apply deriv_Lang. now apply IH.
Qed.

Lemma Lang_class_Star (p : char16 -> bool) (r : regex) (s : jsstring) :
  Lang r s -> r = Star (Chr p) -> forallb p s = true.
Proof.
  induction 1 as [ | | | | | a | a s t Ha _ Hs IHs ]; intros E;
    try discriminate; [reflexivity|].
  injection E as ->. inversion Ha; subst. simpl.
  rewrite (IHs eq_refl). now rewrite andb_true_r.
Qed.

Lemma Lang_Star_class (p : char16 -> bool) (s : jsstring) :
  forallb p s = true -> Lang (Star (Chr p)) s.
Proof.
  induction s as [|c s IH]; simpl; intros H; [constructor|].
  apply andb_true_iff in H as [Hc Hs].
  change (c :: s) with ([c] ++ s). constructor; auto with regex.
Qed.

Lemma Lang_Plus_class (p : char16 -> bool) (s : jsstring) :
  s <> [] -> forallb p s = true -> Lang (Plus (Chr p)) s.
Proof.
  destruct s as [|c s]; [congruence|]. simpl. intros _ H.
  apply andb_true_iff in H as [Hc Hs].
  change (c :: s) with ([c] ++ s). constructor; auto with regex.
  now apply Lang_Star_class.
Qed.

Lemma existsb_nonempty {A : Type} (p : A -> bool) (l : list A) :
  existsb p l = true -> l <> [].
Proof. destruct l; simpl; congruence. Qed.

(** The strings of [numeric_shape] are in the language of the number pattern. *)
Lemma numeric_shape_matches (s : jsstring) :
  numeric_shape s -> test numberPattern s = true.
Proof.
  intros (sign & body & frac & -> & Hsign & Hbody & Hdigit & Hfrac).
  apply test_complete. unfold numberPattern, numberBody.
  constructor.
  - destruct Hsign as [-> | ->]; [apply LangAltL; constructor|].
    apply LangAltR. now constructor.
  - constructor.
    + apply Lang_Plus_class; [now apply existsb_nonempty with is_digit|exact Hbody].
    + destruct Hfrac as [-> | (ds & -> & Hds)].
      * change [] with (@nil char16 ++ []). constructor; auto with regex.
        apply LangAltL. constructor.
      * change (46 :: ds) with ([46] ++ ds). constructor.
        -- apply LangAltR. now constructor.
        -- now apply Lang_Star_class.
Qed.

Lemma includes_app (c : char16) (s t : jsstring) :
  includes c (s ++ t) = includes c s || includes c t.
Proof. unfold includes. apply existsb_app. Qed.

Lemma includes_class (c : char16) (p : char16 -> bool) (s : jsstring) :
  p c = false -> forallb p s = true -> includes c s = false.
Proof.
  intros Hc. induction s as [|d s IH]; simpl; auto.
  intros H. apply andb_true_iff in H as [Hd Hs]. rewrite (IH Hs).
  destruct (c =? d) eqn:E; auto. apply N.eqb_eq in E. congruence.
Qed.

(** No string of [numeric_shape] holds a parenthesis. *)
Lemma numeric_shape_no_paren (s : jsstring) :
  numeric_shape s -> includes 40 s = false.
Proof.
  intros (sign & body & frac & -> & Hsign & Hbody & Hdigit & Hfrac).
  rewrite !includes_app.
  assert (includes 40 sign = false) as -> by (destruct Hsign as [-> | ->]; reflexivity).
  rewrite (@includes_class 40 digit_or_comma body eq_refl Hbody).
  destruct Hfrac as [-> | (ds & -> & Hds)]; [reflexivity|].
  simpl. now apply includes_class with is_digit.
Qed.

Lemma numeric_shape_nonempty (s : jsstring) : numeric_shape s -> s <> [].
Proof.
  intros (sign & body & frac & -> & _ & _ & Hdigit & _) E.
  apply app_eq_nil in E as [_ E]. apply app_eq_nil in E as [E _].
  subst body. discriminate.
Qed.

Lemma isFinite_not_NaN (x : number) : isFinite x = true -> isNaN x = false.
Proof. now destruct x. Qed.

Lemma normalizeCell_numeric_shape (value : jsstring) :
  numeric_shape (trim value) ->
  isFinite (parseFloat (remove_commas (trim value))) = true ->
  normalizeCell value = JNumber (parseFloat (remove_commas (trim value))).
Proof.
  intros Hshape Hfinite. unfold normalizeCell.
  rewrite normalizeCell_not_blank by now apply numeric_shape_nonempty.
  rewrite (numeric_shape_no_paren Hshape). simpl.
  rewrite (numeric_shape_matches Hshape). simpl.
  now rewrite Hfinite, (isFinite_not_NaN _ Hfinite).
Qed.

(** ** parseFloat on the strings of the numeric rule *)

Lemma is_digit_range (c : char16) : is_digit c = true <-> 48 <= c <= 57.
Proof.
  unfold is_digit. rewrite andb_true_iff, !N.leb_le. tauto.
Qed.

Lemma digit_not_space (c : char16) : is_digit c = true -> is_space c = false.
Proof.
  intros H. apply is_digit_range in H. unfold is_space.
  repeat (apply orb_false_iff; split);
    try (apply andb_false_iff);
    try (apply N.eqb_neq; lia).
  - right. apply N.leb_gt. lia.
  - left. apply N.leb_gt. lia.
Qed.

Lemma digit_neq (c d : char16) :
  is_digit c = true -> is_digit d = false -> (c =? d) = false.
Proof. intros Hc Hd. apply N.eqb_neq. intros ->. congruence. Qed.

Lemma remove_commas_app (s t : jsstring) :
  remove_commas (s ++ t) = remove_commas s ++ remove_commas t.
Proof. apply filter_app. Qed.

Lemma remove_commas_body (body : jsstring) :
  forallb digit_or_comma body = true -> remove_commas body = filter is_digit body.
Proof.
  unfold remove_commas. induction body as [|c body IH]; simpl; auto.
  intros H. apply andb_true_iff in H as [Hc Hbody]. rewrite (IH Hbody).
  unfold digit_or_comma in Hc. destruct (c =? 44) eqn:E.
  - apply N.eqb_eq in E. subst c. reflexivity.
  - rewrite orb_false_r in Hc. now rewrite Hc.
Qed.

Lemma remove_commas_digits (ds : jsstring) :
  forallb is_digit ds = true -> remove_commas ds = ds.
Proof.
  unfold remove_commas. induction ds as [|c ds IH]; simpl; auto.
  intros H. apply andb_true_iff in H as [Hc Hds].
  rewrite (digit_neq c 44 Hc eq_refl). simpl. now rewrite IH.
Qed.

Lemma filter_digits (ds : jsstring) :
  forallb is_digit ds = true -> filter is_digit ds = ds.
Proof.
  induction ds as [|c ds IH]; simpl; auto.
  intros H. apply andb_true_iff in H as [Hc Hds]. now rewrite Hc, IH.
Qed.

Lemma forallb_filter {A : Type} (p : A -> bool) (l : list A) :
  forallb p (filter p l) = true.
Proof.
  induction l as [|a l IH]; simpl; auto.
  destruct (p a) eqn:E; simpl; auto. now rewrite E.
Qed.

(** A run of digits followed by the end or by something that is no digit is
    taken whole. *)
Lemma span_digits_run (ds rest : jsstring) :
  forallb is_digit ds = true ->
  match rest with [] => true | c :: _ => negb (is_digit c) end = true ->
  span_digits (ds ++ rest) = (map (fun c => c - 48) ds, rest).
Proof.
  intros Hds Hrest. induction ds as [|c ds IH]; simpl.
  - destruct rest as [|c rest]; auto.
    apply negb_true_iff in Hrest. simpl. now rewrite Hrest.
  - simpl in Hds. apply andb_true_iff in Hds as [Hc Hds].
    now rewrite Hc, (IH Hds).
Qed.

Lemma span_digits_all (ds : jsstring) :
  forallb is_digit ds = true ->
  span_digits ds = (map (fun c => c - 48) ds, []).
Proof.
  intros Hds. pose proof (span_digits_run ds [] Hds eq_refl) as H.
  now rewrite app_nil_r in H.
Qed.

(** The number parsed from a string of [numeric_shape] once its commas are
    gone: the integer spelled by all its digits, scaled down by one power of
    ten for every digit after the dot, negated under a minus. *)
Lemma parseFloat_numeric (sign body frac : jsstring) :
  sign = [] \/ sign = [45] ->
  forallb digit_or_comma body = true ->
  existsb is_digit body = true ->
  frac = [] \/ (exists ds, frac = 46 :: ds /\ forallb is_digit ds = true) ->
  parseFloat (remove_commas (sign ++ body ++ frac))
  = of_decimal (str_eqb sign [45])
      (digits_value (digit_values body ++ digit_values frac))
      (- Z.of_nat (length (digit_values frac))).
Proof.
  intros Hsign Hbody Hdigit Hfrac.
  assert (remove_commas (sign ++ body ++ frac)
          = sign ++ filter is_digit body ++ frac) as ->.
  { rewrite !remove_commas_app, (remove_commas_body _ Hbody).
    f_equal; [destruct Hsign as [-> | ->]; reflexivity|]. f_equal.
    destruct Hfrac as [-> | (ds & -> & Hds)]; [reflexivity|].
    change (46 :: ds) with ([46] ++ ds).
    now rewrite remove_commas_app, (remove_commas_digits _ Hds). }
  unfold digit_values at 1.
  pose proof (forallb_filter is_digit body) as HB.
  assert (filter is_digit body <> []) as HBne.
  { clear -Hdigit. induction body as [|c body IH]; simpl in *; [discriminate|].
    destruct (is_digit c); [discriminate|]. now apply IH. }
  destruct (filter is_digit body) as [|b B] eqn:EB; [congruence|].
  simpl in HB. apply andb_true_iff in HB as [Hb HB].
  set (tail := B ++ frac).
  assert (forall neg,
             (let (ip, r1) := span_digits (b :: tail) in
              let (fp, r2) :=
                match r1 with
                | c :: r => if c =? 46 then span_digits r else ([], r1)
                | [] => ([], [])
                end in
              match ip ++ fp with
              | [] => S754_nan
              | ds => of_decimal neg (digits_value ds)
                        (take_exponent r2 - Z.of_nat (length fp))
              end)
             = of_decimal neg
                 (digits_value (map (fun c => c - 48) (b :: B) ++ digit_values frac))
                 (- Z.of_nat (length (digit_values frac)))) as Hbody_frac.
  { intros neg. unfold tail. change (b :: B ++ frac) with ((b :: B) ++ frac).
    assert (forallb is_digit (b :: B) = true) as HbB by (simpl; now rewrite Hb, HB).
    destruct Hfrac as [-> | (ds & -> & Hds)].
    - rewrite (span_digits_run (b :: B) [] HbB eq_refl).
      reflexivity.
    - rewrite (span_digits_run (b :: B) (46 :: ds) HbB eq_refl).
      rewrite N.eqb_refl.
      rewrite (span_digits_all ds Hds).
      unfold digit_values. simpl filter. rewrite (filter_digits _ Hds).
      reflexivity. }
  assert (starts_with (lit "Infinity") (b :: tail) = false) as Hinf.
  { change (starts_with (lit "Infinity") (b :: tail))
      with ((73 =? b) && starts_with (lit "nfinity") tail).
    now rewrite N.eqb_sym, (digit_neq b 73 Hb eq_refl). }
  assert (take_sign (b :: tail) = (false, b :: tail)) as Hplain.
  { unfold take_sign.
    now rewrite (digit_neq b 45 Hb eq_refl), (digit_neq b 43 Hb eq_refl). }
  assert (trimStart (b :: tail) = b :: tail) as Hsolid.
  { simpl. now rewrite (digit_not_space b Hb). }
  unfold parseFloat.
  destruct Hsign as [-> | ->].
  - change ([] ++ (b :: B) ++ frac) with (b :: tail).
    rewrite Hsolid, Hplain, Hinf. apply Hbody_frac.
  - change ([45] ++ (b :: B) ++ frac) with (45 :: b :: tail).
    assert (trimStart (45 :: b :: tail) = 45 :: b :: tail) as Hsolid' by reflexivity.
    assert (take_sign (45 :: b :: tail) = (true, b :: tail)) as Hminus by reflexivity.
    rewrite Hsolid', Hminus, Hinf. apply Hbody_frac.
Qed.

(** ** The group of the percent pattern *)

Lemma Lang_over (q : char16 -> bool) (r : regex) (s : jsstring) :
  Lang r s -> over q r -> forallb q s = true.
Proof.
  induction 1; simpl; intros Hover; auto.
  - now rewrite (Hover c H).
  - destruct Hover as [Ha Hb]. rewrite forallb_app. now rewrite IHLang1, IHLang2.
  - now apply IHLang.
  - now apply IHLang.
  - rewrite forallb_app. now rewrite IHLang1, IHLang2.
Qed.

Lemma numberBody_solid : over solid numberBody.
Proof.
  assert (forall c : char16, is_digit c = true -> solid c = true) as Hdigit.
  { intros c Hc. unfold solid. now rewrite (digit_not_space c Hc). }
  assert (forall k c : char16, is_space k = false -> is_char k c = true ->
                               solid c = true) as Hchar.
  { intros k c Hk Hc. apply N.eqb_eq in Hc. subst c. unfold solid. now rewrite Hk. }
  assert (forall c : char16, is_digit c || (c =? 44) = true -> solid c = true)
    as Hbody.
  { intros c Hc. apply orb_true_iff in Hc as [Hc | Hc]; auto.
    apply (Hchar 44 c eq_refl). unfold is_char. now rewrite N.eqb_sym. }
  simpl. repeat split; auto.
  - intros c Hc. exact (Hchar 45 c eq_refl Hc).
  - intros c Hc. exact (Hchar 46 c eq_refl Hc).
Qed.

Lemma trimEnd_spaces (ws : jsstring) :
  forallb is_space ws = true -> trimEnd ws = [].
Proof.
  induction ws as [|c ws IH]; simpl; auto.
  intros H. apply andb_true_iff in H as [Hc Hws]. now rewrite (IH Hws), Hc.
Qed.

Lemma trimEnd_app_spaces (g ws : jsstring) :
  forallb is_space ws = true -> trimEnd (g ++ ws) = trimEnd g.
Proof.
  intros Hws. induction g as [|c g IH]; simpl.
  - now apply trimEnd_spaces.
  - now rewrite IH.
Qed.

(** When the percent pattern matches, [percentGroup] is its group 1: the
    string is the group, then white space, then the percent sign, and the
    group matches the number pattern. *)
Lemma percentGroup_is_group (s : jsstring) :
  test percentPattern s = true ->
  exists ws,
    s = percentGroup s ++ ws ++ [37]
    /\ forallb is_space ws = true
    /\ test numberBody (percentGroup s) = true.
Proof.
  intros H. apply test_sound in H. unfold percentPattern in H.
  inversion H as [ | | a b g t Hg Ht | | | | ]; subst.
  inversion Ht as [ | | a b ws p Hws Hp | | | | ]; subst.
  inversion Hp as [ | q c Hc | | | | | ]; subst.
  apply N.eqb_eq in Hc. subst c.
  pose proof (Lang_class_Star Hws eq_refl) as Hspaces.
  set (group := percentGroup _).
  assert (group = g) as ->.
  { unfold group, percentGroup. rewrite app_assoc, removelast_last.
    rewrite (trimEnd_app_spaces g ws Hspaces).
    apply trimEnd_solid. exact (@Lang_over solid _ _ Hg numberBody_solid). }
  exists ws. repeat split; auto. now apply test_complete.
Qed.

(** ** The numeric rule when the number is not finite *)

Lemma numeric_shape_chars (s : jsstring) :
  numeric_shape s -> forallb numeric_char s = true.
Proof.
  intros (sign & body & frac & -> & Hsign & Hbody & _ & Hfrac).
  assert (forall t, forallb is_digit t = true -> forallb numeric_char t = true)
    as Hdigits.
  { induction t as [|c t IH]; simpl; auto. intros H.
    apply andb_true_iff in H as [Hc Ht]. unfold numeric_char at 1.
    now rewrite Hc, IH. }
  rewrite !forallb_app. repeat (apply andb_true_iff; split).
  - destruct Hsign as [-> | ->]; reflexivity.
  - clear -Hbody. induction body as [|c t IH]; simpl in *; auto.
    apply andb_true_iff in Hbody as [Hc Ht]. unfold numeric_char at 1.
    unfold digit_or_comma in Hc. now rewrite Hc, IH.
  - destruct Hfrac as [-> | (ds & -> & Hds)]; [reflexivity|].
    simpl. now apply Hdigits.
Qed.

Lemma percentPattern_sign (s : jsstring) :
  test percentPattern s = true -> includes 37 s = true.
Proof.
  intros H. destruct (percentGroup_is_group s H) as (ws & E & _).
  rewrite E, !includes_app. simpl. now rewrite !orb_true_r.
Qed.

Lemma simpleDatePattern_dash (s : jsstring) :
  test simpleDatePattern s = true ->
  exists d rest, s = d :: rest /\ is_digit d = true /\ includes 45 rest = true.
Proof.
  intros H. apply test_sound in H. unfold simpleDatePattern in H. cbv zeta in H.
  repeat match goal with
         | H : Lang (Seq _ _) _ |- _ => inversion H; subst; clear H
         | H : Lang (Chr _) _ |- _ => inversion H; subst; clear H
         end.
  repeat match goal with
         | H : is_char 45 _ = true |- _ => apply N.eqb_eq in H; subst
         end.
  eexists _, _. split; [reflexivity|]. split; [assumption|].
  unfold includes. simpl. now rewrite !orb_true_r.
Qed.

Lemma numeric_chars_lower (s : jsstring) :
  forallb numeric_char s = true -> toLowerCase s = s.
Proof.
  unfold toLowerCase. induction s as [|c s IH]; simpl; auto.
  intros H. apply andb_true_iff in H as [Hc Hs]. rewrite (IH Hs).
  assert (c < 65) as Hlow.
  { revert Hc. unfold numeric_char, is_digit.
    rewrite !orb_true_iff, andb_true_iff, !N.leb_le, !N.eqb_eq. lia. }
  unfold lower_unit.
  assert ((65 <=? c) = false) as -> by (apply N.leb_gt; lia).
  assert ((c =? 8490) = false) as -> by (apply N.eqb_neq; lia).
  assert ((c =? 304) = false) as -> by (apply N.eqb_neq; lia).
  reflexivity.
Qed.

Lemma numeric_chars_differ (s word : jsstring) :
  forallb numeric_char s = true ->
  forallb numeric_char word = false ->
  str_eqb s word = false.
Proof.
  intros Hs Hword. destruct (str_eqb s word) eqn:E; auto.
  apply str_eqb_eq in E. congruence.
Qed.

(** A string of the numeric rule whose number is not finite is kept as it
    is: no later rule takes it. *)
Lemma normalizeCell_numeric_overflow (value : jsstring) :
  numeric_shape (trim value) ->
  isFinite (parseFloat (remove_commas (trim value))) = false ->
  normalizeCell value = JString (trim value).
Proof.
  intros Hshape Hinf.
  pose proof (numeric_shape_chars Hshape) as Hchars.
  unfold normalizeCell.
  rewrite normalizeCell_not_blank by now apply numeric_shape_nonempty.
  rewrite (numeric_shape_no_paren Hshape). simpl.
  rewrite (numeric_shape_matches Hshape), Hinf, andb_false_r. simpl.
  assert (test percentPattern (trim value) = false) as ->.
  { destruct (test percentPattern (trim value)) eqn:E; auto.
    apply percentPattern_sign in E.
    now rewrite (@includes_class 37 numeric_char _ eq_refl Hchars) in E. }
  assert (test simpleDatePattern (trim value) = false) as ->.
  { destruct (test simpleDatePattern (trim value)) eqn:E; auto. exfalso.
    destruct (simpleDatePattern_dash _ E) as (d & rest & Es & Hd & Hdash).
    destruct Hshape as (sign & body & frac & E' & Hsign & Hbody & _ & Hfrac).
    rewrite Es in E'.
    assert (includes 45 (body ++ frac) = false) as Hnone.
    { rewrite includes_app.
      rewrite (@includes_class 45 digit_or_comma body eq_refl Hbody).
      destruct Hfrac as [-> | (ds & -> & Hds)]; [reflexivity|].
      simpl. now apply includes_class with is_digit. }
    destruct Hsign as [-> | ->]; simpl in E'.
    - rewrite <- E' in Hnone.
      change (includes 45 (d :: rest)) with ((45 =? d) || includes 45 rest) in Hnone.
      rewrite Hdash, orb_true_r in Hnone. discriminate.
    - injection E' as -> _. discriminate. }
  rewrite (@numeric_chars_lower (trim value) Hchars).
  now rewrite !(fun word => @numeric_chars_differ (trim value) word Hchars)
    by reflexivity.
Qed.

(** C10, as amended. The numeric rule accepts commas wherever they stand: when
    the trimmed input is an optional minus, then digits and commas with at
    least one digit, then optionally a dot and digits, the commas are dropped
    and the number read is the integer spelled by all the digits, scaled down
    by a power of ten for every digit after the dot; normalizeCell answers
    that number when it is finite, and keeps the trimmed string as Text when
    it is not. *)
Theorem normalizeCell_commas_anywhere (value sign body frac : jsstring) :
  trim value = sign ++ body ++ frac ->
  sign = [] \/ sign = [45] ->
  forallb digit_or_comma body = true ->
  existsb is_digit body = true ->
  frac = [] \/ (exists ds, frac = 46 :: ds /\ forallb is_digit ds = true) ->
  let num :=
    of_decimal (str_eqb sign [45])
      (digits_value (digit_values body ++ digit_values frac))
      (- Z.of_nat (length (digit_values frac))) in
  normalizeCell value
  = if isFinite num then JNumber num else JString (trim value).
Proof.
  intros Htrim Hsign Hbody Hdigit Hfrac num.
  assert (parseFloat (remove_commas (trim value)) = num) as Hnum
    by (rewrite Htrim; now apply parseFloat_numeric).
  assert (numeric_shape (trim value)) as Hshape
    by (exists sign, body, frac; auto).
  destruct (isFinite num) eqn:Hfinite; rewrite <- Hnum in *.
  - now apply normalizeCell_numeric_shape.
  - now apply normalizeCell_numeric_overflow.
Qed.

Lemma normalizeCell_commas_anywhere_witness :
  normalizeCell (lit "1,2,3") = JNumber (of_Z 123)
  /\ normalizeCell (lit "12,34") = JNumber (of_Z 1234)
  /\ normalizeCell (lit " -1,2,3.50 ") = JNumber (of_decimal true 12350 (-2)).
Proof.
  split; [|split].
  - apply (@normalizeCell_commas_anywhere (lit "1,2,3") [] (lit "1,2,3") []);
      try reflexivity; left; reflexivity.
  - apply (@normalizeCell_commas_anywhere (lit "12,34") [] (lit "12,34") []);
      try reflexivity; left; reflexivity.
  - apply (@normalizeCell_commas_anywhere (lit " -1,2,3.50 ")
             [45] (lit "1,2,3") (lit ".50"));
      try reflexivity; [right; reflexivity|].
    right. exists (lit "50"). split; reflexivity.
Defined.

(** C10, as stated, fails: a one followed by 309 zeros has the shape of the
    numeric rule, but the number parsed from it is infinite, and normalizeCell
    keeps the string as Text. *)
Lemma overflowing_digits_stay_text :
  numeric_shape (trim ten_to_the_309)
  /\ parseFloat (remove_commas (trim ten_to_the_309)) = S754_infinity false
  /\ normalizeCell ten_to_the_309 = JString ten_to_the_309
  /\ is_Text (normalizeCell ten_to_the_309) = true.
Proof.
  split.
  - exists [], ten_to_the_309, []. repeat split; try (vm_compute; reflexivity).
    + now left.
    + now left.
  - repeat split; vm_compute; reflexivity.
Qed.

(** ** The order of numbers *)

Ltac order_cases :=
  repeat match goal with
         | H : context [Z.compare ?x ?y] |- _ => destruct (Z.compare_spec x y)
         | |- context [Z.compare ?x ?y] => destruct (Z.compare_spec x y)
         | H : context [Pos.compare ?x ?y] |- _ => destruct (Pos.compare_spec x y)
         | |- context [Pos.compare ?x ?y] => destruct (Pos.compare_spec x y)
         end.

Ltac float_order :=
  intros; unfold num_gt, num_lt, SFltb, SFleb, SFcompare in *;
  repeat match goal with
         | x : number |- _ => destruct x
         | x : spec_float |- _ => destruct x
         end;
  repeat match goal with s : bool |- _ => destruct s end;
  try reflexivity; try discriminate;
  repeat match goal with
         | |- context [Pos.compare_cont Eq ?x ?y] =>
             change (Pos.compare_cont Eq x y) with (Pos.compare x y)
         | H : context [Pos.compare_cont Eq ?x ?y] |- _ =>
             change (Pos.compare_cont Eq x y) with (Pos.compare x y) in H
         end;
  order_cases; simpl in *; try reflexivity; try discriminate; try lia.

Lemma SFltb_trans (a b c : number) :
  SFltb a b = true -> SFltb b c = true -> SFltb a c = true.
Proof. float_order. Qed.

Lemma SFltb_leb_trans (a b c : number) :
  SFltb a b = true -> SFleb b c = true -> SFltb a c = true.
Proof. float_order. Qed.

Lemma SFltb_irrefl (a : number) : SFltb a a = false.
Proof. float_order. Qed.

Lemma SFltb_false_of_lt (a b c : number) :
  SFltb a b = true -> SFltb a c = false -> SFltb b c = false.
Proof.
  intros Hab Hac. destruct (SFltb b c) eqn:E; auto.
  now rewrite (SFltb_trans _ _ _ Hab E) in Hac.
Qed.

Lemma SFleb_false_of_lt (a b c : number) :
  SFltb a b = true -> SFltb a c = false -> SFleb b c = false.
Proof.
  intros Hab Hac. destruct (SFleb b c) eqn:E; auto.
  now rewrite (SFltb_leb_trans _ _ _ Hab E) in Hac.
Qed.

(** ** detectDelimiter *)

Lemma split_length (delimiter : char16) (line : jsstring) :
  length (split delimiter line) = S (count_occ N.eq_dec line delimiter).
Proof.
  induction line as [|c rest IH]; [reflexivity|].
  simpl. destruct (N.eq_dec c delimiter) as [-> | Hne].
  - rewrite N.eqb_refl. simpl. now rewrite IH.
  - apply N.eqb_neq in Hne. rewrite Hne.
    destruct (split delimiter rest); simpl in *; [discriminate|exact IH].
Qed.

Lemma column_count_split (delimiter : char16) (line : jsstring) :
  column_count delimiter line = Z.of_nat (length (split delimiter line)).
Proof. unfold column_count. now rewrite split_length. Qed.

Lemma columnCounts_from (delimiter : char16) (lines : list jsstring) :
  forall counts,
    fold_left
      (fun counts line =>
         if not_blank line then
           let columnCount := Z.of_nat (length (split delimiter line)) in
           if (1 <? columnCount)%Z then counts ++ [columnCount] else counts
         else counts)
      lines counts
    = counts ++ filter (Z.ltb 1)
                  (map (column_count delimiter) (filter not_blank lines)).
Proof.
  induction lines as [|line rest IH]; intros counts; simpl.
  - now rewrite app_nil_r.
  - rewrite IH. destruct (not_blank line); [|reflexivity].
    simpl. rewrite (column_count_split delimiter line).
    destruct (1 <? Z.of_nat (length (split delimiter line)))%Z; [|reflexivity].
    now rewrite <- app_assoc.
Qed.

Lemma sampled_lines_not_blank (text : jsstring) :
  filter not_blank (sampled_lines text) = sampled_lines text.
Proof.
  unfold sampled_lines. induction (firstn 10 (split LF text)) as [|l ls IH];
    [reflexivity|].
  simpl. destruct (not_blank l) eqn:E; [|exact IH]. simpl. now rewrite E, IH.
Qed.

(** The column counts of a candidate: for every sampled line, one more than
    the candidate occurs in it, kept when above 1. *)
Lemma columnCounts_sampled (text : jsstring) (delimiter : char16) :
  columnCounts delimiter (sampled_lines text)
  = filter (Z.ltb 1) (map (column_count delimiter) (sampled_lines text)).
Proof.
  unfold columnCounts. rewrite columnCounts_from. simpl.
  now rewrite sampled_lines_not_blank.
Qed.

Section Choice.

Variable lines : list jsstring.

Let sc (c : char16) : number := score_of (columnCounts c lines).

(** A turn of the loop either takes the candidate, whose score is above the
    best so far, or leaves the state alone. *)
Lemma consider_cases (best : char16) (maxScore : number) (delimiter : char16) :
  (consider lines (best, maxScore) delimiter = (delimiter, sc delimiter)
   /\ SFltb maxScore (sc delimiter) = true)
  \/ (consider lines (best, maxScore) delimiter = (best, maxScore)
      /\ (SFltb maxScore (sc delimiter) = false \/ sc delimiter = num_0)).
Proof.
  unfold consider, num_gt, sc.
  destruct (0 <? Z.of_nat (length (columnCounts delimiter lines)))%Z eqn:E.
  - destruct (SFltb maxScore (score_of (columnCounts delimiter lines))) eqn:Elt;
      simpl; auto.
  - right. split; [reflexivity|]. right. unfold score_of. now rewrite E.
Qed.

Lemma chosen_step (seen : list char16) (state : char16 * number)
    (delimiter : char16) :
  chosen lines seen state ->
  chosen lines (seen ++ [delimiter]) (consider lines state delimiter).
Proof.
  destruct state as [best maxScore]. intros [Hmax Hbest]. simpl in Hmax, Hbest.
  assert (SFltb maxScore num_0 = false) as Hfloor.
  { destruct Hbest as [[_ ->] | (earlier & later & _ & _ & Hpos & _)];
      [reflexivity|].
    destruct (SFltb maxScore num_0) eqn:E; auto.
    pose proof (SFltb_trans _ _ _ Hpos E) as Hcycle.
    now rewrite SFltb_irrefl in Hcycle. }
  destruct (consider_cases best maxScore delimiter) as [[-> Hlt] | [-> Hkeep]];
    split; simpl.
  - intros c Hin. apply in_app_or in Hin as [Hin | [<- | []]].
    + now apply SFltb_false_of_lt with maxScore; auto.
    + apply SFltb_irrefl.
  - right. exists seen, []. repeat split; auto.
    + destruct Hbest as [[_ ->] | (earlier & later & _ & _ & Hpos & _)];
        [exact Hlt|now apply SFltb_trans with maxScore].
    + intros c Hin. now apply SFleb_false_of_lt with maxScore; auto.
  - intros c Hin. apply in_app_or in Hin as [Hin | [<- | []]]; auto.
    destruct Hkeep as [Hkeep | Hzero]; auto. unfold sc in Hzero. now rewrite Hzero.
  - destruct Hbest as [Hdefault | (earlier & later & -> & Hrest)]; [now left|].
    right. exists earlier, (later ++ [delimiter]). split; [|exact Hrest].
    now rewrite <- app_assoc.
Qed.

Lemma chosen_loop (candidates : list char16) :
  forall seen state,
    chosen lines seen state ->
    chosen lines (seen ++ candidates) (fold_left (consider lines) candidates state).
Proof.
  induction candidates as [|d rest IH]; intros seen state H; simpl.
  - now rewrite app_nil_r.
  - replace (seen ++ d :: rest) with ((seen ++ [d]) ++ rest)
      by now rewrite <- app_assoc.
    apply IH. now apply chosen_step.
Qed.

End Choice.

(** The score of a list of column counts, spelled out: the mean, times the
    consistency or 0.5 when that is more, times the number of counts. *)
Lemma score_of_formula (counts : list Z) :
  let len := of_Z (Z.of_nat (length counts)) in
  let avg := num_div (of_Z (fold_right Z.add 0%Z counts)) len in
  let largest := fold_right Z.max (hd 0%Z counts) (tl counts) in
  let smallest := fold_right Z.min (hd 0%Z counts) (tl counts) in
  let consistency :=
    if (10 <? largest)%Z then num_0_8
    else num_sub num_1
           (num_div (of_Z (largest - smallest)) (Math_max avg num_1)) in
  score_of counts
  = match counts with
    | [] => num_0
    | _ :: _ => num_mul (num_mul avg (Math_max consistency num_0_5)) len
    end.
Proof.
  destruct counts as [|count counts]; [reflexivity|].
  cbv zeta. unfold score_of.
  replace (0 <? Z.of_nat (length (count :: counts)))%Z with true
    by (symmetry; apply Z.ltb_lt; simpl length; lia).
  unfold sum_Z, max_Z, min_Z.
  rewrite (fold_symmetric Z.add Z.add_assoc 0%Z (fun y => Z.add_comm 0 y)).
  cbn [hd tl].
  rewrite (fold_symmetric Z.max Z.max_assoc count (fun y => Z.max_comm count y)).
  rewrite (fold_symmetric Z.min Z.min_assoc count (fun y => Z.min_comm count y)).
  reflexivity.
Qed.

(** C5, as amended. detectDelimiter samples the non-blank lines among the first
    10 lines of the text; for a candidate, the column count of a sampled line
    is one more than the number of times the candidate occurs in it, inside
    quotes or not.  The score of the candidate is computed from the counts
    above 1: it is 0 when there is none, and otherwise the mean of the counts,
    times the consistency or 0.5 when that is more, times the number of
    counts, where the consistency is 0.8 when the largest count is above 10 and
    1 less the spread of the counts over the mean (over 1, when the mean is
    below 1) otherwise.  Either some candidate scores above zero, and the
    answer is the first candidate, in the order tab, comma, semicolon, pipe,
    that no candidate outscores; or none does and the answer is the comma. *)
Theorem detectDelimiter_highest_score (text : jsstring) :
  sampled_lines text = filter not_blank (firstn 10 (split LF text))
  /\ (forall c,
        let counts :=
          filter (Z.ltb 1) (map (column_count c) (sampled_lines text)) in
        let len := of_Z (Z.of_nat (length counts)) in
        let avg := num_div (of_Z (fold_right Z.add 0%Z counts)) len in
        let largest := fold_right Z.max (hd 0%Z counts) (tl counts) in
        let smallest := fold_right Z.min (hd 0%Z counts) (tl counts) in
        let consistency :=
          if (10 <? largest)%Z then num_0_8
          else num_sub num_1
                 (num_div (of_Z (largest - smallest)) (Math_max avg num_1)) in
        score text c
        = match counts with
          | [] => num_0
          | _ :: _ => num_mul (num_mul avg (Math_max consistency num_0_5)) len
          end)
  /\ ((exists earlier later,
         delimiters = earlier ++ detectDelimiter text :: later
         /\ num_gt (score text (detectDelimiter text)) num_0 = true
         /\ (forall c, In c delimiters ->
               num_gt (score text c) (score text (detectDelimiter text)) = false)
         /\ (forall c, In c earlier ->
               SFleb (score text (detectDelimiter text)) (score text c) = false))
      \/ (detectDelimiter text = COMMA
          /\ forall c, In c delimiters -> num_gt (score text c) num_0 = false)).
Proof.
  split; [reflexivity|]. split.
  { intros c. cbv zeta. unfold score. rewrite columnCounts_sampled.
    apply score_of_formula. }
  assert (chosen (sampled_lines text) [] (COMMA, num_0)) as Hstart.
  { split; [intros c []|left; now split]. }
  apply chosen_loop with (candidates := delimiters) in Hstart.
  unfold detectDelimiter, detectDelimiter_loop, score, num_gt.
  destruct (fold_left _ delimiters (COMMA, num_0)) as [best maxScore].
  destruct Hstart as [Hmax [[Hcomma Hzero] | (earlier & later & E & Hm & Hpos & Hties)]];
    simpl in *.
  - right. subst. split; auto.
  - left. exists earlier, later. subst maxScore. repeat split; auto.
Qed.

Lemma detectDelimiter_highest_score_witness :
  detectDelimiter semicolon_rows = SEMICOLON
  /\ score semicolon_rows SEMICOLON = of_Z 6
  /\ score semicolon_rows COMMA = of_Z 4
  /\ num_gt (score semicolon_rows COMMA) (score semicolon_rows SEMICOLON) = false.
Proof.
  split; [vm_compute; reflexivity|]. split; [|split].
  - refine (eq_trans
              (proj1 (proj2 (detectDelimiter_highest_score semicolon_rows)) SEMICOLON) _).
    vm_compute. reflexivity.
  - refine (eq_trans
              (proj1 (proj2 (detectDelimiter_highest_score semicolon_rows)) COMMA) _).
    vm_compute. reflexivity.
  - destruct (proj2 (proj2 (detectDelimiter_highest_score semicolon_rows)))
      as [(earlier & later & _ & _ & Hmax & _) | [_ Hnone]].
    + apply (Hmax COMMA). right. now left.
    + vm_compute. reflexivity.
Defined.

(** C5, as stated, fails on both counts.  Commas inside a quoted span count:
    detectDelimiter answers the comma where the quote-aware inferencer answers
    the semicolon.  And the sample is cut from the first 10 lines before the
    blank ones are dropped: after ten empty lines detectDelimiter has nothing
    left to score and answers the comma. *)
Lemma detectDelimiter_counts_quoted_commas :
  detectDelimiter quoted_commas = COMMA
  /\ spec_infer quoted_commas = SEMICOLON
  /\ detectDelimiter late_first_line = COMMA
  /\ spec_infer late_first_line = SEMICOLON.
Proof. repeat split; vm_compute; reflexivity. Qed.

(** ** textBasedRecovery: the shape of the grid *)

Lemma recovery_loop_width (delimiter : char16) (lines : list jsstring) :
  forall lineIndex data maxColumns,
    snd (recovery_loop delimiter lines lineIndex data maxColumns)
    = Nat.max maxColumns (list_max (observed_widths delimiter lines)).
Proof.
  induction lines as [|line rest IH]; intros lineIndex data maxColumns; simpl.
  - now rewrite Nat.max_0_r.
  - set (cells := parseCSVLine line delimiter).
    assert (length (if Nat.eqb lineIndex 0 then map (headerCell cells) cells
                    else map normalizeCell cells) = length cells) as Hlen
      by (destruct (Nat.eqb lineIndex 0); apply length_map).
    destruct (Nat.eqb lineIndex 0 || existsb has_content _);
      rewrite IH, Hlen; lia.
Qed.

Lemma recovery_loop_rows_fit (delimiter : char16) (lines : list jsstring) :
  forall lineIndex data maxColumns,
    Forall (fun r => (length r <= maxColumns)%nat) data ->
    Forall (fun r => (length r
                     <= snd (recovery_loop delimiter lines lineIndex data maxColumns))%nat)
           (fst (recovery_loop delimiter lines lineIndex data maxColumns)).
Proof.
  induction lines as [|line rest IH]; intros lineIndex data maxColumns Hfit; simpl.
  - exact Hfit.
  - set (cells := parseCSVLine line delimiter).
    set (processed := if Nat.eqb lineIndex 0 then map (headerCell cells) cells
                      else map normalizeCell cells).
    assert (Forall (fun r => (length r <= Nat.max maxColumns (length processed))%nat) data)
      as Hfit'.
    { eapply Forall_impl; [|exact Hfit]. simpl. intros; lia. }
    destruct (Nat.eqb lineIndex 0 || existsb has_content processed).
    + apply IH. apply Forall_app. split; [exact Hfit'|].
      constructor; [lia|constructor].
    + now apply IH.
Qed.

Lemma length_pad_row (maxColumns : nat) (r : row) :
  (length r <= maxColumns)%nat -> length (pad_row maxColumns r) = maxColumns.
Proof. intros H. unfold pad_row. rewrite length_app, repeat_length. lia. Qed.

Lemma uniform_rectangular (g : grid) (width : nat) :
  Forall (fun r => length r = width) g -> rectangular g.
Proof.
  intros H. unfold rectangular. destruct g as [|r0 g']; [constructor|].
  simpl. inversion H as [|? ? H0 _]; subst.
  eapply Forall_impl; [|exact H]. simpl. intros; congruence.
Qed.

(** The grid recovered from a text: the retained rows, each padded on the
    right with empty cells up to the largest cell count of any line. *)
Lemma recovered_data_shape (text : jsstring) :
  exists (data : grid) (width : nat),
    recovery_loop (detectDelimiter text) (filter not_blank (split LF text)) 0%nat [] 0%nat
    = (data, width)
    /\ width = list_max (observed_widths (detectDelimiter text)
                           (filter not_blank (split LF text)))
    /\ Forall (fun r => (length r <= width)%nat) data
    /\ recovered_data text
       = map (fun r => r ++ repeat Empty (width - length r)) data
    /\ Forall (fun r => length r = width) (recovered_data text).
Proof.
  set (loop := recovery_loop (detectDelimiter text)
                 (filter not_blank (split LF text)) 0%nat [] 0%nat).
  assert (recovered_data text = map (pad_row (snd loop)) (fst loop)) as Hdata.
  { unfold recovered_data. fold loop. now destruct loop. }
  assert (Forall (fun r => (length r <= snd loop)%nat) (fst loop)) as Hfit
    by (apply recovery_loop_rows_fit; constructor).
  exists (fst loop), (snd loop).
  split; [apply surjective_pairing|].
  split; [unfold loop; now rewrite recovery_loop_width|].
  split; [exact Hfit|].
  split; [exact Hdata|].
  rewrite Hdata. apply Forall_map. eapply Forall_impl; [|exact Hfit].
  intros r Hr. now apply length_pad_row.
Qed.

(** The loop past the first line: the rows it adds are the later lines, cut
    and normalized, without those that have no content. *)
Lemma recovery_loop_later_lines (delimiter : char16) (lines : list jsstring) :
  forall lineIndex data maxColumns,
    lineIndex <> 0%nat ->
    fst (recovery_loop delimiter lines lineIndex data maxColumns)
    = data ++ filter (existsb has_content)
                (map (fun line => map normalizeCell (parseCSVLine line delimiter))
                     lines).
Proof.
  induction lines as [|line rest IH]; intros lineIndex data maxColumns Hindex.
  - simpl. rewrite app_nil_r. reflexivity.
  - cbn [recovery_loop map filter].
    assert (Hlater : Nat.eqb lineIndex 0 = false) by (apply Nat.eqb_neq, Hindex).
    rewrite Hlater. cbn [orb].
    destruct (existsb has_content (map normalizeCell (parseCSVLine line delimiter))).
    + rewrite IH by discriminate. rewrite <- app_assoc. reflexivity.
    + apply IH. discriminate.
Qed.

(** C3. The grid that the recovery pipeline hands to the sheet is rectangular:
    every row is as long as row 0.  The loop keeps the header cells of the
    first non-blank line and, of every later non-blank line, the normalized
    cells when one of them has content; it sees as width the largest cell count
    of any non-blank line.  The grid is these very rows, in order, each with
    its cells as they are and then empty cells, as many as it is short of the
    width: every row of the grid has that width, which is the length of row 0.
    The grid has a row as soon as the text has a non-blank line, and it is what
    textBasedRecovery stores in Sheet1 (or, when it is empty, what makes it
    fail). *)
Theorem recovery_grid_rectangular `{Codecs} (buffer : Buffer) :
  let text := detectAndDecode buffer in
  let delimiter := detectDelimiter text in
  let lines := filter not_blank (split LF text) in
  let width := list_max (observed_widths delimiter lines) in
  let kept :=
    match lines with
    | [] => []
    | first :: rest =>
        map (headerCell (parseCSVLine first delimiter)) (parseCSVLine first delimiter)
        :: filter (existsb has_content)
             (map (fun line => map normalizeCell (parseCSVLine line delimiter)) rest)
    end in
  recovery_loop delimiter lines 0%nat [] 0%nat = (kept, width)
  /\ Forall (fun r => (length r <= width)%nat) kept
  /\ recovered_data text = map (fun r => r ++ repeat Empty (width - length r)) kept
  /\ Forall (fun r => length r = width) (recovered_data text)
  /\ rectangular (recovered_data text)
  /\ (recovered_data text = [] <-> lines = [])
  /\ (textBasedRecovery buffer
        = Ok [(lit "Sheet1", aoa_to_sheet (recovered_data text))]
      \/ (recovered_data text = []
          /\ textBasedRecovery buffer = Err MsgNoParsedData)).
Proof.
  intros text delimiter lines width kept.
  destruct (recovered_data_shape text) as (data & w & Hloop & Hw & Hfit & Hpad & Hall).
  fold delimiter lines in Hloop, Hw. fold width in Hw. subst w.
  assert (Hkept : data = kept).
  { pose proof (f_equal fst Hloop) as Hfst. cbn [fst] in Hfst. rewrite <- Hfst.
    unfold kept. destruct lines as [|first rest]; [reflexivity|].
    cbn [recovery_loop Nat.eqb orb].
    rewrite recovery_loop_later_lines by discriminate. reflexivity. }
  subst data.
  split; [exact Hloop|]. split; [exact Hfit|]. split; [exact Hpad|].
  split; [exact Hall|]. split; [apply uniform_rectangular with width; exact Hall|].
  split.
  - rewrite Hpad. unfold kept. destruct lines as [|first rest].
    + split; reflexivity.
    + split; discriminate.
  - unfold textBasedRecovery. fold text.
    destruct (recovered_data text) as [|r0 g']; [right; split; reflexivity|].
    left. reflexivity.
Qed.

(** ** The header row *)

(** C6. The placeholder of a blank header cell is looked up by content: on the
    header [id,,] both blank cells receive the label of column 2, the first
    blank one, where the position of the third cell would give the label of
    column 3. *)
Theorem blank_headers_share_first_label :
  map (headerCell [lit "id"; []; []]) [lit "id"; []; []]
  = [JString (lit "id"); placeholder 2; placeholder 2]
  /\ hd [] (recovered_data (lit "id,," ++ LF :: lit "7,8,9"))
     = [JString (lit "id"); placeholder 2; placeholder 2]
  /\ placeholder 2 <> placeholder 3.
Proof.
  split; [reflexivity|]. split; [vm_compute; reflexivity|]. discriminate.
Qed.

(** ** normalizeWorkbook: idempotence *)

Lemma normalizeCell_trim (value : jsstring) :
  normalizeCell (trim value) = normalizeCell value.
Proof.
  destruct (trim value) as [|c t] eqn:E.
  - now rewrite (normalizeCell_blank value E).
  - assert (trim (c :: t) = c :: t) as Ht by (rewrite <- E; apply trim_idem).
    unfold normalizeCell. rewrite Ht, E. simpl is_empty.
    destruct value; [discriminate|]. reflexivity.
Qed.

(** A string that normalizeCell answers is the empty string or the trimmed
    input. *)
Lemma normalizeCell_string (value t : jsstring) :
  normalizeCell value = JString t -> t = [] \/ t = trim value.
Proof.
  unfold normalizeCell.
  destruct (is_empty value || is_empty (trim value)); [left; congruence|].
  destruct (includes 40 (trim value) && includes 41 (trim value));
    [right; congruence|].
  destruct (test numberPattern (trim value) && negb (includes 40 (trim value))).
  { destruct (negb (isNaN _) && isFinite _); [discriminate|].
    repeat match goal with
           | |- context [if ?c then _ else _] => destruct c
           | |- context [option_map _ ?o] => destruct o; simpl
           end; try discriminate; right; congruence. }
  repeat match goal with
         | |- context [if ?c then _ else _] => destruct c
         | |- context [option_map _ ?o] => destruct o; simpl
         end; try discriminate; right; congruence.
Qed.

Lemma normalizeValue_normalizeCell (value : jsstring) :
  normalizeValue (normalizeCell value) = normalizeCell value.
Proof.
  destruct (normalizeCell value) as [|t| | |] eqn:E; try reflexivity.
  simpl. destruct (normalizeCell_string _ E) as [-> | ->].
  - reflexivity.
  - now rewrite normalizeCell_trim.
Qed.

Lemma normalizeValue_idem (v : JsValue) :
  normalizeValue (normalizeValue v) = normalizeValue v.
Proof. destruct v; try reflexivity. apply normalizeValue_normalizeCell. Qed.

Lemma normalizeData_idem (g : grid) :
  normalizeData (normalizeData g) = normalizeData g.
Proof.
  unfold normalizeData. rewrite map_map. apply map_ext. intros r.
  rewrite map_map. apply map_ext. apply normalizeValue_idem.
Qed.

(** The data rows of the recovered grid are made of answers of normalizeCell
    and of empty padding: normalizing them again changes nothing. *)
Lemma recovery_loop_data_rows (delimiter : char16) (lines : list jsstring) :
  forall lineIndex data maxColumns,
    (lineIndex = 0%nat -> data = []) ->
    (lineIndex <> 0%nat ->
     data <> [] /\ Forall (fun r => map normalizeValue r = r) (tl data)) ->
    Forall (fun r => map normalizeValue r = r)
           (tl (fst (recovery_loop delimiter lines lineIndex data maxColumns))).
Proof.
  induction lines as [|line rest IH]; intros lineIndex data maxColumns H0 HS; simpl.
  - destruct lineIndex; [now rewrite H0|]. now apply HS.
  - destruct lineIndex as [|i]; simpl.
    + rewrite (H0 eq_refl). apply IH; [discriminate|]. intros _.
      split; [discriminate|constructor].
    + destruct (HS (Nat.neq_succ_0 i)) as [Hne Hrows].
      destruct (existsb has_content _); apply IH; try discriminate; auto.
      intros _. split; [now destruct data|].
      destruct data as [|header rows]; [congruence|]. simpl in *.
      apply Forall_app. split; [exact Hrows|].
      constructor; [|constructor].
      rewrite map_map. apply map_ext. apply normalizeValue_normalizeCell.
Qed.

Lemma normalizeValue_padding (k : nat) :
  map normalizeValue (repeat (JString []) k) = repeat (JString []) k.
Proof.
  induction k as [|k IH]; [reflexivity|].
  simpl repeat. simpl map. rewrite IH. reflexivity.
Qed.

Lemma recovered_data_rows_stable (text : jsstring) :
  normalizeData (tl (recovered_data text)) = tl (recovered_data text).
Proof.
  unfold recovered_data.
  pose proof (@recovery_loop_data_rows (detectDelimiter text)
                (filter not_blank (split LF text)) 0 [] 0 (fun _ => eq_refl)) as H.
  destruct (recovery_loop _ _ _ _ _) as [data width]. simpl in H.
  assert (Forall (fun r => map normalizeValue r = r) (tl data)) as Hrows
    by (apply H; congruence).
  clear H. destruct data as [|header rows]; [reflexivity|]. simpl in *.
  unfold normalizeData. rewrite map_map.
  induction Hrows as [|r rows Hr Hrows IH]; [reflexivity|].
  simpl. rewrite IH. f_equal.
  unfold pad_row. rewrite map_app, Hr. f_equal. apply normalizeValue_padding.
Qed.

(** ** sanitizeFilename: a sanitized name is left as it is *)

Lemma safe_not_space (c : char16) : is_safe_char c = true -> is_space c = false.
Proof.
  intros H. apply not_true_is_false. intros Hs. revert H Hs.
  unfold is_safe_char, is_word, is_digit, is_space.
  rewrite !orb_true_iff, !andb_true_iff, !N.leb_le, !N.eqb_eq. lia.
Qed.

Lemma safe_solid (s : jsstring) :
  forallb is_safe_char s = true -> forallb solid s = true.
Proof.
  induction s as [|c s IH]; [reflexivity|]. simpl.
  intros H. apply andb_true_iff in H as [Hc Hs].
  unfold solid at 1. now rewrite (safe_not_space _ Hc), IH.
Qed.

Lemma collapse_head (c : char16) (s : jsstring) :
  exists rest, collapse_underscores (c :: s) = c :: rest.
Proof.
  revert c. induction s as [|d s IH]; intros c.
  - now exists [].
  - simpl. destruct ((c =? 95) && (d =? 95)) eqn:E.
    + apply andb_true_iff in E as [Ec Ed].
      apply N.eqb_eq in Ec, Ed. subst c d. apply (IH 95).
    + eexists. reflexivity.
Qed.

Lemma collapse_single (s : jsstring) :
  single_underscores (collapse_underscores s) = true.
Proof.
  induction s as [|c s IH]; [reflexivity|].
  destruct s as [|d s]; [reflexivity|].
  change (collapse_underscores (c :: d :: s))
    with (if (c =? 95) && (d =? 95) then collapse_underscores (d :: s)
          else c :: collapse_underscores (d :: s)).
  destruct ((c =? 95) && (d =? 95)) eqn:E; [exact IH|].
  destruct (collapse_head d s) as [rest Hrest].
  rewrite Hrest in *. simpl. rewrite E. exact IH.
Qed.

Lemma single_collapse (s : jsstring) :
  single_underscores s = true -> collapse_underscores s = s.
Proof.
  induction s as [|c s IH]; [reflexivity|].
  destruct s as [|d s]; [reflexivity|].
  intros H. simpl in H. apply andb_true_iff in H as [Hcd Hs].
  apply negb_true_iff in Hcd.
  change (collapse_underscores (c :: d :: s))
    with (if (c =? 95) && (d =? 95) then collapse_underscores (d :: s)
          else c :: collapse_underscores (d :: s)).
  rewrite Hcd. f_equal. now apply IH.
Qed.

Lemma single_firstn (n : nat) (s : jsstring) :
  single_underscores s = true -> single_underscores (firstn n s) = true.
Proof.
  revert s. induction n as [|n IH]; intros s H; [reflexivity|].
  destruct s as [|c s]; [reflexivity|].
  destruct s as [|d s]; [destruct n; reflexivity|].
  simpl in H. apply andb_true_iff in H as [Hcd Hs].
  specialize (IH (d :: s) Hs).
  destruct n as [|n]; [reflexivity|].
  change (firstn (S (S n)) (c :: d :: s)) with (c :: firstn (S n) (d :: s)).
  change (firstn (S n) (d :: s)) with (d :: firstn n s) in *.
  simpl. rewrite Hcd. exact IH.
Qed.

Lemma collapse_keeps (p : char16 -> bool) (s : jsstring) :
  forallb p s = true -> forallb p (collapse_underscores s) = true.
Proof.
  induction s as [|c s IH]; [reflexivity|].
  intros H. simpl in H. apply andb_true_iff in H as [Hc Hs].
  destruct s as [|d s]; [simpl; now rewrite Hc|].
  change (collapse_underscores (c :: d :: s))
    with (if (c =? 95) && (d =? 95) then collapse_underscores (d :: s)
          else c :: collapse_underscores (d :: s)).
  destruct ((c =? 95) && (d =? 95)); [now apply IH|].
  simpl forallb. rewrite Hc. now apply IH.
Qed.

Lemma forallb_firstn {A : Type} (p : A -> bool) (n : nat) (l : list A) :
  forallb p l = true -> forallb p (firstn n l) = true.
Proof.
  revert l. induction n as [|n IH]; intros [|a l] H; auto.
  simpl in *. apply andb_true_iff in H as [Ha Hl]. now rewrite Ha, IH.
Qed.

(** A name made of safe characters, without doubled underscores and not
    empty, is what sanitizeFilename makes of it. *)
Lemma sanitizeFilename_clean (s : jsstring) :
  forallb is_safe_char s = true ->
  single_underscores s = true ->
  s <> [] ->
  sanitizeFilename s = s.
Proof.
  intros Hsafe Hsingle Hne. unfold sanitizeFilename.
  assert (map (fun c => if is_safe_char c then c else 95) s = s) as ->.
  { clear -Hsafe. induction s as [|c s IH]; [reflexivity|].
    simpl in *. apply andb_true_iff in Hsafe as [Hc Hs]. now rewrite Hc, IH. }
  rewrite (single_collapse _ Hsingle).
  rewrite (trim_solid _ (safe_solid _ Hsafe)). now destruct s.
Qed.

Lemma sanitizeFilename_is_clean (name : jsstring) :
  forallb is_safe_char (sanitizeFilename name) = true
  /\ single_underscores (sanitizeFilename name) = true
  /\ sanitizeFilename name <> [].
Proof.
  unfold sanitizeFilename.
  set (m := collapse_underscores (map (fun c => if is_safe_char c then c else 95) name)).
  assert (forallb is_safe_char m = true) as Hsafe.
  { apply collapse_keeps. clear. induction name as [|c s IH]; [reflexivity|].
    simpl. rewrite IH. destruct (is_safe_char c) eqn:E; [now rewrite E|reflexivity]. }
  assert (trim m = m) as -> by now apply trim_solid, safe_solid.
  destruct m as [|c m'] eqn:Em; simpl is_empty; cbv iota.
  - repeat split; discriminate.
  - split; [exact Hsafe|]. split; [|discriminate].
    rewrite <- Em. apply collapse_single.
Qed.

Lemma safeSheetName_idem (name : jsstring) :
  safeSheetName (safeSheetName name) = safeSheetName name.
Proof.
  unfold safeSheetName, substring_to.
  destruct (sanitizeFilename_is_clean name) as (Hsafe & Hsingle & Hne).
  rewrite sanitizeFilename_clean.
  - rewrite firstn_firstn. now rewrite Nat.min_id.
  - now apply forallb_firstn.
  - now apply single_firstn.
  - destruct (sanitizeFilename name); [congruence|discriminate].
Qed.

(** ** normalizeWorkbook, sheet by sheet *)

Lemma name_taken (name : jsstring) (names : list jsstring) :
  existsb (str_eqb name) names = true <-> In name names.
Proof.
  rewrite existsb_exists. split.
  - intros (x & Hin & Heq). apply str_eqb_eq in Heq. now subst.
  - intros Hin. exists name. split; [exact Hin|apply str_eqb_refl].
Qed.

Lemma SheetNames_app (a b : WorkBook) :
  SheetNames (a ++ b) = SheetNames a ++ SheetNames b.
Proof. apply map_app. Qed.

Section SheetBySheet.

Context `{SheetJS}.

Lemma normalizeSheet_Ok (acc : WorkBook) (entry : jsstring * WorkSheet) :
  normalizeSheet (Ok acc) entry
  = if existsb (str_eqb (fst (normalizeEntry entry))) (SheetNames acc)
    then Err (MsgSheetExists (fst (normalizeEntry entry)))
    else Ok (acc ++ [normalizeEntry entry]).
Proof. destruct entry as [name sheet]. reflexivity. Qed.

Lemma normalizeSheets_Err (workbook : WorkBook) (m : Message) :
  fold_left normalizeSheet workbook (Err m) = Err m.
Proof. induction workbook as [|entry rest IH]; simpl; auto. Qed.

(** When the sheets go through, the result is the sheets normalized one by
    one, in order, and no name comes twice. *)
Lemma normalizeSheets_Ok (workbook : WorkBook) :
  forall acc result,
    fold_left normalizeSheet workbook (Ok acc) = Ok result ->
    result = acc ++ map normalizeEntry workbook
    /\ (NoDup (SheetNames acc) -> NoDup (SheetNames result)).
Proof.
  induction workbook as [|entry rest IH]; intros acc result Hfold.
  - simpl in Hfold. injection Hfold as <-. rewrite app_nil_r. auto.
  - change (fold_left normalizeSheet (entry :: rest) (Ok acc))
      with (fold_left normalizeSheet rest (normalizeSheet (Ok acc) entry)) in Hfold.
    rewrite normalizeSheet_Ok in Hfold.
    destruct (existsb _ (SheetNames acc)) eqn:Etaken.
    + rewrite normalizeSheets_Err in Hfold. discriminate.
    + destruct (IH _ _ Hfold) as [-> Hnodup]. split.
      * simpl. now rewrite <- app_assoc.
      * intros Hacc. apply Hnodup. rewrite SheetNames_app.
        apply NoDup_app; [exact Hacc|repeat constructor; auto|].
        intros name Hin [<- | []]. apply name_taken in Hin. congruence.
Qed.

(** When no two normalized names coincide, the sheets go through. *)
Lemma normalizeSheets_NoDup (workbook : WorkBook) :
  forall acc,
    NoDup (SheetNames (acc ++ map normalizeEntry workbook)) ->
    fold_left normalizeSheet workbook (Ok acc)
    = Ok (acc ++ map normalizeEntry workbook).
Proof.
  induction workbook as [|entry rest IH]; intros acc Hnodup.
  - simpl. now rewrite app_nil_r.
  - change (fold_left normalizeSheet (entry :: rest) (Ok acc))
      with (fold_left normalizeSheet rest (normalizeSheet (Ok acc) entry)).
    rewrite normalizeSheet_Ok.
    change (map normalizeEntry (entry :: rest))
      with ([normalizeEntry entry] ++ map normalizeEntry rest) in *.
    rewrite app_assoc in *.
    destruct (existsb _ (SheetNames acc)) eqn:Etaken.
    + exfalso. apply name_taken in Etaken.
      rewrite SheetNames_app in Hnodup. apply NoDup_app_remove_r in Hnodup.
      rewrite SheetNames_app in Hnodup. simpl in Hnodup.
      apply NoDup_remove_2 in Hnodup. rewrite app_nil_r in Hnodup. contradiction.
    + now apply IH.
Qed.

End SheetBySheet.

(** ** normalizeWorkbook and the header row *)

(** In every sheet that comes out of normalizeWorkbook, row 0 is made of the
    answers of normalizeCell on the cells read in row 0: the header is treated
    as any other row. *)
Lemma normalizeWorkbook_header_rows `{SheetJS} (workbook normalized : WorkBook) :
  normalizeWorkbook workbook = Ok normalized ->
  map (fun entry => hd [] (sheet_cells (snd entry))) normalized
  = map (fun entry => map normalizeValue (hd [] (sheet_to_json (snd entry))))
        workbook.
Proof.
  intros Hnorm. unfold normalizeWorkbook in Hnorm.
  destruct (normalizeSheets_Ok _ _ Hnorm) as [-> _]. simpl.
  rewrite map_map. apply map_ext. intros [name sheet]. simpl.
  now destruct (sheet_to_json sheet).
Qed.

(** C1. The header row goes through normalizeCell like every other row once
    the workbook reaches normalizeWorkbook.  On the recovery path the header
    [2024,name] is stored as two strings and comes out of the conversion with
    the number 2024 in its first cell; on the standard path a sheet whose
    header reads [2024] and [true] comes out with a number and a boolean. *)
Theorem header_row_is_normalized :
  @textBasedRecovery SevenBitCodecs (bytes "2024,name" ++ x0a :: bytes "7,Ann")
  = Ok [(lit "Sheet1",
         aoa_to_sheet [[JString (lit "2024"); JString (lit "name")];
                       [JNumber (of_Z 7); JString (lit "Ann")]])]
  /\ @convertedWorkbook NoReader SevenBitCodecs
       (bytes "2024,name" ++ x0a :: bytes "7,Ann") true
     = Ok [(lit "Sheet1",
            aoa_to_sheet [[JNumber (of_Z 2024); JString (lit "name")];
                          [JNumber (of_Z 7); JString (lit "Ann")]])]
  /\ @convertedWorkbook
       (StoredCells
          (Ok [(lit "Data",
                aoa_to_sheet [[JString (lit "2024"); JString (lit "true")];
                              [JString (lit "7"); JString (lit "x")]])]) [])
       SevenBitCodecs (bytes "a workbook") false
     = Ok [(lit "Data",
            aoa_to_sheet [[JNumber (of_Z 2024); JBoolean true];
                          [JNumber (of_Z 7); JString (lit "x")]])]
  /\ is_Text (JNumber (of_Z 2024)) = false
  /\ is_Text (JBoolean true) = false.
Proof.
  repeat split; vm_compute; reflexivity.
Qed.

(** ** convertToXlsx: the pass-through *)

Lemma split_whole (sep : char16) (s : jsstring) :
  includes sep s = false -> split sep s = [s].
Proof.
  induction s as [|c s IH]; [reflexivity|].
  intros H. change (includes sep (c :: s)) with ((sep =? c) || includes sep s) in H.
  apply orb_false_iff in H as [Hc Hs]. simpl.
  now rewrite N.eqb_sym, Hc, (IH Hs).
Qed.

Lemma split_suffix (sep : char16) (stem ext : jsstring) :
  includes sep ext = false ->
  exists piece pieces, split sep (stem ++ sep :: ext) = (piece :: pieces) ++ [ext].
Proof.
  intros Hext. induction stem as [|c stem (piece & pieces & IH)]; simpl.
  - rewrite N.eqb_refl, (split_whole _ _ Hext). now exists [], [].
  - rewrite IH. destruct (c =? sep).
    + now exists [], (piece :: pieces).
    + now exists (c :: piece), pieces.
Qed.

(** A name that, lowered, ends in [.xlsx] has the extension [xlsx]. *)
Lemma xlsx_suffix_extension (filename stem : jsstring) :
  toLowerCase filename = stem ++ lit ".xlsx" ->
  last (split 46 (toLowerCase filename)) [] = lit "xlsx".
Proof.
  intros ->.
  destruct (@split_suffix 46 stem (lit "xlsx") eq_refl) as (piece & pieces & E).
  transitivity (last ((piece :: pieces) ++ [lit "xlsx"]) []).
  - f_equal. exact E.
  - apply last_last.
Qed.

(** C8. When the lowered file name ends in the extension xlsx, convertToXlsx
    answers the very buffer it was given, whatever the buffer, whatever
    forceTextRecovery says and whatever the libraries would have done: neither
    the codecs nor the spreadsheet library take part in the result. *)
Theorem convertToXlsx_xlsx_passthrough `{SheetJS} `{Codecs}
    (buffer : Buffer) (filename : jsstring) (forceTextRecovery : bool) :
  last (split 46 (toLowerCase filename)) [] = lit "xlsx" ->
  convertToXlsx buffer filename forceTextRecovery = Ok buffer.
Proof.
  intros E. unfold convertToXlsx. rewrite E. now rewrite str_eqb_refl.
Qed.

Lemma convertToXlsx_xlsx_passthrough_witness :
  last (split 46 (toLowerCase (lit "Report.2024.XLSX"))) [] = lit "xlsx"
  /\ @convertToXlsx NoReader SevenBitCodecs
       (bytes "not a spreadsheet") (lit "Report.2024.XLSX") true
     = Ok (bytes "not a spreadsheet")
  /\ @convertToXlsx NoReader SevenBitCodecs
       (bytes "not a spreadsheet") (lit "Report.2024.XLSX") false
     = Ok (bytes "not a spreadsheet").
Proof.
  split; [reflexivity|]. split.
  - exact (@convertToXlsx_xlsx_passthrough NoReader SevenBitCodecs
             (bytes "not a spreadsheet") (lit "Report.2024.XLSX") true eq_refl).
  - exact (@convertToXlsx_xlsx_passthrough NoReader SevenBitCodecs
             (bytes "not a spreadsheet") (lit "Report.2024.XLSX") false eq_refl).
Defined.

(** ** processFile on an input without lines *)

Lemma recovered_data_no_lines (text : jsstring) :
  filter not_blank (split LF text) = [] -> recovered_data text = [].
Proof. intros E. unfold recovered_data. now rewrite E. Qed.




(** ** The scenarios of section 8 of the specification *)

(** The arithmetic is that of binary64: 7 * 0.8 is not 5.6, and the score of
    the column counts 12 and 2 is 11.200000000000001. *)
Example seven_times_point_eight :
  num_mul (of_Z 7) num_0_8 = parseFloat (lit "5.6000000000000005")
  /\ num_mul (of_Z 7) num_0_8 <> parseFloat (lit "5.6").
Proof. split; [reflexivity|discriminate]. Qed.

Example score_of_wide_header :
  score_of [12; 2]%Z = parseFloat (lit "11.200000000000001")
  /\ score_of [2; 2; 2]%Z = of_Z 6
  /\ score_of [2; 3]%Z = of_Z 3.
Proof. repeat split; vm_compute; reflexivity. Qed.

Example scenario_A_delimiter : detectDelimiter scenario_A = COMMA.
Proof. reflexivity. Qed.

Example scenario_A_rows :
  recovered_data scenario_A
  = [[JString (lit "name"); JString (lit "age")];
     [JString (lit "Alice"); JNumber (of_Z 30)];
     [JString (lit "Bob"); JNumber (of_Z 25)]].
Proof. vm_compute. reflexivity. Qed.

Example scenario_B_percent :
  normalizeCell (lit "85%") = JNumber (of_decimal false 85 (-2)).
Proof. vm_compute. reflexivity. Qed.

Example scenario_C_tab :
  detectDelimiter scenario_C = TAB
  /\ tl (recovered_data scenario_C)
     = [[JNumber (of_Z 1); JNumber (of_Z 2); JNumber (of_Z 3)]].
Proof. split; vm_compute; reflexivity. Qed.

(* ===================================================================== *)
(** * Part V. Further properties of the converter                         *)
(* ===================================================================== *)

(** ** Strings, continued *)

Lemma trim_app_spaces (s ws : jsstring) :
  forallb is_space ws = true -> trim (s ++ ws) = trim s.
Proof.
  intros Hws. unfold trim.
  rewrite <- !trimStart_trimEnd, (trimEnd_app_spaces s ws Hws). reflexivity.
Qed.

Lemma trimStart_spaces_app (ws s : jsstring) :
  forallb is_space ws = true -> trimStart (ws ++ s) = trimStart s.
Proof.
  induction ws as [|c ws IH]; [reflexivity|].
  intros H. simpl in H. apply andb_true_iff in H as [Hc Hws].
  simpl. rewrite Hc. apply IH, Hws.
Qed.

Lemma trim_spaces_app (ws s : jsstring) :
  forallb is_space ws = true -> trim (ws ++ s) = trim s.
Proof. intros H. unfold trim. rewrite (trimStart_spaces_app ws s H). reflexivity. Qed.

(** ** validateFileExtension *)

Lemma toLowerCase_app (a b : jsstring) :
  toLowerCase (a ++ b) = toLowerCase a ++ toLowerCase b.
Proof. apply flat_map_app. Qed.

Lemma lower_unit_length (c : char16) :
  length (lower_unit c) = if c =? 304 then 2%nat else 1%nat.
Proof.
  unfold lower_unit.
  destruct ((65 <=? c) && (c <=? 90)) eqn:Hcap.
  - apply andb_true_iff in Hcap as [H1 H2].
    apply N.leb_le in H1, H2.
    destruct (c =? 304) eqn:E; [apply N.eqb_eq in E; lia | reflexivity].
  - destruct (c =? 8490) eqn:Hk.
    + apply N.eqb_eq in Hk. subst c. reflexivity.
    + destruct (c =? 304); reflexivity.
Qed.

Lemma toLowerCase_length (s : jsstring) :
  if includes 304 s then (length s < length (toLowerCase s))%nat
  else length (toLowerCase s) = length s.
Proof.
  assert (Hge : forall t, (length t <= length (toLowerCase t))%nat).
  { induction t as [|c t IH]; [apply le_n|].
    change (toLowerCase (c :: t)) with (lower_unit c ++ toLowerCase t).
    rewrite length_app, lower_unit_length. simpl length.
    unfold jsstring, char16 in *. destruct (c =? 304); lia. }
  induction s as [|c s IH]; [reflexivity|].
  change (toLowerCase (c :: s)) with (lower_unit c ++ toLowerCase s).
  change (includes 304 (c :: s)) with ((304 =? c) || includes 304 s).
  rewrite length_app, lower_unit_length, (N.eqb_sym c 304). simpl length.
  destruct (304 =? c); simpl orb.
  - specialize (Hge s). unfold jsstring, char16 in *. lia.
  - unfold jsstring, char16 in *. destruct (includes 304 s); lia.
Qed.

(** The lowered stem, cut at the length of the stem: nothing is left exactly
    when the stem holds no U+0130. *)
Lemma lowered_stem_cut (stem : jsstring) :
  skipn (length stem) (toLowerCase stem) = [] <-> includes 304 stem = false.
Proof.
  pose proof (toLowerCase_length stem) as Hlen.
  rewrite <- length_zero_iff_nil, length_skipn.
  unfold jsstring, char16 in *.
  destruct (includes 304 stem); split; intros H;
    try reflexivity; try discriminate; lia.
Qed.

Lemma lower_unit_keeps (c d : char16) :
  In c (lower_unit d) -> c = 46 \/ c = 40 \/ c = 37 -> d = c.
Proof.
  unfold lower_unit. intros Hin Hc.
  destruct ((65 <=? d) && (d <=? 90)) eqn:Hcap.
  - apply andb_true_iff in Hcap as [H1 H2].
    apply N.leb_le in H1, H2.
    destruct Hin as [Hin|[]]. lia.
  - destruct (d =? 8490).
    + destruct Hin as [Hin|[]]. lia.
    + destruct (d =? 304).
      * destruct Hin as [Hin|[Hin|[]]]; lia.
      * destruct Hin as [Hin|[]]. congruence.
Qed.

Lemma includes_In (c : char16) (s : jsstring) : includes c s = true <-> In c s.
Proof.
  unfold includes. rewrite existsb_exists. split.
  - intros [x [Hin Hx]]. apply N.eqb_eq in Hx. subst x. exact Hin.
  - intros Hin. exists c. split; [exact Hin | apply N.eqb_refl].
Qed.

(** The characters of the converter's literals that lowering neither makes nor
    removes: the dot, the opening parenthesis, the percent sign. *)
Lemma includes_toLowerCase (c : char16) (s : jsstring) :
  c = 46 \/ c = 40 \/ c = 37 ->
  includes c (toLowerCase s) = includes c s.
Proof.
  intros Hc.
  destruct (includes c s) eqn:E.
  - apply includes_In. apply includes_In in E.
    unfold toLowerCase. apply in_flat_map. exists c. split; [exact E|].
    destruct Hc as [-> | [-> | ->]]; left; reflexivity.
  - destruct (includes c (toLowerCase s)) eqn:E'; [|reflexivity].
    apply includes_In in E'. unfold toLowerCase in E'.
    apply in_flat_map in E' as [d [Hd Hin]].
    apply lower_unit_keeps in Hin; [|exact Hc]. subst d.
    apply includes_In in Hd. congruence.
Qed.

Lemma lastIndexOf_none (c : char16) (s : jsstring) :
  includes c s = false -> lastIndexOf c s = (-1)%Z.
Proof.
  unfold includes.
  induction s as [|d s IH]; simpl; [reflexivity|].
  intros H. apply orb_false_iff in H as [Hd Hs].
  rewrite (IH Hs). rewrite N.eqb_sym, Hd. reflexivity.
Qed.

Lemma lastIndexOf_suffix (c : char16) (stem ext : jsstring) :
  includes c ext = false ->
  lastIndexOf c (stem ++ c :: ext) = Z.of_nat (length stem).
Proof.
  intros Hext.
  induction stem as [|d stem IH].
  - simpl. rewrite (lastIndexOf_none _ _ Hext), N.eqb_refl. reflexivity.
  - change ((d :: stem) ++ c :: ext) with (d :: (stem ++ c :: ext)).
    cbn [lastIndexOf]. rewrite IH.
    destruct (Z.of_nat (length stem)) eqn:E; simpl length; lia.
Qed.

(** A string that holds the character splits at its last occurrence. *)
Lemma last_occurrence (c : char16) (s : jsstring) :
  includes c s = true ->
  exists stem ext, s = stem ++ c :: ext /\ includes c ext = false.
Proof.
  induction s as [|d s IH]; [discriminate|].
  intros H.
  destruct (includes c s) eqn:Hs.
  - destruct (IH eq_refl) as [stem [ext [-> Hext]]].
    exists (d :: stem), ext. split; [reflexivity | exact Hext].
  - unfold includes in H, Hs. simpl in H. rewrite Hs, orb_false_r in H.
    apply N.eqb_eq in H. subst d.
    exists [], s. split; [reflexivity | exact Hs].
Qed.

(** What [validateFileExtension] compares with the supported extensions when
    the name has a last dot: the lowered name from as many characters in as the
    dot is in the name itself. *)
Lemma validateFileExtension_cut (stem ext : jsstring) :
  includes 46 ext = false ->
  validateFileExtension (stem ++ 46 :: ext)
  = existsb
      (str_eqb (skipn (length stem) (toLowerCase stem) ++ 46 :: toLowerCase ext))
      SUPPORTED_EXTENSIONS.
Proof.
  intros Hext. unfold validateFileExtension, substring_from.
  replace (lastIndexOf 46 (stem ++ 46 :: ext)) with (Z.of_nat (length stem))
    by (symmetry; apply lastIndexOf_suffix; exact Hext).
  replace (toLowerCase (stem ++ 46 :: ext))
    with (toLowerCase stem ++ 46 :: toLowerCase ext)
    by (symmetry; apply (toLowerCase_app stem (46 :: ext))).
  rewrite Nat2Z.id, skipn_app.
  assert (Hlen : (length stem - length (toLowerCase stem) = 0)%nat).
  { pose proof (toLowerCase_length stem) as H.
    destruct (includes 304 stem); lia. }
  rewrite Hlen. reflexivity.
Qed.

Lemma supported_one_dot (s : jsstring) :
  existsb (str_eqb s) SUPPORTED_EXTENSIONS = true ->
  exists ext, s = 46 :: ext /\ includes 46 ext = false.
Proof.
  intros H. apply existsb_exists in H as [x [Hin Hx]].
  apply str_eqb_eq in Hx. subst x.
  repeat (destruct Hin as [<-|Hin]; [eexists; split; reflexivity|]).
  destruct Hin.
Qed.

Lemma supported_In (s : jsstring) :
  existsb (str_eqb s) SUPPORTED_EXTENSIONS = true <-> In s SUPPORTED_EXTENSIONS.
Proof.
  rewrite existsb_exists. split.
  - intros [x [Hin Hx]]. apply str_eqb_eq in Hx. subst x. exact Hin.
  - intros Hin. exists s. split; [exact Hin | apply str_eqb_refl].
Qed.

(** X1. Which names [validateFileExtension] accepts.  A name is accepted
    exactly when it has a dot, what follows its last dot is, once lowered, one
    of xls, xlsx, csv, tsv and txt, and no U+0130 stands before that dot: the
    comparison is blind to the case of the extension, and a name without a dot
    is refused. *)
Theorem validateFileExtension_accepts (filename : jsstring) :
  validateFileExtension filename = true
  <-> exists stem ext,
        filename = stem ++ 46 :: ext
        /\ includes 46 ext = false
        /\ includes 304 stem = false
        /\ In (46 :: toLowerCase ext) SUPPORTED_EXTENSIONS.
Proof.
  split.
  - intros Hok.
    destruct (includes 46 filename) eqn:Hdot.
    + destruct (last_occurrence _ _ Hdot) as [stem [ext [-> Hext]]].
      exists stem, ext.
      pose proof (eq_trans (eq_sym (validateFileExtension_cut stem ext Hext)) Hok)
        as Hcut.
      clear Hok. rename Hcut into Hok.
      destruct (supported_one_dot _ Hok) as [e [He Hnodot]].
      destruct (skipn (length stem) (toLowerCase stem)) as [|a rest] eqn:Hskip.
      * repeat split; try assumption.
        -- apply lowered_stem_cut. exact Hskip.
        -- apply supported_In. exact Hok.
      * exfalso. simpl in He. injection He as _ He. subst e.
        rewrite includes_app in Hnodot.
        apply orb_false_iff in Hnodot as [_ Hnodot].
        unfold includes in Hnodot. simpl in Hnodot. discriminate.
    + exfalso. unfold validateFileExtension, substring_from in Hok.
      rewrite (lastIndexOf_none _ _ Hdot) in Hok.
      change (skipn (Z.to_nat (-1)) (toLowerCase filename))
        with (toLowerCase filename) in Hok.
      destruct (supported_one_dot _ Hok) as [e [He _]].
      assert (Hin : includes 46 (toLowerCase filename) = true)
        by (rewrite He; reflexivity).
      rewrite includes_toLowerCase in Hin by auto. congruence.
  - intros [stem [ext [-> [Hext [Hstem Hin]]]]].
    refine (eq_trans (validateFileExtension_cut stem ext Hext) _).
    apply lowered_stem_cut in Hstem. rewrite Hstem. apply supported_In. exact Hin.
Qed.

(** X2. The capital I with a dot above.  Lowering U+0130 gives two
    characters, and the extension is cut from the lowered name at the place the
    last dot has in the name as given: with that letter anywhere before the
    last dot the cut falls short of the dot, and the name is refused whatever
    its extension. *)
Theorem validateFileExtension_dotted_capital_I (stem ext : jsstring) :
  includes 304 stem = true ->
  includes 46 ext = false ->
  validateFileExtension (stem ++ 46 :: ext) = false.
Proof.
  intros Hstem Hext.
  refine (eq_trans (validateFileExtension_cut stem ext Hext) _).
  destruct (existsb _ SUPPORTED_EXTENSIONS) eqn:Hok; [exfalso | reflexivity].
  destruct (supported_one_dot _ Hok) as [e [He Hnodot]].
  destruct (skipn (length stem) (toLowerCase stem)) as [|a rest] eqn:Hskip.
  - apply lowered_stem_cut in Hskip. congruence.
  - simpl in He. injection He as _ He. subst e.
    rewrite includes_app in Hnodot.
    apply orb_false_iff in Hnodot as [_ Hnodot].
    unfold includes in Hnodot. simpl in Hnodot. discriminate.
Qed.

Lemma validateFileExtension_dotted_capital_I_witness :
  includes 304 (304 :: lit "stanbul") = true
  /\ includes 46 (lit "csv") = false
  /\ validateFileExtension (304 :: lit "stanbul.csv") = false
  /\ validateFileExtension (lit "Istanbul.CSV") = true.
Proof.
  split; [reflexivity|]. split; [reflexivity|]. split.
  - apply (validateFileExtension_dotted_capital_I (304 :: lit "stanbul") (lit "csv"));
      reflexivity.
  - reflexivity.
Defined.

(** ** sanitizeFilename *)

Lemma collapse_length (s : jsstring) :
  (length (collapse_underscores s) <= length s)%nat.
Proof.
  induction s as [|c s IH]; [apply le_n|].
  destruct s as [|d s]; [apply le_n|].
  change (collapse_underscores (c :: d :: s))
    with (if (c =? 95) && (d =? 95) then collapse_underscores (d :: s)
          else c :: collapse_underscores (d :: s)).
  destruct ((c =? 95) && (d =? 95)); simpl length in *; lia.
Qed.

Lemma replace_unsafe_safe (filename : jsstring) :
  forallb is_safe_char (replace_unsafe filename) = true.
Proof.
  unfold replace_unsafe.
  induction filename as [|c s IH]; [reflexivity|].
  simpl. rewrite IH, andb_true_r.
  destruct (is_safe_char c) eqn:E; [exact E | reflexivity].
Qed.

(** X3. What [sanitizeFilename] answers.  The answer is never empty, is
    made of letters, digits, Hangul syllables, dots, hyphens and underscores
    only, has no two underscores side by side and no white space at either
    end, and is left as it is when sanitized again. *)
Theorem sanitizeFilename_idempotent (name : jsstring) :
  sanitizeFilename name <> []
  /\ forallb is_safe_char (sanitizeFilename name) = true
  /\ single_underscores (sanitizeFilename name) = true
  /\ trim (sanitizeFilename name) = sanitizeFilename name
  /\ sanitizeFilename (sanitizeFilename name) = sanitizeFilename name.
Proof.
  destruct (sanitizeFilename_is_clean name) as [Hsafe [Hsingle Hne]].
  repeat split; try assumption.
  - apply trim_solid, safe_solid, Hsafe.
  - apply sanitizeFilename_clean; assumption.
Qed.

(** X4. The default name.  Only the empty name is answered with
    [converted_file]: for any other name the answer is the name with every
    character outside the class replaced by an underscore and every run of
    underscores collapsed into one, the final trim finds nothing to remove,
    and the answer is no longer than the name. *)
Theorem sanitizeFilename_default_only_for_empty (name : jsstring) :
  name <> [] ->
  sanitizeFilename name = collapse_underscores (replace_unsafe name)
  /\ (1 <= length (sanitizeFilename name) <= length name)%nat.
Proof.
  intros Hne.
  assert (Hsafe : forallb is_safe_char (collapse_underscores (replace_unsafe name)) = true)
    by (apply collapse_keeps, replace_unsafe_safe).
  assert (Htrim : trim (collapse_underscores (replace_unsafe name))
                  = collapse_underscores (replace_unsafe name))
    by (apply trim_solid, safe_solid, Hsafe).
  assert (Hkept : exists c rest, collapse_underscores (replace_unsafe name) = c :: rest).
  { destruct name as [|c s]; [congruence|].
    destruct (collapse_head (if is_safe_char c then c else 95) (replace_unsafe s))
      as [rest Hrest].
    eexists; eexists; exact Hrest. }
  destruct Hkept as [c [rest Hkept]].
  assert (Hanswer : sanitizeFilename name = collapse_underscores (replace_unsafe name)).
  { unfold sanitizeFilename. fold (replace_unsafe name).
    rewrite Htrim, Hkept. reflexivity. }
  split; [exact Hanswer|].
  rewrite Hanswer.
  pose proof (collapse_length (replace_unsafe name)) as Hlen.
  unfold replace_unsafe in Hlen at 2. rewrite length_map in Hlen.
  rewrite Hkept in *. simpl length in *. lia.
Qed.

Lemma sanitizeFilename_default_only_for_empty_witness :
  sanitizeFilename (lit "  ") = lit "_"
  /\ sanitizeFilename (lit "Q1 sales (draft).csv") = lit "Q1_sales_draft_.csv"
  /\ sanitizeFilename [] = lit "converted_file".
Proof.
  split; [|split; [|reflexivity]].
  - refine (eq_trans (proj1 (@sanitizeFilename_default_only_for_empty (lit "  ") _)) _);
      [discriminate | reflexivity].
  - refine (eq_trans (proj1 (@sanitizeFilename_default_only_for_empty
                               (lit "Q1 sales (draft).csv") _)) _);
      [discriminate | reflexivity].
Defined.

(** ** detectAndDecode: where U+FFFD can come from *)




(** ** detectDelimiter: when no candidate occurs *)

Lemma column_count_one (delimiter : char16) (line : jsstring) :
  includes delimiter line = false -> column_count delimiter line = 1%Z.
Proof.
  intros Hnone. unfold column_count.
  replace (count_occ N.eq_dec line delimiter) with 0%nat; [reflexivity|].
  symmetry. revert Hnone. unfold includes.
  induction line as [|c line IH]; [reflexivity|].
  cbn [existsb count_occ]. intros H. apply orb_false_iff in H as [Hc Hline].
  destruct (N.eq_dec c delimiter) as [E|E].
  - subst c. rewrite N.eqb_refl in Hc. discriminate.
  - apply IH, Hline.
Qed.

Lemma columnCounts_none (delimiter : char16) (lines : list jsstring) :
  (forall line, In line lines -> includes delimiter line = false) ->
  filter (Z.ltb 1) (map (column_count delimiter) lines) = [].
Proof.
  induction lines as [|line rest IH]; intros Hnone; [reflexivity|].
  cbn [map filter].
  rewrite (column_count_one delimiter line) by (apply Hnone; left; reflexivity).
  cbn. apply IH. intros l Hl. apply Hnone. right. exact Hl.
Qed.

Lemma consider_without_columns (lines : list jsstring) (state : char16 * number)
    (delimiter : char16) :
  columnCounts delimiter lines = [] -> consider lines state delimiter = state.
Proof.
  intros Hnone. unfold consider. destruct state as [best maxScore].
  rewrite Hnone. reflexivity.
Qed.

(** X6. The default delimiter.  When none of the four candidates occurs in
    any of the sampled lines (a text of one column, a blank text, a text whose
    first ten lines are empty) no candidate is scored and the answer is the
    comma. *)
Theorem detectDelimiter_defaults_to_comma (text : jsstring) :
  (forall line delimiter,
     In line (sampled_lines text) -> In delimiter delimiters ->
     includes delimiter line = false) ->
  detectDelimiter text = COMMA
  /\ forall delimiter, In delimiter delimiters -> score text delimiter = num_0.
Proof.
  intros Hnone.
  assert (Hcounts : forall delimiter, In delimiter delimiters ->
                      columnCounts delimiter (sampled_lines text) = []).
  { intros delimiter Hin. rewrite columnCounts_sampled.
    apply columnCounts_none. intros line Hline. apply Hnone; assumption. }
  split.
  - unfold detectDelimiter, detectDelimiter_loop, delimiters. cbn [fold_left].
    rewrite !consider_without_columns; try reflexivity;
      apply Hcounts; unfold delimiters; simpl; auto.
  - intros delimiter Hin. unfold score. rewrite (Hcounts delimiter Hin). reflexivity.
Qed.

Lemma detectDelimiter_defaults_to_comma_witness :
  sampled_lines (lit "name" ++ LF :: lit "Alice" ++ LF :: lit "Bob")
  = [lit "name"; lit "Alice"; lit "Bob"]
  /\ detectDelimiter (lit "name" ++ LF :: lit "Alice" ++ LF :: lit "Bob") = COMMA.
Proof.
  split; [reflexivity|].
  apply (@detectDelimiter_defaults_to_comma
           (lit "name" ++ LF :: lit "Alice" ++ LF :: lit "Bob")).
  intros line delimiter Hline Hdelimiter.
  change (In line [lit "name"; lit "Alice"; lit "Bob"]) in Hline.
  unfold delimiters in Hdelimiter. simpl in Hline, Hdelimiter.
  repeat match goal with
         | H : _ \/ _ |- _ => destruct H
         | H : False |- _ => destruct H
         end; subst; reflexivity.
Defined.

(** ** detectDelimiter: one candidate only *)

Lemma Z_range_In (lo x : Z) (n : nat) :
  (lo <= x < lo + Z.of_nat n)%Z -> In x (Z_range lo n).
Proof.
  intros Hx. unfold Z_range. apply in_map_iff.
  exists (Z.to_nat (x - lo)). split; [lia|].
  apply in_seq. lia.
Qed.

Lemma score_of_from (counts : list Z) :
  counts <> [] ->
  score_of counts
  = score_from (sum_Z counts) (Z.of_nat (length counts))
      (10 <? max_Z counts)%Z (max_Z counts - min_Z counts).
Proof.
  intros Hne. unfold score_of, score_from.
  destruct counts as [|c rest]; [congruence|]. reflexivity.
Qed.

Lemma sum_Z_bounds (lo hi : Z) (counts : list Z) :
  Forall (fun c => (lo <= c <= hi)%Z) counts ->
  forall start,
    (start + lo * Z.of_nat (length counts) <= fold_left Z.add counts start
     <= start + hi * Z.of_nat (length counts))%Z.
Proof.
  induction 1 as [|c rest Hc _ IH]; intros start.
  - cbn. lia.
  - cbn [fold_left length]. specialize (IH (start + c)%Z). lia.
Qed.

Lemma max_Z_bounds (lo hi : Z) (rest : list Z) :
  Forall (fun c => (lo <= c <= hi)%Z) rest ->
  forall start,
    (lo <= start <= hi)%Z ->
    (start <= fold_left Z.max rest start <= hi)%Z
    /\ Forall (fun c => (c <= fold_left Z.max rest start)%Z) rest.
Proof.
  induction 1 as [|c rest Hc _ IH]; intros start Hstart.
  - cbn. split; [lia | constructor].
  - cbn [fold_left].
    assert (Hnext : (lo <= Z.max start c <= hi)%Z) by lia.
    destruct (IH (Z.max start c) Hnext) as [Hfold Hall].
    split; [lia|]. constructor; [lia | exact Hall].
Qed.

Lemma min_Z_bounds (lo hi : Z) (rest : list Z) :
  Forall (fun c => (lo <= c <= hi)%Z) rest ->
  forall start,
    (lo <= start <= hi)%Z ->
    (lo <= fold_left Z.min rest start <= start)%Z.
Proof.
  induction 1 as [|c rest Hc _ IH]; intros start Hstart.
  - cbn. lia.
  - cbn [fold_left].
    assert (Hnext : (lo <= Z.min start c <= hi)%Z) by lia.
    specialize (IH (Z.min start c) Hnext). lia.
Qed.

Lemma forallb_nested {A B : Type} (p : A -> B -> bool) (inner : A -> list B)
    (outer : list A) :
  forallb (fun a => forallb (p a) (inner a)) outer = true ->
  forall a, In a outer -> forall b, In b (inner a) -> p a b = true.
Proof.
  intros Hall a Ha b Hb.
  rewrite forallb_forall in Hall. specialize (Hall a Ha).
  rewrite forallb_forall in Hall. exact (Hall b Hb).
Qed.

(** The scores of up to ten lines of which one has more than ten columns and
    none more than [COLUMN_BOUND], all computed: each is above zero. *)
Lemma wide_scores_positive :
  forall count, In count (Z_range 1 10) ->
  forall sum,
    In sum (Z_range (2 * count) (Z.to_nat ((COLUMN_BOUND - 2) * count + 1))) ->
    num_gt (score_from sum count true 0) num_0 = true.
Proof.
  apply (forallb_nested
           (fun count sum => num_gt (score_from sum count true 0) num_0)
           (fun count => Z_range (2 * count)
                           (Z.to_nat ((COLUMN_BOUND - 2) * count + 1)))
           (Z_range 1 10)).
  vm_compute. reflexivity.
Qed.

(** The scores of up to ten lines of two to ten columns, all computed: each
    is above zero. *)
Lemma narrow_scores_positive :
  forall count, In count (Z_range 1 10) ->
  forall sum, In sum (Z_range (2 * count) (Z.to_nat (8 * count + 1))) ->
  forallb (fun spread => num_gt (score_from sum count false spread) num_0)
          (Z_range 0 9) = true.
Proof.
  apply (forallb_nested
           (fun count sum =>
              forallb (fun spread => num_gt (score_from sum count false spread) num_0)
                      (Z_range 0 9))
           (fun count => Z_range (2 * count) (Z.to_nat (8 * count + 1)))
           (Z_range 1 10)).
  vm_compute. reflexivity.
Qed.

Lemma score_from_wide (sum count spread : Z) :
  score_from sum count true spread = score_from sum count true 0.
Proof. reflexivity. Qed.

Lemma wide_lookup (sum count spread : Z) :
  (1 <= count <= 10)%Z ->
  (2 * count <= sum <= COLUMN_BOUND * count)%Z ->
  num_gt (score_from sum count true spread) num_0 = true.
Proof.
  intros Hcount Hsum. rewrite score_from_wide.
  apply wide_scores_positive; apply Z_range_In; unfold COLUMN_BOUND in *; lia.
Qed.

Lemma narrow_lookup (sum count spread : Z) :
  (1 <= count <= 10)%Z ->
  (2 * count <= sum <= 10 * count)%Z ->
  (0 <= spread <= 8)%Z ->
  num_gt (score_from sum count false spread) num_0 = true.
Proof.
  intros Hcount Hsum Hspread.
  assert (Hcount_in : In count (Z_range 1 10)) by (apply Z_range_In; lia).
  assert (Hsum_in : In sum (Z_range (2 * count) (Z.to_nat (8 * count + 1))))
    by (apply Z_range_In; lia).
  pose proof (@narrow_scores_positive count Hcount_in sum Hsum_in) as Htable.
  rewrite forallb_forall in Htable.
  apply Htable. apply Z_range_In. lia.
Qed.

(** The score of up to ten lines, none cut into more than [COLUMN_BOUND]
    columns, is above zero. *)
Lemma score_of_positive (counts : list Z) :
  counts <> [] ->
  (length counts <= 10)%nat ->
  Forall (fun c => (2 <= c <= COLUMN_BOUND)%Z) counts ->
  num_gt (score_of counts) num_0 = true.
Proof.
  intros Hne Hlen Hall.
  rewrite (score_of_from Hne).
  destruct counts as [|first rest]; [congruence|]. clear Hne.
  pose proof (Forall_inv Hall) as Hfirst.
  pose proof (Forall_inv_tail Hall) as Hrest.
  cbv beta in Hfirst.
  destruct (max_Z_bounds Hrest Hfirst) as [Hmax Hbelow].
  pose proof (min_Z_bounds Hrest Hfirst) as Hmin.
  assert (Hcount : (1 <= Z.of_nat (length (first :: rest)) <= 10)%Z)
    by (cbn [length] in *; lia).
  assert (Hlargest : max_Z (first :: rest) = fold_left Z.max rest first)
    by reflexivity.
  assert (Hsmallest : min_Z (first :: rest) = fold_left Z.min rest first)
    by reflexivity.
  rewrite Hlargest, Hsmallest.
  destruct (10 <? fold_left Z.max rest first)%Z eqn:Hwide.
  - apply wide_lookup; [exact Hcount|].
    exact (sum_Z_bounds Hall 0%Z).
  - apply Z.ltb_ge in Hwide.
    assert (Hnarrow : Forall (fun c => (2 <= c <= 10)%Z) (first :: rest)).
    { constructor; [lia|].
      rewrite Forall_forall in Hrest, Hbelow |- *. intros c Hc.
      specialize (Hrest c Hc). specialize (Hbelow c Hc). lia. }
    apply narrow_lookup; [exact Hcount | exact (sum_Z_bounds Hnarrow 0%Z) | lia].
Qed.

Lemma consider_scored (lines : list jsstring) (best : char16) (maxScore : number)
    (delimiter : char16) :
  columnCounts delimiter lines <> [] ->
  num_gt (score_of (columnCounts delimiter lines)) maxScore = true ->
  consider lines (best, maxScore) delimiter
  = (delimiter, score_of (columnCounts delimiter lines)).
Proof.
  intros Hne Hgt. unfold consider.
  destruct (columnCounts delimiter lines) as [|c rest] eqn:E; [congruence|].
  cbn [length]. rewrite Hgt. reflexivity.
Qed.

Lemma sampled_lines_length (text : jsstring) : (length (sampled_lines text) <= 10)%nat.
Proof.
  unfold sampled_lines.
  etransitivity; [apply filter_length_le|].
  rewrite length_firstn. apply Nat.le_min_l.
Qed.

Lemma column_count_two (delimiter : char16) (line : jsstring) :
  includes delimiter line = true -> (2 <= column_count delimiter line)%Z.
Proof.
  intros Hin. apply includes_In in Hin.
  apply (count_occ_In N.eq_dec) in Hin.
  unfold column_count. unfold jsstring, char16 in *. lia.
Qed.

(** X7. One candidate only.  When one of the four candidates occurs in the
    sampled lines and the three others do not, that candidate is the answer:
    its score is above zero and no other candidate is scored.  The scores have
    been computed for lines that the candidate cuts into no more than
    [COLUMN_BOUND] columns. *)
Theorem detectDelimiter_single_candidate (text : jsstring) (candidate : char16)
    (sample : jsstring) :
  In candidate delimiters ->
  In sample (sampled_lines text) ->
  includes candidate sample = true ->
  (forall other line,
     In other delimiters -> other <> candidate -> In line (sampled_lines text) ->
     includes other line = false) ->
  (forall line,
     In line (sampled_lines text) ->
     (column_count candidate line <= COLUMN_BOUND)%Z) ->
  detectDelimiter text = candidate
  /\ num_gt (score text candidate) num_0 = true.
Proof.
  intros Hcandidate Hsample Hoccurs Hothers Hbound.
  assert (Hnone : forall other, In other delimiters -> other <> candidate ->
                    columnCounts other (sampled_lines text) = []).
  { intros other Hin Hne. rewrite columnCounts_sampled.
    apply columnCounts_none. intros line Hline. apply (Hothers other line); assumption. }
  assert (Hcounts : columnCounts candidate (sampled_lines text)
                    = filter (Z.ltb 1)
                        (map (column_count candidate) (sampled_lines text)))
    by apply columnCounts_sampled.
  assert (Hne : columnCounts candidate (sampled_lines text) <> []).
  { rewrite Hcounts. intros Hempty.
    assert (Hin : In (column_count candidate sample)
                     (filter (Z.ltb 1)
                        (map (column_count candidate) (sampled_lines text)))).
    { apply filter_In. split; [apply in_map, Hsample|].
      apply Z.ltb_lt. pose proof (column_count_two _ _ Hoccurs). lia. }
    rewrite Hempty in Hin. destruct Hin. }
  assert (Hpositive : num_gt (score_of (columnCounts candidate (sampled_lines text)))
                        num_0 = true).
  { apply score_of_positive; [exact Hne | |].
    - rewrite Hcounts.
      etransitivity; [apply filter_length_le|].
      rewrite length_map. apply sampled_lines_length.
    - rewrite Hcounts. apply Forall_forall. intros c Hc.
      apply filter_In in Hc as [Hc Hgt]. apply Z.ltb_lt in Hgt.
      apply in_map_iff in Hc as [line [<- Hline]].
      specialize (Hbound line Hline). lia. }
  split; [|exact Hpositive].
  unfold detectDelimiter, detectDelimiter_loop.
  unfold delimiters in *. cbn [fold_left].
  destruct Hcandidate as [<-|[<-|[<-|[<-|[]]]]].
  - rewrite (consider_scored _ COMMA num_0 TAB Hne Hpositive).
    rewrite !consider_without_columns;
      [reflexivity | apply Hnone; [simpl; auto | discriminate] ..].
  - rewrite (consider_without_columns _ (COMMA, num_0) TAB)
      by (apply Hnone; [simpl; auto | discriminate]).
    rewrite (consider_scored _ COMMA num_0 COMMA Hne Hpositive).
    rewrite !consider_without_columns;
      [reflexivity | apply Hnone; [simpl; auto | discriminate] ..].
  - rewrite (consider_without_columns _ (COMMA, num_0) TAB)
      by (apply Hnone; [simpl; auto | discriminate]).
    rewrite (consider_without_columns _ (COMMA, num_0) COMMA)
      by (apply Hnone; [simpl; auto | discriminate]).
    rewrite (consider_scored _ COMMA num_0 SEMICOLON Hne Hpositive).
    rewrite !consider_without_columns;
      [reflexivity | apply Hnone; [simpl; auto | discriminate] ..].
  - rewrite (consider_without_columns _ (COMMA, num_0) TAB)
      by (apply Hnone; [simpl; auto | discriminate]).
    rewrite (consider_without_columns _ (COMMA, num_0) COMMA)
      by (apply Hnone; [simpl; auto | discriminate]).
    rewrite (consider_without_columns _ (COMMA, num_0) SEMICOLON)
      by (apply Hnone; [simpl; auto | discriminate]).
    rewrite (consider_scored _ COMMA num_0 PIPE Hne Hpositive).
    reflexivity.
Qed.

Lemma detectDelimiter_single_candidate_witness :
  sampled_lines scenario_C
  = [lit "A" ++ TAB :: lit "B" ++ TAB :: lit "C";
     lit "1" ++ TAB :: lit "2" ++ TAB :: lit "3"]
  /\ detectDelimiter scenario_C = TAB
  /\ num_gt (score scenario_C TAB) num_0 = true.
Proof.
  split; [reflexivity|].
  apply (@detectDelimiter_single_candidate scenario_C TAB
           (lit "A" ++ TAB :: lit "B" ++ TAB :: lit "C")).
  - simpl. auto.
  - left. reflexivity.
  - reflexivity.
  - intros other line Hother Hne Hline.
    change (In line [lit "A" ++ TAB :: lit "B" ++ TAB :: lit "C";
                     lit "1" ++ TAB :: lit "2" ++ TAB :: lit "3"]) in Hline.
    unfold delimiters in Hother. simpl in Hother, Hline.
    repeat match goal with
           | H : _ \/ _ |- _ => destruct H
           | H : False |- _ => destruct H
           end; subst; try reflexivity; congruence.
  - intros line Hline.
    change (In line [lit "A" ++ TAB :: lit "B" ++ TAB :: lit "C";
                     lit "1" ++ TAB :: lit "2" ++ TAB :: lit "3"]) in Hline.
    simpl in Hline.
    repeat match goal with
           | H : _ \/ _ |- _ => destruct H
           | H : False |- _ => destruct H
           end; subst; vm_compute; discriminate.
Defined.

(** ** parseCSVLine: lines without quotes, and rows a writer has quoted *)

Lemma forallb_trimStart (p : char16 -> bool) (s : jsstring) :
  forallb p s = true -> forallb p (trimStart s) = true.
Proof.
  induction s as [|c s IH]; [reflexivity|].
  intros H. simpl trimStart.
  destruct (is_space c); [|exact H].
  apply IH. simpl in H. apply andb_true_iff in H. tauto.
Qed.

Lemma forallb_trimEnd (p : char16 -> bool) (s : jsstring) :
  forallb p s = true -> forallb p (trimEnd s) = true.
Proof.
  induction s as [|c s IH]; [reflexivity|].
  intros H. simpl in H. apply andb_true_iff in H as [Hc Hs].
  specialize (IH Hs). simpl trimEnd.
  destruct (trimEnd s) as [|d kept].
  - destruct (is_space c); [reflexivity|]. simpl. rewrite Hc. reflexivity.
  - simpl. rewrite Hc. exact IH.
Qed.

Lemma forallb_trim (p : char16 -> bool) (s : jsstring) :
  forallb p s = true -> forallb p (trim s) = true.
Proof. intros H. apply forallb_trimEnd, forallb_trimStart, H. Qed.

Lemma split_cons (sep : char16) (s : jsstring) :
  exists piece pieces, split sep s = piece :: pieces.
Proof.
  destruct (split sep s) as [|piece pieces] eqn:E.
  - pose proof (split_length sep s) as H. rewrite E in H. discriminate.
  - eexists; eexists; reflexivity.
Qed.

(** The scanner outside quotes, on a stretch without quote characters: it cuts
    where the plain split cuts, the cell under construction going in front of
    the first piece. *)
Lemma scan_quote_free (delimiter : char16) (line : jsstring) :
  quote_free line = true ->
  forall result current,
    fst (scan delimiter line result current None)
      ++ [trim (snd (scan delimiter line result current None))]
    = result
        ++ map trim
             (match split delimiter line with
              | piece :: pieces => (current ++ piece) :: pieces
              | [] => []
              end).
Proof.
  unfold quote_free.
  induction line as [|c rest IH]; intros Hfree result current.
  - simpl. rewrite app_nil_r. reflexivity.
  - simpl in Hfree. apply andb_true_iff in Hfree as [Hc Hrest].
    apply negb_true_iff in Hc.
    cbn [scan split]. rewrite Hc.
    destruct (c =? delimiter).
    + rewrite (IH Hrest).
      destruct (split_cons delimiter rest) as [piece [pieces E]].
      rewrite E, app_nil_r, <- app_assoc. reflexivity.
    + rewrite (IH Hrest).
      destruct (split_cons delimiter rest) as [piece [pieces E]].
      rewrite E, <- app_assoc. reflexivity.
Qed.

(** The scanner outside quotes runs through a stretch without quote characters
    and goes on behind it: the cells it has pushed are the pieces of the plain
    split but the last, trimmed, and the cell under construction is the last
    piece, as it is. *)
Lemma scan_quote_free_then (delimiter : char16) (stretch rest : jsstring) :
  quote_free stretch = true ->
  forall result current,
    scan delimiter (stretch ++ rest) result current None
    = scan delimiter rest
        (result
           ++ map trim
                (removelast
                   (match split delimiter stretch with
                    | piece :: pieces => (current ++ piece) :: pieces
                    | [] => []
                    end)))
        (last (match split delimiter stretch with
               | piece :: pieces => (current ++ piece) :: pieces
               | [] => []
               end) [])
        None.
Proof.
  unfold quote_free.
  induction stretch as [|c stretch IH]; intros Hfree result current.
  - cbn [split app removelast last map]. now rewrite !app_nil_r.
  - simpl in Hfree. apply andb_true_iff in Hfree as [Hc Hrest].
    apply negb_true_iff in Hc.
    cbn [app scan split]. rewrite Hc.
    destruct (split_cons delimiter stretch) as [piece [pieces E]].
    destruct (c =? delimiter).
    + rewrite (IH Hrest). rewrite E.
      cbn [app removelast last map]. rewrite app_nil_r, <- app_assoc.
      destruct pieces; reflexivity.
    + rewrite (IH Hrest). rewrite E.
      rewrite <- app_assoc. reflexivity.
Qed.

Lemma trimStart_app_solid (a b : jsstring) (q : char16) :
  is_space q = false -> trimStart (a ++ q :: b) = trimStart a ++ q :: b.
Proof.
  intros Hq. induction a as [|c a IH]; cbn [app trimStart].
  - now rewrite Hq.
  - destruct (is_space c); [exact IH | reflexivity].
Qed.

Lemma trimEnd_app_solid (a b : jsstring) (q : char16) :
  is_space q = false -> trimEnd (a ++ q :: b) = a ++ q :: trimEnd b.
Proof.
  intros Hq. induction a as [|c a IH]; cbn [app].
  - now apply trimEnd_cons_solid.
  - rewrite trimEnd_cons; rewrite IH; [reflexivity|].
    now destruct a.
Qed.

Lemma trimEnd_app_trimEnd (a b : jsstring) :
  trimEnd (a ++ trimEnd b) = trimEnd (a ++ b).
Proof.
  induction a as [|c a IH]; cbn [app].
  - apply trimEnd_idem.
  - cbn [trimEnd]. now rewrite IH.
Qed.

Lemma trimStart_trimEnd_app (a b : jsstring) :
  trim (a ++ trimEnd b) = trim (a ++ b).
Proof.
  unfold trim. rewrite <- !trimStart_trimEnd, trimEnd_app_trimEnd. reflexivity.
Qed.

Lemma quote_not_space (q : char16) : is_quote q = true -> is_space q = false.
Proof.
  unfold is_quote. intros H. apply orb_true_iff in H as [H | H];
    apply N.eqb_eq in H; subst; reflexivity.
Qed.

(** C9. parseCSVLine is total: on every line and delimiter it answers a row
    with at least one cell, and every cell is trimmed.  A quote that is never
    closed is no error: on the line of the specification, a quote, [a,], a
    quote, [b,c], it answers the cells [a,b] and [c].  And wherever a line
    opens a quote, double or single, that no later character closes, behind any
    stretch without quote characters: the stretch is cut at the delimiters as
    the plain split cuts it, and everything after the quote, delimiters
    included, is flushed at the end of the line with the piece the quote stands
    in, trimmed, as the final cell. *)
Theorem parseCSVLine_total (line stretch body : jsstring) (q delimiter : char16) :
  quote_free stretch = true ->
  is_quote q = true ->
  includes q body = false ->
  (exists cells final, parseCSVLine line delimiter = cells ++ [final])
  /\ Forall (fun cell => trim cell = cell) (parseCSVLine line delimiter)
  /\ parseCSVLine (DQUOTE :: lit "a," ++ DQUOTE :: lit "b,c") COMMA
     = [lit "a,b"; lit "c"]
  /\ parseCSVLine (stretch ++ q :: body) delimiter
     = map trim (removelast (split delimiter (trimStart stretch)))
         ++ [trim (last (split delimiter (trimStart stretch)) [] ++ body)].
Proof.
  intros Hfree Hq Hbody.
  split; [|split; [|split]].
  - unfold parseCSVLine.
    destruct (scan delimiter (trim line) [] [] None) as [result current].
    now exists result, (trim current).
  - unfold parseCSVLine.
    pose proof (@scan_cells_trimmed delimiter (length (trim line)) (trim line)
                  [] [] None (le_n _) (Forall_nil _)) as H.
    destruct (scan delimiter (trim line) [] [] None) as [result current].
    apply Forall_app. split; [exact H|].
    constructor; [apply trim_idem|constructor].
  - reflexivity.
  - pose proof (quote_not_space q Hq) as Hsolid.
    unfold parseCSVLine.
    assert (trim (stretch ++ q :: body)
            = trimStart stretch ++ q :: trimEnd body) as ->.
    { unfold trim. rewrite trimStart_app_solid by assumption.
      now apply trimEnd_app_solid. }
    rewrite scan_quote_free_then by now apply forallb_trimStart.
    destruct (split_cons delimiter (trimStart stretch)) as [piece [pieces E]].
    rewrite E. cbn [scan app]. rewrite Hq.
    rewrite scan_open_quote by now apply includes_trimEnd.
    rewrite trimStart_trimEnd_app. reflexivity.
Qed.

Lemma parseCSVLine_total_witness :
  (quote_free (lit "x, y") = true
   /\ is_quote DQUOTE = true
   /\ includes DQUOTE (lit "a,b ") = false)
  /\ parseCSVLine (lit "x, y" ++ DQUOTE :: lit "a,b ") COMMA
     = [lit "x"; lit "ya,b"].
Proof.
  split; [repeat split|].
  exact (proj2 (proj2 (proj2
           (@parseCSVLine_total [] (lit "x, y") (lit "a,b ") DQUOTE COMMA
              eq_refl eq_refl eq_refl)))).
Defined.

Lemma count_occ_trimStart (d : char16) (s : jsstring) :
  is_space d = false ->
  count_occ N.eq_dec (trimStart s) d = count_occ N.eq_dec s d.
Proof.
  intros Hd. unfold jsstring, char16 in *.
  induction s as [|c s IH]; [reflexivity|].
  cbn [trimStart]. destruct (is_space c) eqn:Hc; [|reflexivity].
  cbn [count_occ]. destruct (N.eq_dec c d); [congruence | exact IH].
Qed.

Lemma count_occ_trimEnd (d : char16) (s : jsstring) :
  is_space d = false ->
  count_occ N.eq_dec (trimEnd s) d = count_occ N.eq_dec s d.
Proof.
  intros Hd. unfold jsstring, char16 in *.
  induction s as [|c s IH]; [reflexivity|].
  cbn [trimEnd]. destruct (trimEnd s) as [|k kept] eqn:E.
  - destruct (is_space c) eqn:Hc;
      cbn [count_occ] in *; destruct (N.eq_dec c d); congruence.
  - cbn [count_occ] in *.
    destruct (N.eq_dec c d); destruct (N.eq_dec k d); congruence.
Qed.

(** X8. A line without quote characters.  [parseCSVLine] answers the
    pieces of the plain split of the trimmed line, each trimmed; when the
    delimiter is not white space the number of cells is the number of columns
    [detectDelimiter] counts for the line, one more than the delimiter occurs
    in it. *)
Theorem parseCSVLine_without_quotes (line : jsstring) (delimiter : char16) :
  quote_free line = true ->
  parseCSVLine line delimiter = map trim (split delimiter (trim line))
  /\ (is_space delimiter = false ->
      Z.of_nat (length (parseCSVLine line delimiter)) = column_count delimiter line).
Proof.
  intros Hfree.
  assert (Hcells : parseCSVLine line delimiter = map trim (split delimiter (trim line))).
  { unfold parseCSVLine.
    pose proof (@scan_quote_free delimiter (trim line)
                  (forallb_trim _ line Hfree) [] []) as H.
    destruct (scan delimiter (trim line) [] [] None) as [result current].
    simpl fst in H. simpl snd in H. rewrite H.
    destruct (split_cons delimiter (trim line)) as [piece [pieces E]].
    rewrite E. reflexivity. }
  split; [exact Hcells|].
  intros Hd. rewrite Hcells, length_map, split_length.
  unfold column_count, trim.
  f_equal. f_equal.
  transitivity (count_occ N.eq_dec (trimStart line) delimiter).
  - apply count_occ_trimEnd, Hd.
  - apply count_occ_trimStart, Hd.
Qed.

Lemma parseCSVLine_without_quotes_witness :
  quote_free (lit " a ; b;;c ") = true
  /\ parseCSVLine (lit " a ; b;;c ") SEMICOLON = [lit "a"; lit "b"; []; lit "c"]
  /\ column_count SEMICOLON (lit " a ; b;;c ") = 4%Z.
Proof.
  split; [reflexivity|]. split.
  - refine (eq_trans (proj1 (@parseCSVLine_without_quotes (lit " a ; b;;c ")
                               SEMICOLON eq_refl)) _).
    reflexivity.
  - reflexivity.
Defined.

(** X9. A delimiter that is white space.  The line is trimmed before it is
    scanned, so a delimiter that [trim] removes (the tab) is lost at both ends
    of the line together with the empty cells it marks out: a row whose first
    or last column is empty comes back one cell short. *)
Theorem parseCSVLine_drops_outer_tabs (line : jsstring) (delimiter : char16) :
  is_space delimiter = true ->
  parseCSVLine (delimiter :: line) delimiter = parseCSVLine line delimiter
  /\ parseCSVLine (line ++ [delimiter]) delimiter = parseCSVLine line delimiter.
Proof.
  intros Hd. unfold parseCSVLine. split.
  - replace (trim (delimiter :: line)) with (trim line); [reflexivity|].
    symmetry. apply (trim_spaces_app [delimiter] line).
    simpl. rewrite Hd. reflexivity.
  - replace (trim (line ++ [delimiter])) with (trim line); [reflexivity|].
    symmetry. apply trim_app_spaces. simpl. rewrite Hd. reflexivity.
Qed.

Lemma parseCSVLine_drops_outer_tabs_witness :
  is_space TAB = true
  /\ parseCSVLine (TAB :: lit "b" ++ TAB :: lit "c") TAB = [lit "b"; lit "c"]
  /\ parseCSVLine (COMMA :: lit "b" ++ COMMA :: lit "c") COMMA = [[]; lit "b"; lit "c"].
Proof.
  split; [reflexivity|]. split.
  - refine (eq_trans (proj1 (@parseCSVLine_drops_outer_tabs
                               (lit "b" ++ TAB :: lit "c") TAB eq_refl)) _).
    reflexivity.
  - reflexivity.
Defined.

(** Inside a span opened by [q]: the doubled quotes of a cell are taken as
    single quote characters, and the quote that ends the cell closes the span
    when the line ends there or goes on with another character. *)
Lemma scan_quoted_cell (delimiter q : char16) (tail : jsstring) :
  match tail with [] => true | c :: _ => negb (c =? q) end = true ->
  forall cell result current,
    scan delimiter (double_quotes q cell ++ q :: tail) result current (Some q)
    = scan delimiter tail result (current ++ cell) None.
Proof.
  intros Htail.
  induction cell as [|c cell IH]; intros result current.
  - rewrite app_nil_r. cbn [double_quotes app scan]. rewrite N.eqb_refl.
    destruct tail as [|t tail']; [reflexivity|].
    apply negb_true_iff in Htail. rewrite Htail. reflexivity.
  - cbn [double_quotes]. destruct (c =? q) eqn:Hc.
    + apply N.eqb_eq in Hc. subst c.
      change ((q :: q :: double_quotes q cell) ++ q :: tail)
        with (q :: q :: (double_quotes q cell ++ q :: tail)).
      cbn [scan]. rewrite N.eqb_refl, IH, <- app_assoc. reflexivity.
    + change ((c :: double_quotes q cell) ++ q :: tail)
        with (c :: (double_quotes q cell ++ q :: tail)).
      cbn [scan]. rewrite Hc, IH, <- app_assoc. reflexivity.
Qed.

Lemma quoted_row_one (q d : char16) (cell : jsstring) :
  quoted_row q d [cell] = q :: double_quotes q cell ++ [q].
Proof. reflexivity. Qed.

Lemma quoted_row_cons (q d : char16) (cell next : jsstring) (cells : list jsstring) :
  quoted_row q d (cell :: next :: cells)
  = q :: double_quotes q cell ++ q :: d :: quoted_row q d (next :: cells).
Proof.
  unfold quoted_row. cbn [map join]. unfold quoted at 1.
  cbn [app]. rewrite <- app_assoc. reflexivity.
Qed.

Lemma scan_quoted_row (delimiter q : char16) :
  is_quote q = true ->
  is_quote delimiter = false ->
  forall cells cell result,
    scan delimiter (quoted_row q delimiter (cell :: cells)) result [] None
    = (result ++ map trim (removelast (cell :: cells)), last (cell :: cells) []).
Proof.
  intros Hq Hd.
  assert (Hdq : (delimiter =? q) = false).
  { destruct (delimiter =? q) eqn:E; [|reflexivity].
    apply N.eqb_eq in E. congruence. }
  induction cells as [|next cells IH]; intros cell result.
  - rewrite quoted_row_one. cbn [scan]. rewrite Hq.
    rewrite (@scan_quoted_cell delimiter q [] eq_refl).
    simpl. rewrite app_nil_r. reflexivity.
  - rewrite quoted_row_cons. cbn [scan]. rewrite Hq.
    rewrite scan_quoted_cell by (simpl; rewrite Hdq; reflexivity).
    cbn [scan]. rewrite Hd, N.eqb_refl, IH.
    change (removelast (cell :: next :: cells)) with (cell :: removelast (next :: cells)).
    change (last (cell :: next :: cells) []) with (last (next :: cells) (@nil char16)).
    cbn [map app]. rewrite <- app_assoc. reflexivity.
Qed.

Lemma trimEnd_last_solid (s : jsstring) (c : char16) :
  is_space c = false -> trimEnd (s ++ [c]) = s ++ [c].
Proof.
  intros Hc. induction s as [|d s IH].
  - simpl. rewrite Hc. reflexivity.
  - change ((d :: s) ++ [c]) with (d :: (s ++ [c])).
    rewrite trimEnd_cons; [rewrite IH; reflexivity|].
    rewrite IH. destruct s; discriminate.
Qed.

Lemma quoted_row_ends (q d : char16) (cell : jsstring) (cells : list jsstring) :
  exists inner, quoted_row q d (cell :: cells) = q :: inner ++ [q].
Proof.
  revert cell. induction cells as [|next cells IH]; intros cell.
  - exists (double_quotes q cell). reflexivity.
  - destruct (IH next) as [inner Hinner].
    exists (double_quotes q cell ++ q :: d :: q :: inner).
    rewrite quoted_row_cons, Hinner, <- app_assoc. reflexivity.
Qed.

(** X10. Reading back a quoted row.  A non-empty row written with every
    cell between quote characters, the quote characters inside a cell doubled
    and the cells joined by a delimiter that is not a quote character, is read
    back cell for cell, whatever the cells hold (delimiters, the other quote
    character, doubled quotes); each cell comes back trimmed, its leading and
    trailing white space lost although it stood inside the quotes. *)
Theorem parseCSVLine_reads_quoted_row (q delimiter : char16) (cell : jsstring)
    (cells : list jsstring) :
  is_quote q = true ->
  is_quote delimiter = false ->
  parseCSVLine (quoted_row q delimiter (cell :: cells)) delimiter
  = map trim (cell :: cells).
Proof.
  intros Hq Hd.
  assert (Htrim : trim (quoted_row q delimiter (cell :: cells))
                  = quoted_row q delimiter (cell :: cells)).
  { destruct (quoted_row_ends q delimiter cell cells) as [inner ->].
    pose proof (quote_not_space q Hq) as Hsolid.
    unfold trim. simpl trimStart. rewrite Hsolid.
    apply (trimEnd_last_solid (q :: inner) q Hsolid). }
  assert (Hcells : map trim (cell :: cells)
                   = map trim (removelast (cell :: cells))
                       ++ [trim (last (cell :: cells) [])]).
  { change [trim (last (cell :: cells) [])]
      with (map trim [last (cell :: cells) []]).
    rewrite <- map_app.
    f_equal. apply app_removelast_last. discriminate. }
  unfold parseCSVLine. rewrite Htrim.
  rewrite (@scan_quoted_row delimiter q Hq Hd cells cell []).
  rewrite Hcells. reflexivity.
Qed.

Lemma parseCSVLine_reads_quoted_row_witness :
  is_quote DQUOTE = true
  /\ is_quote COMMA = false
  /\ quoted_row DQUOTE COMMA [lit "a,b"; DQUOTE :: lit "x" ++ [DQUOTE]; lit " c "]
     = DQUOTE :: lit "a,b" ++ DQUOTE :: COMMA
       :: DQUOTE :: DQUOTE :: DQUOTE :: lit "x" ++ DQUOTE :: DQUOTE :: DQUOTE :: COMMA
       :: DQUOTE :: lit " c " ++ [DQUOTE]
  /\ parseCSVLine
       (quoted_row DQUOTE COMMA [lit "a,b"; DQUOTE :: lit "x" ++ [DQUOTE]; lit " c "])
       COMMA
     = [lit "a,b"; DQUOTE :: lit "x" ++ [DQUOTE]; lit "c"].
Proof.
  split; [reflexivity|]. split; [reflexivity|]. split; [reflexivity|].
  refine (eq_trans (@parseCSVLine_reads_quoted_row DQUOTE COMMA (lit "a,b")
                      [DQUOTE :: lit "x" ++ [DQUOTE]; lit " c "] eq_refl eq_refl) _).
  reflexivity.
Defined.

(** ** normalizeCell: what each kind of answer says about the input *)

Lemma numeric_char_solid (s : jsstring) :
  forallb numeric_char s = true -> forallb solid s = true.
Proof.
  induction s as [|c s IH]; [reflexivity|].
  intros H. simpl in H. apply andb_true_iff in H as [Hc Hs].
  simpl. rewrite (IH Hs), andb_true_r.
  unfold solid. apply negb_true_iff.
  revert Hc. unfold numeric_char, is_digit, is_space.
  rewrite !orb_true_iff, andb_true_iff, !N.leb_le, !N.eqb_eq. intros Hc.
  repeat match goal with
         | |- _ || _ = false => apply orb_false_iff; split
         | |- _ && _ = false => apply andb_false_iff
         end;
    try (apply N.eqb_neq; lia);
    try (left; apply N.leb_gt; lia); try (right; apply N.leb_gt; lia).
Qed.

Ltac class_within :=
  repeat split; unfold numeric_char, is_char;
  let c := fresh "c" in
  let Hc := fresh "Hc" in
  intros c Hc;
  first [ apply N.eqb_eq in Hc; subst c; reflexivity
        | rewrite Hc; reflexivity ].

Lemma numberBody_numeric : over numeric_char numberBody.
Proof. unfold numberBody, Opt, Plus. cbn [over]. class_within. Qed.

Lemma simpleDatePattern_numeric : over numeric_char simpleDatePattern.
Proof. unfold simpleDatePattern. cbn [over]. class_within. Qed.

Lemma numberPattern_chars (s : jsstring) :
  test numberPattern s = true -> forallb numeric_char s = true.
Proof.
  intros H. apply test_sound in H.
  exact (@Lang_over numeric_char numberBody s H numberBody_numeric).
Qed.

Lemma simpleDatePattern_chars (s : jsstring) :
  test simpleDatePattern s = true -> forallb numeric_char s = true.
Proof.
  intros H. apply test_sound in H.
  exact (@Lang_over numeric_char simpleDatePattern s H simpleDatePattern_numeric).
Qed.

(** After an optional minus, a string of the number pattern is digits, commas
    and dots. *)
Lemma numberPattern_after_sign (s : jsstring) :
  test numberPattern s = true ->
  exists sign rest,
    s = sign ++ rest
    /\ (sign = [] \/ sign = [45])
    /\ forallb (fun c => is_digit c || (c =? 44) || (c =? 46)) rest = true.
Proof.
  intros H. apply test_sound in H. unfold numberPattern, numberBody in H.
  inversion H as [| |a b sign rest Hsign Hrest| | | |]; subst.
  exists sign, rest. split; [reflexivity|]. split.
  - unfold Opt in Hsign.
    inversion Hsign as [| | |a b s' Heps|a b s' Hchr| |]; subst.
    + inversion Heps. left; reflexivity.
    + inversion Hchr as [|p c Hc| | | | |]; subst.
      apply N.eqb_eq in Hc. subst c. right; reflexivity.
  - apply (@Lang_over _ _ rest Hrest).
    unfold Opt, Plus. cbn [over]. class_within.
Qed.

(** The ten characters of a string of the date pattern. *)
Lemma simpleDatePattern_shape (s : jsstring) :
  test simpleDatePattern s = true ->
  exists y1 y2 y3 y4 m1 m2 d1 d2,
    s = [y1; y2; y3; y4; 45; m1; m2; 45; d1; d2]
    /\ is_digit y1 = true.
Proof.
  intros H. apply test_sound in H. unfold simpleDatePattern in H. cbv zeta in H.
  repeat match goal with
         | H : Lang (Seq _ _) _ |- _ => inversion H; subst; clear H
         | H : Lang (Chr _) _ |- _ => inversion H; subst; clear H
         end.
  repeat match goal with
         | H : is_char 45 _ = true |- _ => apply N.eqb_eq in H; subst
         end.
  do 8 eexists. split; [reflexivity | assumption].
Qed.

Lemma date_is_no_number (s : jsstring) :
  test simpleDatePattern s = true -> test numberPattern s = false.
Proof.
  intros Hdate.
  destruct (test numberPattern s) eqn:Hnum; [exfalso | reflexivity].
  destruct (simpleDatePattern_shape s Hdate)
    as (y1 & y2 & y3 & y4 & m1 & m2 & d1 & d2 & -> & Hy1).
  destruct (numberPattern_after_sign _ Hnum) as (sign & rest & E & Hsign & Hrest).
  destruct Hsign as [-> | ->]; simpl in E.
  - subst rest. simpl in Hrest.
    repeat (apply andb_true_iff in Hrest as [? Hrest]). discriminate.
  - injection E as E _. subst y1. discriminate.
Qed.

(** Lowering leaves the words of the boolean rule free of the characters the
    earlier rules look for. *)
Lemma boolean_word_chars (b : bool) (w : jsstring) :
  In w (boolean_words b) ->
  w <> []
  /\ includes 40 w = false
  /\ includes 37 w = false
  /\ forallb numeric_char w = false.
Proof.
  destruct b; simpl; intros H;
    repeat (destruct H as [<-|H]; [repeat split; discriminate || reflexivity|]);
    destruct H.
Qed.

Lemma toLowerCase_nil (s : jsstring) : toLowerCase s = [] -> s = [].
Proof.
  destruct s as [|c s]; [reflexivity|].
  change (toLowerCase (c :: s)) with (lower_unit c ++ toLowerCase s).
  unfold lower_unit.
  destruct ((65 <=? c) && (c <=? 90)); [discriminate|].
  destruct (c =? 8490); [discriminate|].
  destruct (c =? 304); discriminate.
Qed.

(** The rules before the boolean rule let pass a string whose lowered form is
    one of its words. *)
Lemma boolean_word_reaches_rule (b : bool) (t : jsstring) :
  In (toLowerCase t) (boolean_words b) ->
  t <> []
  /\ includes 40 t = false
  /\ test numberPattern t = false
  /\ test percentPattern t = false
  /\ test simpleDatePattern t = false.
Proof.
  intros Hin.
  destruct (boolean_word_chars b _ Hin) as (Hne & Hparen & Hpercent & Hchars).
  assert (Hnumeric : forallb numeric_char t = true -> False).
  { intros H. rewrite (numeric_chars_lower t H) in Hchars. congruence. }
  repeat split.
  - intros ->. apply Hne. reflexivity.
  - rewrite <- (@includes_toLowerCase 40 t) by auto. exact Hparen.
  - destruct (test numberPattern t) eqn:E; [exfalso | reflexivity].
    apply Hnumeric, numberPattern_chars, E.
  - destruct (test percentPattern t) eqn:E; [exfalso | reflexivity].
    apply percentPattern_sign in E.
    rewrite <- (@includes_toLowerCase 37 t) in E by auto. congruence.
  - destruct (test simpleDatePattern t) eqn:E; [exfalso | reflexivity].
    apply Hnumeric, simpleDatePattern_chars, E.
Qed.

(** What an answer of [normalizeCell] says about its input. *)
Lemma normalizeCell_cases (value : jsstring) :
  match normalizeCell value with
  | JNull => False
  | JString t => t = trim value
  | JNumber x =>
      (test numberPattern (trim value) = true
       /\ x = parseFloat (remove_commas (trim value))
       /\ isFinite x = true)
      \/ (test percentPattern (trim value) = true
          /\ x = num_div (parseFloat (remove_commas (percentGroup (trim value))))
                         num_100
          /\ isFinite (parseFloat (remove_commas (percentGroup (trim value)))) = true)
  | JBoolean b => In (toLowerCase (trim value)) (boolean_words b)
  | JDate d =>
      test simpleDatePattern (trim value) = true
      /\ DateFns.parseISO (trim value) = Some d
  end.
Proof.
  unfold normalizeCell. cbv zeta.
  destruct (is_empty value || is_empty (trim value)) eqn:Hblank.
  { apply orb_true_iff in Hblank as [H|H]; apply is_empty_true in H.
    - subst value. reflexivity.
    - symmetry. exact H. }
  destruct (includes 40 (trim value) && includes 41 (trim value)); [reflexivity|].
  destruct (test numberPattern (trim value) && negb (includes 40 (trim value)))
    eqn:Hnum;
    [ destruct (negb (isNaN (parseFloat (remove_commas (trim value))))
                && isFinite (parseFloat (remove_commas (trim value)))) eqn:Hfin;
      [ apply andb_true_iff in Hnum as [Hnum _];
        apply andb_true_iff in Hfin as [_ Hfin];
        left; repeat split; assumption | ] | ];
    ( destruct (test percentPattern (trim value)) eqn:Hpct;
      [ destruct (negb (isNaN (parseFloat (remove_commas (percentGroup (trim value)))))
                  && isFinite (parseFloat (remove_commas (percentGroup (trim value)))))
          eqn:Hpfin;
        [ apply andb_true_iff in Hpfin as [_ Hpfin];
          right; repeat split; assumption | ] | ] );
    ( destruct (test simpleDatePattern (trim value)) eqn:Hdate;
      [ destruct (DateFns.parseISO (trim value)) eqn:Hiso;
        [ split; reflexivity | ] | ] );
    cbn [option_map];
    ( destruct (str_eqb (toLowerCase (trim value)) (lit "true")
                || str_eqb (toLowerCase (trim value)) HANGUL_TRUE
                || str_eqb (toLowerCase (trim value)) (lit "yes")) eqn:Htrue;
      [ apply orb_true_iff in Htrue as [Htrue|Htrue];
        [ apply orb_true_iff in Htrue as [Htrue|Htrue] | ];
        apply str_eqb_eq in Htrue; rewrite Htrue; simpl; auto | ] );
    ( destruct (str_eqb (toLowerCase (trim value)) (lit "false")
                || str_eqb (toLowerCase (trim value)) HANGUL_FALSE
                || str_eqb (toLowerCase (trim value)) (lit "no")) eqn:Hfalse;
      [ apply orb_true_iff in Hfalse as [Hfalse|Hfalse];
        [ apply orb_true_iff in Hfalse as [Hfalse|Hfalse] | ];
        apply str_eqb_eq in Hfalse; rewrite Hfalse; simpl; auto
      | reflexivity ] ).
Qed.

(** X11. What an answer of [normalizeCell] says about its input.  The
    answer is never null.  A string answer is the trimmed input, and it is the
    empty string exactly when the input is blank.  A number answer is finite
    before any division by 100: it is the number read from a string of the
    number pattern, or that of the group of the percent pattern divided by
    100.  A boolean answer comes from one of the six words, and a date answer
    from a string of the date pattern that names a day of the calendar. *)
Theorem normalizeCell_answers (value : jsstring) :
  match normalizeCell value with
  | JNull => False
  | JString t => t = trim value
  | JNumber x =>
      (test numberPattern (trim value) = true
       /\ x = parseFloat (remove_commas (trim value))
       /\ isFinite x = true)
      \/ (test percentPattern (trim value) = true
          /\ x = num_div (parseFloat (remove_commas (percentGroup (trim value))))
                         num_100
          /\ isFinite (parseFloat (remove_commas (percentGroup (trim value)))) = true)
  | JBoolean b => In (toLowerCase (trim value)) (boolean_words b)
  | JDate d =>
      test simpleDatePattern (trim value) = true
      /\ DateFns.parseISO (trim value) = Some d
  end
  /\ (normalizeCell value = Empty <-> trim value = []).
Proof.
  split; [apply normalizeCell_cases|].
  split.
  - intros E. pose proof (normalizeCell_cases value) as H.
    rewrite E in H. symmetry. exact H.
  - apply normalizeCell_blank.
Qed.

(** X12. The boolean rule, both ways.  [normalizeCell] answers a boolean
    exactly when the trimmed input, lowered, is one of the words of that
    boolean: true, yes and the Hangul word for true; false, no and the Hangul
    word for false.  The case of the letters does not count, and no earlier
    rule takes such an input. *)
Theorem normalizeCell_boolean_words (value : jsstring) (b : bool) :
  normalizeCell value = JBoolean b
  <-> In (toLowerCase (trim value)) (boolean_words b).
Proof.
  split.
  - intros E. pose proof (normalizeCell_cases value) as H.
    rewrite E in H. exact H.
  - intros Hin.
    destruct (boolean_word_reaches_rule b (trim value) Hin)
      as (Hne & Hparen & Hnum & Hpct & Hdate).
    unfold normalizeCell. cbv zeta.
    rewrite (normalizeCell_not_blank value Hne), Hparen, Hnum, Hpct, Hdate.
    cbn [andb].
    destruct b; simpl in Hin;
      repeat (destruct Hin as [E|Hin]; [rewrite <- E; reflexivity|]);
      destruct Hin.
Qed.

(** X13. The date rule.  A trimmed input of the form of four digits, a
    hyphen, two digits, a hyphen and two digits is taken by no rule before the
    date rule, although it is made of the characters of a number; it becomes a
    date when it names a day of the calendar, and is kept as it is when it
    does not. *)
Theorem normalizeCell_date_pattern (value : jsstring) :
  test simpleDatePattern (trim value) = true ->
  normalizeCell value
  = match DateFns.parseISO (trim value) with
    | Some date => JDate date
    | None => JString (trim value)
    end.
Proof.
  intros Hdate.
  pose proof (simpleDatePattern_chars _ Hdate) as Hchars.
  assert (Hne : trim value <> []).
  { destruct (simpleDatePattern_shape _ Hdate)
      as (y1 & y2 & y3 & y4 & m1 & m2 & d1 & d2 & E & _).
    rewrite E. discriminate. }
  unfold normalizeCell. cbv zeta.
  rewrite (normalizeCell_not_blank value Hne).
  rewrite (@includes_class 40 numeric_char (trim value) eq_refl Hchars).
  rewrite (date_is_no_number _ Hdate). cbn [andb].
  assert (Hpct : test percentPattern (trim value) = false).
  { destruct (test percentPattern (trim value)) eqn:E; [|reflexivity].
    apply percentPattern_sign in E.
    rewrite (@includes_class 37 numeric_char (trim value) eq_refl Hchars) in E.
    discriminate. }
  rewrite Hpct, Hdate.
  destruct (DateFns.parseISO (trim value)) as [date|]; [reflexivity|].
  cbn [option_map].
  rewrite (numeric_chars_lower (trim value) Hchars).
  rewrite !(fun word => @numeric_chars_differ (trim value) word Hchars)
    by reflexivity.
  reflexivity.
Qed.

Lemma normalizeCell_date_pattern_witness :
  test simpleDatePattern (trim (lit " 2024-02-29 ")) = true
  /\ normalizeCell (lit " 2024-02-29 ")
     = JDate {| year := 2024; month := 2; day := 29 |}
  /\ normalizeCell (lit "2023-02-29") = JString (lit "2023-02-29").
Proof.
  split; [reflexivity|]. split.
  - refine (eq_trans (@normalizeCell_date_pattern (lit " 2024-02-29 ") eq_refl) _).
    reflexivity.
  - refine (eq_trans (@normalizeCell_date_pattern (lit "2023-02-29") eq_refl) _).
    reflexivity.
Defined.

Lemma removelast_snoc (s : jsstring) (c : char16) : removelast (s ++ [c]) = s.
Proof. apply removelast_last. Qed.

(** X14. The percent rule.  When the trimmed input is a string of the
    numeric rule, then white space or none, then a percent sign, the commas are
    dropped from the string, the number is read and, when it is finite, the
    answer is that number divided by 100; when it is not finite the input is
    kept as it is. *)
Theorem normalizeCell_percent (value group spaces : jsstring) :
  trim value = group ++ spaces ++ [37] ->
  numeric_shape group ->
  forallb is_space spaces = true ->
  let num := parseFloat (remove_commas group) in
  normalizeCell value
  = if isFinite num then JNumber (num_div num num_100) else JString (trim value).
Proof.
  intros Htrim Hshape Hspaces num.
  pose proof (numeric_shape_chars Hshape) as Hchars.
  assert (Hne : trim value <> []).
  { rewrite Htrim. destruct group; discriminate || (destruct spaces; discriminate). }
  assert (Hparen : includes 40 (trim value) = false).
  { rewrite Htrim, !includes_app, (numeric_shape_no_paren Hshape).
    rewrite (@includes_class 40 is_space spaces eq_refl Hspaces). reflexivity. }
  assert (Hsign : includes 37 (trim value) = true).
  { rewrite Htrim, !includes_app. simpl. rewrite !orb_true_r. reflexivity. }
  assert (Hnum : test numberPattern (trim value) = false).
  { destruct (test numberPattern (trim value)) eqn:E; [|reflexivity].
    apply numberPattern_chars in E.
    rewrite (@includes_class 37 numeric_char (trim value) eq_refl E) in Hsign.
    discriminate. }
  assert (Hdate : test simpleDatePattern (trim value) = false).
  { destruct (test simpleDatePattern (trim value)) eqn:E; [|reflexivity].
    apply simpleDatePattern_chars in E.
    rewrite (@includes_class 37 numeric_char (trim value) eq_refl E) in Hsign.
    discriminate. }
  assert (Hpct : test percentPattern (trim value) = true).
  { apply test_complete. rewrite Htrim. unfold percentPattern.
    apply LangSeq; [apply test_sound, numeric_shape_matches, Hshape|].
    apply LangSeq; [apply Lang_Star_class, Hspaces|].
    apply LangChr. reflexivity. }
  assert (Hgroup : percentGroup (trim value) = group).
  { unfold percentGroup. rewrite Htrim, app_assoc, removelast_snoc.
    rewrite (trimEnd_app_spaces group spaces Hspaces).
    apply trimEnd_solid, numeric_char_solid, Hchars. }
  unfold normalizeCell. cbv zeta.
  rewrite (normalizeCell_not_blank value Hne), Hparen, Hnum, Hpct, Hgroup, Hdate.
  cbn [andb]. fold num.
  destruct (isFinite num) eqn:Hfin.
  - rewrite (isFinite_not_NaN num Hfin). reflexivity.
  - rewrite andb_false_r.
    assert (Hword : forall b w, In w (boolean_words b) ->
                      str_eqb (toLowerCase (trim value)) w = false).
    { intros b w Hin. destruct (str_eqb (toLowerCase (trim value)) w) eqn:E;
        [exfalso | reflexivity].
      apply str_eqb_eq in E.
      destruct (boolean_word_chars b w Hin) as (_ & _ & Hno & _).
      rewrite <- E, (@includes_toLowerCase 37 (trim value)) in Hno by auto.
      congruence. }
    rewrite (Hword true (lit "true")), (Hword true HANGUL_TRUE),
      (Hword true (lit "yes")), (Hword false (lit "false")),
      (Hword false HANGUL_FALSE), (Hword false (lit "no"))
      by (simpl; auto).
    reflexivity.
Qed.

Lemma normalizeCell_percent_witness :
  trim (lit " 1,250.5 % ") = lit "1,250.5" ++ lit " " ++ [37]
  /\ numeric_shape (lit "1,250.5")
  /\ normalizeCell (lit " 1,250.5 % ") = JNumber (of_decimal false 12505 (-3)).
Proof.
  assert (Hshape : numeric_shape (lit "1,250.5")).
  { exists [], (lit "1,250"), (lit ".5").
    split; [reflexivity|]. split; [left; reflexivity|].
    split; [reflexivity|]. split; [reflexivity|].
    right. exists (lit "5"). split; reflexivity. }
  split; [reflexivity|]. split; [exact Hshape|].
  refine (eq_trans (@normalizeCell_percent (lit " 1,250.5 % ") (lit "1,250.5")
                      (lit " ") eq_refl Hshape eq_refl) _).
  vm_compute. reflexivity.
Defined.

(** X15. White space around a cell.  White space before and after the
    input changes nothing to the answer of [normalizeCell]. *)
Theorem normalizeCell_ignores_outer_space (before value after : jsstring) :
  forallb is_space before = true ->
  forallb is_space after = true ->
  normalizeCell (before ++ value ++ after) = normalizeCell value.
Proof.
  intros Hbefore Hafter.
  rewrite <- (normalizeCell_trim (before ++ value ++ after)).
  rewrite (trim_spaces_app before (value ++ after) Hbefore).
  rewrite (trim_app_spaces value after Hafter).
  apply normalizeCell_trim.
Qed.

Lemma normalizeCell_ignores_outer_space_witness :
  normalizeCell (TAB :: lit " 12 " ++ [160]) = JNumber (of_Z 12).
Proof.
  refine (eq_trans (@normalizeCell_ignores_outer_space [TAB; 32] (lit "12") [32; 160]
                      eq_refl eq_refl) _).
  reflexivity.
Defined.

(** ** textBasedRecovery: the rows of the grid *)

(** The rows [textBasedRecovery] hands to [aoa_to_sheet]. *)
Lemma recovered_data_rows_of (text : jsstring) :
  recovered_data text
  = match filter not_blank (split LF text) with
    | [] => []
    | first :: rest =>
        map (pad_row (list_max (observed_widths (detectDelimiter text) (first :: rest))))
            (map (headerCell (parseCSVLine first (detectDelimiter text)))
                 (parseCSVLine first (detectDelimiter text))
             :: filter (existsb has_content)
                  (map (fun line =>
                          map normalizeCell (parseCSVLine line (detectDelimiter text)))
                       rest))
    end.
Proof.
  destruct (filter not_blank (split LF text)) as [|first rest] eqn:Hlines.
  - apply recovered_data_no_lines, Hlines.
  - unfold recovered_data. rewrite Hlines.
    set (loop := recovery_loop (detectDelimiter text) (first :: rest) 0 [] 0).
    assert (Hfst : fst loop
                   = map (headerCell (parseCSVLine first (detectDelimiter text)))
                         (parseCSVLine first (detectDelimiter text))
                     :: filter (existsb has_content)
                          (map (fun line =>
                                  map normalizeCell
                                      (parseCSVLine line (detectDelimiter text)))
                               rest)).
    { unfold loop. cbn [recovery_loop Nat.eqb orb].
      rewrite recovery_loop_later_lines by discriminate. reflexivity. }
    assert (Hsnd : snd loop
                   = list_max (observed_widths (detectDelimiter text) (first :: rest))).
    { unfold loop. rewrite recovery_loop_width. reflexivity. }
    rewrite (surjective_pairing loop), Hfst, Hsnd. reflexivity.
Qed.

Lemma has_content_pad_row (maxColumns : nat) (r : row) :
  existsb has_content r = true -> existsb has_content (pad_row maxColumns r) = true.
Proof.
  intros H. unfold pad_row. rewrite existsb_app, H. reflexivity.
Qed.

Lemma headerCell_is_Text (cells : list jsstring) (cell : jsstring) :
  is_Text (headerCell cells cell) = true.
Proof.
  unfold headerCell.
  destruct (is_empty (trim cell)) eqn:E; [reflexivity|].
  apply is_empty_false in E. destruct (trim cell); [congruence | reflexivity].
Qed.

(** X16. The rows of the recovered grid.  The first non-blank line gives
    the header row: its cells, each trimmed or labelled.  Every later non-blank
    line gives one row, its cells normalized, unless none of its cells has
    content, in which case the line gives no row.  Every row is then padded
    with empty strings to the largest cell count of any non-blank line, the
    dropped ones included. *)
Theorem recovered_data_rows (text first : jsstring) (rest : list jsstring) :
  filter not_blank (split LF text) = first :: rest ->
  let delimiter := detectDelimiter text in
  let width := list_max (observed_widths delimiter (first :: rest)) in
  recovered_data text
  = map (pad_row width)
      (map (headerCell (parseCSVLine first delimiter)) (parseCSVLine first delimiter)
       :: filter (existsb has_content)
            (map (fun line => map normalizeCell (parseCSVLine line delimiter)) rest)).
Proof.
  intros Hlines delimiter width.
  rewrite recovered_data_rows_of, Hlines. reflexivity.
Qed.

Lemma recovered_data_rows_witness :
  filter not_blank (split LF (lit "a,b" ++ LF :: lit ",,," ++ LF :: lit "1,2"))
  = [lit "a,b"; lit ",,,"; lit "1,2"]
  /\ recovered_data (lit "a,b" ++ LF :: lit ",,," ++ LF :: lit "1,2")
     = [[JString (lit "a"); JString (lit "b"); Empty; Empty];
        [JNumber (of_Z 1); JNumber (of_Z 2); Empty; Empty]].
Proof.
  split; [reflexivity|].
  refine (eq_trans (@recovered_data_rows
                      (lit "a,b" ++ LF :: lit ",,," ++ LF :: lit "1,2")
                      (lit "a,b") [lit ",,,"; lit "1,2"] eq_refl) _).
  vm_compute. reflexivity.
Defined.

(** X17. No blank data rows, no more rows than lines.  Every row of the
    recovered grid after the header row has a cell with content, and the grid
    has at most as many rows as the text has non-blank lines. *)
Theorem recovered_data_rows_have_content (text : jsstring) :
  Forall (fun r => existsb has_content r = true) (tl (recovered_data text))
  /\ (length (recovered_data text) <= length (filter not_blank (split LF text)))%nat.
Proof.
  rewrite recovered_data_rows_of.
  destruct (filter not_blank (split LF text)) as [|first rest].
  - split; [constructor | apply le_n].
  - cbn [map tl]. split.
    + apply Forall_forall. intros r Hr.
      apply in_map_iff in Hr as [r' [<- Hr']].
      apply has_content_pad_row.
      apply filter_In in Hr'. tauto.
    + cbn [length]. rewrite length_map.
      apply le_n_S.
      etransitivity; [apply filter_length_le|].
      rewrite length_map. apply le_n.
Qed.

(** X18. The header row of the recovered grid.  Every cell cut from the
    first non-blank line becomes a non-empty string: its trimmed content, or a
    label when that is empty.  When a later line has more cells than the first,
    the header row is filled up to that width with empty strings, so that the
    header has cells without a name. *)
Theorem recovered_header_row (text first : jsstring) (rest : list jsstring) :
  filter not_blank (split LF text) = first :: rest ->
  let delimiter := detectDelimiter text in
  let cells := parseCSVLine first delimiter in
  let width := list_max (observed_widths delimiter (first :: rest)) in
  hd [] (recovered_data text)
  = map (headerCell cells) cells ++ repeat Empty (width - length cells)
  /\ Forall (fun cell => is_Text cell = true) (map (headerCell cells) cells).
Proof.
  intros Hlines delimiter cells width. split.
  - rewrite recovered_data_rows_of, Hlines. cbn [map hd].
    unfold pad_row. rewrite length_map. reflexivity.
  - apply Forall_forall. intros v Hv.
    apply in_map_iff in Hv as [cell [<- _]].
    apply headerCell_is_Text.
Qed.

Lemma recovered_header_row_witness :
  filter not_blank (split LF (lit "id,," ++ LF :: lit "1,2,3,4"))
  = [lit "id,,"; lit "1,2,3,4"]
  /\ hd [] (recovered_data (lit "id,," ++ LF :: lit "1,2,3,4"))
     = [JString (lit "id"); placeholder 2; placeholder 2; Empty].
Proof.
  split; [reflexivity|].
  refine (eq_trans (proj1 (@recovered_header_row
                             (lit "id,," ++ LF :: lit "1,2,3,4")
                             (lit "id,,") [lit "1,2,3,4"] eq_refl)) _).
  vm_compute. reflexivity.
Defined.

(** X19. When [textBasedRecovery] fails.  It fails exactly when the decoded
    text has no non-blank line, with the message that no data was parsed and
    with no other; as soon as there is one non-blank line it answers a workbook
    of one sheet named Sheet1 whose grid has at least the header row. *)
Theorem textBasedRecovery_fails_only_without_lines `{Codecs} (buffer : Buffer) :
  (textBasedRecovery buffer = Err MsgNoParsedData
   <-> filter not_blank (split LF (detectAndDecode buffer)) = [])
  /\ (forall m, textBasedRecovery buffer = Err m -> m = MsgNoParsedData)
  /\ (forall workbook,
        textBasedRecovery buffer = Ok workbook ->
        workbook = [(lit "Sheet1",
                     aoa_to_sheet (recovered_data (detectAndDecode buffer)))]
        /\ recovered_data (detectAndDecode buffer) <> []).
Proof.
  unfold textBasedRecovery.
  rewrite (recovered_data_rows_of (detectAndDecode buffer)).
  destruct (filter not_blank (split LF (detectAndDecode buffer))) as [|first rest].
  - cbn. split; [tauto|]. split.
    + intros m E. congruence.
    + intros workbook E. discriminate.
  - cbn [map length Nat.eqb].
    unfold book_append_sheet, book_new. cbn [SheetNames map existsb app].
    split; [split; discriminate|]. split.
    + intros m E. discriminate.
    + intros workbook E. injection E as <-. split; [reflexivity | discriminate].
Qed.

(** ** The header row: labels of blank cells *)

Lemma parseCSVLine_cells_trimmed (line : jsstring) (delimiter : char16) :
  Forall (fun cell => trim cell = cell) (parseCSVLine line delimiter).
Proof.
  unfold parseCSVLine.
  pose proof (@scan_cells_trimmed delimiter (length (trim line)) (trim line)
                [] [] None (le_n _) (Forall_nil _)) as H.
  destruct (scan delimiter (trim line) [] [] None) as [result current].
  apply Forall_app. split; [exact H|].
  constructor; [apply trim_idem | constructor].
Qed.

Lemma indexOf_first (before after : list jsstring) (x : jsstring) :
  Forall (fun cell => cell <> x) before ->
  indexOf (before ++ x :: after) x = Z.of_nat (length before).
Proof.
  induction 1 as [|cell before Hcell _ IH].
  - cbn [app indexOf]. rewrite str_eqb_refl. reflexivity.
  - cbn [app indexOf].
    destruct (str_eqb cell x) eqn:E; [apply str_eqb_eq in E; contradiction|].
    rewrite IH.
    destruct (Z.of_nat (length before)) eqn:En; cbn [length]; lia.
Qed.

(** X20. The labels of blank header cells.  The cells of a parsed line are
    trimmed, so that all its blank cells are the same empty string, and the
    label is numbered by the first position where the content of the cell is
    found: in the header row every cell with text is kept, and every blank
    cell, wherever it stands, carries the number of the first blank column. *)
Theorem blank_header_cells_labelled_alike (line : jsstring) (delimiter : char16)
    (before after : list jsstring) :
  parseCSVLine line delimiter = before ++ [] :: after ->
  Forall (fun cell => cell <> []) before ->
  map (headerCell (parseCSVLine line delimiter)) (parseCSVLine line delimiter)
  = map JString before
    ++ placeholder (S (length before))
    :: map (fun cell => if is_empty cell then placeholder (S (length before))
                        else JString cell) after.
Proof.
  intros Hcells Hbefore.
  pose proof (parseCSVLine_cells_trimmed line delimiter) as Htrimmed.
  rewrite Hcells in *.
  assert (Hlabel : headerCell (before ++ [] :: after) []
                   = placeholder (S (length before))).
  { unfold headerCell, placeholder. rewrite trim_nil. cbn [is_empty].
    do 3 f_equal.
    transitivity (Z.of_nat (length before) + 1)%Z; [|lia].
    f_equal. apply indexOf_first. exact Hbefore. }
  assert (Hcell : forall cell, trim cell = cell ->
                    headerCell (before ++ [] :: after) cell
                    = if is_empty cell then placeholder (S (length before))
                      else JString cell).
  { intros cell Hcell. destruct cell as [|c cell]; [exact Hlabel|].
    unfold headerCell. rewrite Hcell. reflexivity. }
  apply Forall_app in Htrimmed as [Htb Hta].
  apply Forall_cons_iff in Hta as [_ Hta].
  rewrite map_app. cbn [map]. rewrite Hlabel. f_equal; [|f_equal].
  - apply map_ext_in. intros cell Hin.
    rewrite Forall_forall in Htb, Hbefore.
    rewrite (Hcell cell (Htb cell Hin)).
    destruct cell; [exfalso; exact (Hbefore [] Hin eq_refl) | reflexivity].
  - apply map_ext_in. intros cell Hin.
    rewrite Forall_forall in Hta. apply Hcell, Hta, Hin.
Qed.

Lemma blank_header_cells_labelled_alike_witness :
  parseCSVLine (lit "id,,name, ,") COMMA = [lit "id"] ++ [] :: [lit "name"; []; []]
  /\ map (headerCell (parseCSVLine (lit "id,,name, ,") COMMA))
         (parseCSVLine (lit "id,,name, ,") COMMA)
     = [JString (lit "id"); placeholder 2; JString (lit "name");
        placeholder 2; placeholder 2].
Proof.
  split; [reflexivity|].
  refine (eq_trans (@blank_header_cells_labelled_alike (lit "id,,name, ,") COMMA
                      [lit "id"] [lit "name"; []; []] eq_refl _) _).
  - repeat constructor; discriminate.
  - reflexivity.
Defined.

(** ** normalizeWorkbook: the names of the sheets *)

Lemma SheetNames_normalized `{SheetJS} (workbook : WorkBook) :
  SheetNames (map normalizeEntry workbook) = map safeSheetName (SheetNames workbook).
Proof.
  unfold SheetNames. rewrite !map_map. reflexivity.
Qed.

Lemma count_occ_twice (names : list jsstring) (name : jsstring) (more : list jsstring) :
  In name names ->
  (2 <= count_occ (list_eq_dec N.eq_dec) (names ++ name :: more) name)%nat.
Proof.
  intros Hin. unfold jsstring, char16 in *. rewrite count_occ_app.
  apply (count_occ_In (list_eq_dec N.eq_dec)) in Hin.
  rewrite count_occ_cons_eq by reflexivity. lia.
Qed.

(** When two of the names collide the loop stops at the second of the first
    pair, with the message of [book_append_sheet] for that name. *)
Lemma normalizeSheets_collision `{SheetJS} (workbook : WorkBook) :
  forall acc,
    NoDup (SheetNames acc) ->
    ~ NoDup (SheetNames (acc ++ map normalizeEntry workbook)) ->
    exists name,
      fold_left normalizeSheet workbook (Ok acc) = Err (MsgSheetExists name)
      /\ (2 <= count_occ (list_eq_dec N.eq_dec)
                 (SheetNames (acc ++ map normalizeEntry workbook)) name)%nat.
Proof.
  induction workbook as [|entry rest IH]; intros acc Hacc Hdup.
  - exfalso. apply Hdup. cbn [map]. rewrite app_nil_r. exact Hacc.
  - cbn [fold_left]. rewrite normalizeSheet_Ok.
    destruct (existsb (str_eqb (fst (normalizeEntry entry))) (SheetNames acc)) eqn:Htaken.
    + exists (fst (normalizeEntry entry)). split; [apply normalizeSheets_Err|].
      apply name_taken in Htaken.
      rewrite SheetNames_app. cbn [map SheetNames].
      apply count_occ_twice. exact Htaken.
    + assert (Hfresh : ~ In (fst (normalizeEntry entry)) (SheetNames acc)).
      { intros Hin. apply name_taken in Hin. congruence. }
      assert (Hsame : acc ++ map normalizeEntry (entry :: rest)
                      = (acc ++ [normalizeEntry entry]) ++ map normalizeEntry rest).
      { cbn [map]. rewrite <- app_assoc. reflexivity. }
      rewrite Hsame in *.
      apply IH; [|exact Hdup].
      rewrite SheetNames_app.
      apply NoDup_app; [exact Hacc | repeat constructor; auto |].
      intros name Hin [<- | []]. contradiction.
Qed.

Lemma normalizeWorkbook_Err `{SheetJS} (workbook : WorkBook) (m : Message) :
  normalizeWorkbook workbook = Err m -> exists name, m = MsgSheetExists name.
Proof.
  unfold normalizeWorkbook, book_new. generalize (@nil (jsstring * WorkSheet)).
  induction workbook as [|entry rest IH]; intros acc Hfold.
  - discriminate.
  - cbn [fold_left] in Hfold. rewrite normalizeSheet_Ok in Hfold.
    destruct (existsb (str_eqb (fst (normalizeEntry entry))) (SheetNames acc)).
    + rewrite normalizeSheets_Err in Hfold. injection Hfold as <-.
      eexists; reflexivity.
    + exact (IH _ Hfold).
Qed.

Lemma safeSheetName_fits (name : jsstring) :
  safeSheetName name <> []
  /\ (length (safeSheetName name) <= 31)%nat
  /\ forallb is_safe_char (safeSheetName name) = true
  /\ single_underscores (safeSheetName name) = true.
Proof.
  destruct (sanitizeFilename_is_clean name) as (Hsafe & Hsingle & Hne).
  unfold safeSheetName, substring_to. repeat split.
  - destruct (sanitizeFilename name); [congruence | discriminate].
  - rewrite length_firstn. apply Nat.le_min_l.
  - apply forallb_firstn, Hsafe.
  - apply single_firstn, Hsingle.
Qed.

(** X21. When [normalizeWorkbook] goes through.  The sheets are renamed to
    their sanitized names cut to 31 characters, and [book_append_sheet] refuses
    a name that is already in the book: the workbook is normalized, sheet by
    sheet and in order, exactly when these names are pairwise distinct;
    otherwise the whole normalization fails, with the message that a sheet of
    that name exists, for a name that two of the sheets share. *)
Theorem normalizeWorkbook_names_distinct `{SheetJS} (workbook : WorkBook) :
  (NoDup (map safeSheetName (SheetNames workbook))
   /\ normalizeWorkbook workbook = Ok (map normalizeEntry workbook))
  \/ (~ NoDup (map safeSheetName (SheetNames workbook))
      /\ exists name,
           normalizeWorkbook workbook = Err (MsgSheetExists name)
           /\ (2 <= count_occ (list_eq_dec N.eq_dec)
                      (map safeSheetName (SheetNames workbook)) name)%nat).
Proof.
  rewrite <- SheetNames_normalized.
  destruct (normalizeWorkbook workbook) as [result|m] eqn:Hfold.
  - left. unfold normalizeWorkbook in Hfold.
    destruct (normalizeSheets_Ok workbook _ Hfold) as [E Hnodup].
    cbn [app book_new] in E. subst result.
    split; [apply Hnodup; constructor | reflexivity].
  - right.
    assert (Hdup : ~ NoDup (SheetNames ([] ++ map normalizeEntry workbook))).
    { intros Hnodup.
      pose proof (normalizeSheets_NoDup workbook [] Hnodup) as Hok.
      pose proof (eq_trans (eq_sym Hfold) Hok) as Habsurd. discriminate. }
    split; [exact Hdup|].
    destruct (normalizeSheets_collision workbook [] (NoDup_nil _) Hdup)
      as [name [Herr Hcount]].
    exists name. split; [|exact Hcount].
    pose proof (eq_trans (eq_sym Hfold) Herr) as Hsame.
    injection Hsame as ->. reflexivity.
Qed.

(** Two sheets whose names differ only by a character that is replaced come
    to the same name, and the second is refused. *)
Example colliding_sheet_names :
  @normalizeWorkbook NoReader
    [(lit "a b", aoa_to_sheet []); (lit "a_b", aoa_to_sheet [])]
  = Err (MsgSheetExists (lit "a_b")).
Proof. reflexivity. Qed.

(** X22. The sheets of a normalized workbook.  When [normalizeWorkbook]
    answers a workbook, it has the sheets of the input in their order; their
    names are the sanitized names, pairwise distinct, none empty, none longer
    than 31 characters; and every grid has the rows and the row lengths of the
    grid that was read from the sheet: normalization changes cells, not the
    shape. *)
Theorem normalizeWorkbook_sheets `{SheetJS} (workbook normalized : WorkBook) :
  normalizeWorkbook workbook = Ok normalized ->
  SheetNames normalized = map safeSheetName (SheetNames workbook)
  /\ NoDup (SheetNames normalized)
  /\ Forall (fun name =>
               name <> [] /\ (length name <= 31)%nat
               /\ forallb is_safe_char name = true)
            (SheetNames normalized)
  /\ map (fun entry => map (@length JsValue) (sheet_cells (snd entry))) normalized
     = map (fun entry => map (@length JsValue) (sheet_to_json (snd entry))) workbook.
Proof.
  intros Hok. unfold normalizeWorkbook in Hok.
  destruct (normalizeSheets_Ok workbook _ Hok) as [E Hnodup].
  cbn [app book_new] in E. subst normalized.
  split; [apply SheetNames_normalized|].
  split; [apply Hnodup; constructor|].
  split.
  - rewrite SheetNames_normalized. apply Forall_forall. intros name Hin.
    apply in_map_iff in Hin as [raw [<- _]].
    destruct (safeSheetName_fits raw) as (Hne & Hlen & Hsafe & _).
    repeat split; assumption.
  - rewrite map_map. apply map_ext. intros entry.
    unfold normalizeEntry, normalizeData. cbn [snd sheet_cells].
    rewrite map_map. apply map_ext. intros r. apply length_map.
Qed.

Lemma normalizeWorkbook_sheets_witness :
  @normalizeWorkbook NoReader
    [(lit "Q1 sales", aoa_to_sheet [[JString (lit " region ")]; [JString (lit "85%")]]);
     (lit "A sheet name that is longer than thirty-one characters",
      aoa_to_sheet [])]
  = Ok [(lit "Q1_sales", aoa_to_sheet [[JString (lit "region")];
                                       [JNumber (num_div (of_Z 85) num_100)]]);
        (lit "A_sheet_name_that_is_longer_tha", aoa_to_sheet [])]
  /\ NoDup [lit "Q1_sales"; lit "A_sheet_name_that_is_longer_tha"].
Proof.
  assert (Hok : @normalizeWorkbook NoReader
                  [(lit "Q1 sales",
                    aoa_to_sheet [[JString (lit " region ")]; [JString (lit "85%")]]);
                   (lit "A sheet name that is longer than thirty-one characters",
                    aoa_to_sheet [])]
                = Ok [(lit "Q1_sales",
                       aoa_to_sheet [[JString (lit "region")];
                                     [JNumber (num_div (of_Z 85) num_100)]]);
                      (lit "A_sheet_name_that_is_longer_tha", aoa_to_sheet [])])
    by (vm_compute; reflexivity).
  split; [exact Hok|].
  exact (proj1 (proj2 (@normalizeWorkbook_sheets NoReader _ _ Hok))).
Defined.

(** ** normalizeWorkbook: what it reads back *)

(** A text that is no date in the eyes of [normalizeCell] does not come out
    of it as a date. *)
Lemma normalizeCell_no_date (value : jsstring) :
  test simpleDatePattern (trim value) = false ->
  forall d, normalizeCell value <> JDate d.
Proof.
  intros Hpattern d E. pose proof (normalizeCell_cases value) as Hcases.
  rewrite E in Hcases. destruct Hcases as [Hdate _]. congruence.
Qed.

(** C7. normalizeWorkbook is not idempotent, and typed cells do not pass
    through it unchanged.  Its cell pass lets every cell that is not a string
    through, and is idempotent on the grids it is given; but the grid it is
    given is what sheet_to_json reads with raw:false, the formatted text of
    every typed cell.  Of a sheet it makes the normalized texts of the cells:
    a boolean comes back as the boolean, a date does not.  The date that
    textBasedRecovery types from the line [2024-01-15] comes out of the
    conversion as what normalizeCell makes of the text of the date, which is
    no date as soon as that text is not written year-month-day (the library
    writes 1/15/24); and a sheet with the string [2024-01-15] comes out of
    normalizeWorkbook with the date, and out of a second pass without it. *)
Theorem typed_cells_are_read_back_as_text
    (number_text : number -> jsstring) (date_text : Date -> jsstring)
    (book : Result WorkBook) (out : Buffer) :
  let library := FormattedCells number_text date_text book out in
  test simpleDatePattern (trim (date_text mid_january)) = false ->
  (forall v, (forall s, v <> JString s) -> normalizeValue v = v)
  /\ (forall g, normalizeData (normalizeData g) = normalizeData g)
  /\ (forall name g,
        @normalizeWorkbook library [(name, aoa_to_sheet g)]
        = Ok [(substring_to 31 (sanitizeFilename name),
               aoa_to_sheet
                 (normalizeData (map (map (formatted number_text date_text)) g)))])
  /\ (forall b, normalizeValue (formatted number_text date_text (JBoolean b))
                = JBoolean b)
  /\ @textBasedRecovery SevenBitCodecs (bytes "when" ++ x0a :: bytes "2024-01-15")
     = Ok [(lit "Sheet1",
            aoa_to_sheet [[JString (lit "when")]; [JDate mid_january]])]
  /\ @convertedWorkbook library SevenBitCodecs
       (bytes "when" ++ x0a :: bytes "2024-01-15") true
     = Ok [(lit "Sheet1",
            aoa_to_sheet [[JString (lit "when")];
                          [normalizeCell (date_text mid_january)]])]
  /\ (forall d, normalizeCell (date_text mid_january) <> JDate d)
  /\ @normalizeWorkbook library
       [(lit "Sheet1", aoa_to_sheet [[JString (lit "2024-01-15")]])]
     = Ok [(lit "Sheet1", aoa_to_sheet [[JDate mid_january]])]
  /\ @normalizeWorkbook library
       [(lit "Sheet1", aoa_to_sheet [[JDate mid_january]])]
     = Ok [(lit "Sheet1",
            aoa_to_sheet [[normalizeCell (date_text mid_january)]])].
Proof.
  intros library Hpattern.
  split; [intros v Hv; destruct v; try reflexivity; now destruct (Hv s)|].
  split; [exact normalizeData_idem|].
  split; [reflexivity|].
  split; [intros [|]; vm_compute; reflexivity|].
  split; [vm_compute; reflexivity|].
  split.
  { unfold convertedWorkbook. cbn [negb].
    replace (@textBasedRecovery SevenBitCodecs
               (bytes "when" ++ x0a :: bytes "2024-01-15"))
      with (Ok [(lit "Sheet1",
                 aoa_to_sheet [[JString (lit "when")]; [JDate mid_january]])])
      by (vm_compute; reflexivity).
    reflexivity. }
  split; [now apply normalizeCell_no_date|].
  split; reflexivity.
Qed.

Lemma typed_cells_are_read_back_as_text_witness :
  test simpleDatePattern (trim (mdyy mid_january)) = false
  /\ @convertedWorkbook (FormattedCells zero_text mdyy (Err MsgEmptyWorkbook) [])
       SevenBitCodecs (bytes "when" ++ x0a :: bytes "2024-01-15") true
     = Ok [(lit "Sheet1",
            aoa_to_sheet [[JString (lit "when")]; [JString (lit "1/15/24")]])].
Proof.
  split; [reflexivity|].
  exact (proj1 (proj2 (proj2 (proj2 (proj2 (proj2
           (@typed_cells_are_read_back_as_text zero_text mdyy
              (Err MsgEmptyWorkbook) [] eq_refl))))))).
Defined.

(** ** convertToXlsx: errors and the fallback *)

Lemma textBasedRecovery_Err `{Codecs} (buffer : Buffer) (m : Message) :
  textBasedRecovery buffer = Err m -> m = MsgNoParsedData.
Proof.
  unfold textBasedRecovery.
  destruct (Nat.eqb (length (recovered_data (detectAndDecode buffer))) 0).
  - intros E. injection E as <-. reflexivity.
  - unfold book_append_sheet, book_new. cbn. discriminate.
Qed.

(** What [convertToXlsx] raises is the wrapper, around the message of the
    text recovery, of [book_append_sheet] or of the writer. *)
Lemma convertToXlsx_Err `{SheetJS} `{Codecs}
    (buffer : Buffer) (filename : jsstring) (forceTextRecovery : bool) (m : Message) :
  convertToXlsx buffer filename forceTextRecovery = Err m ->
  exists cause,
    m = MsgConversionFailed cause
    /\ (cause = MsgNoParsedData
        \/ (exists name, cause = MsgSheetExists name)
        \/ (exists workbook, XLSX_write workbook = Err cause)).
Proof.
  unfold convertToXlsx.
  destruct (str_eqb (last (split 46 (toLowerCase filename)) []) (lit "xlsx"));
    [discriminate|].
  unfold convertedWorkbook.
  set (stage := if negb forceTextRecovery
                then catch (standardParse buffer) (fun _ => textBasedRecovery buffer)
                else textBasedRecovery buffer).
  assert (Hstage : forall cause, stage = Err cause -> cause = MsgNoParsedData).
  { intros cause. unfold stage.
    destruct (negb forceTextRecovery); [|apply textBasedRecovery_Err].
    destruct (standardParse buffer); cbn [catch]; [discriminate|].
    apply textBasedRecovery_Err. }
  destruct stage as [workbook|cause] eqn:Estage; cbn [bind catch].
  - destruct (normalizeWorkbook workbook) as [normalized|cause] eqn:Enorm;
      cbn [bind catch].
    + destruct (XLSX_write normalized) as [out|cause] eqn:Ewrite; cbn [catch];
        [discriminate|].
      intros E. injection E as <-. exists cause. split; [reflexivity|].
      right. right. exists normalized. exact Ewrite.
    + intros E. injection E as <-. exists cause. split; [reflexivity|].
      right. left. apply (normalizeWorkbook_Err workbook). exact Enorm.
  - intros E. injection E as <-. exists cause. split; [reflexivity|].
    left. apply Hstage. reflexivity.
Qed.

(** X23. What [convertToXlsx] can raise.  Every error is the one wrapper
    [MsgConversionFailed], around one of three causes: the text recovery found
    no data, two sheets came to the same name, or the writer failed.  What the
    standard parser raises, the empty workbook and the empty header never reach
    the caller: they are caught and answered with the text recovery. *)
Theorem convertToXlsx_errors `{SheetJS} `{Codecs}
    (buffer : Buffer) (filename : jsstring) (forceTextRecovery : bool) (m : Message) :
  convertToXlsx buffer filename forceTextRecovery = Err m ->
  last (split 46 (toLowerCase filename)) [] <> lit "xlsx"
  /\ exists cause,
       m = MsgConversionFailed cause
       /\ (cause = MsgNoParsedData
           \/ (exists name, cause = MsgSheetExists name)
           \/ (exists workbook, XLSX_write workbook = Err cause)).
Proof.
  intros Herr. split; [|exact (convertToXlsx_Err _ _ _ Herr)].
  intros Hext. unfold convertToXlsx in Herr.
  rewrite Hext, str_eqb_refl in Herr. discriminate.
Qed.

Lemma convertToXlsx_errors_witness :
  @convertToXlsx NoReader SevenBitCodecs (bytes "  ") (lit "blank.csv") false
  = Err (MsgConversionFailed MsgNoParsedData)
  /\ exists cause,
       MsgConversionFailed MsgNoParsedData = MsgConversionFailed cause
       /\ (cause = MsgNoParsedData
           \/ (exists name, cause = MsgSheetExists name)
           \/ (exists workbook, @XLSX_write NoReader workbook = Err cause)).
Proof.
  split; [reflexivity|].
  exact (proj2 (@convertToXlsx_errors NoReader SevenBitCodecs (bytes "  ")
                  (lit "blank.csv") false _ eq_refl)).
Defined.

Lemma shows_nothing_header (header : row) :
  Forall shows_nothing header ->
  existsb (fun cell => truthy cell && negb (String_is_blank cell)) header = false.
Proof.
  induction 1 as [|cell rest Hcell _ IH]; [reflexivity|].
  cbn [existsb]. rewrite IH, orb_false_r.
  destruct cell as [|s|x|b|d]; cbn in *; try contradiction.
  - reflexivity.
  - rewrite Hcell. cbn. apply andb_false_r.
Qed.

Lemma convertToXlsx_refused `{SheetJS} `{Codecs}
    (buffer : Buffer) (filename : jsstring) (m : Message) :
  standardParse buffer = Err m ->
  convertToXlsx buffer filename false = convertToXlsx buffer filename true.
Proof.
  intros Hrefused. unfold convertToXlsx, convertedWorkbook.
  cbn [negb]. rewrite Hrefused. reflexivity.
Qed.

(** X24. A first row that shows nothing.  When the first row of the first
    sheet, as [sheet_to_json] hands it back to the standard parser, holds
    nothing but nulls and blank strings (or when that sheet has no row at
    all), the workbook of the standard parser is given up, and the conversion
    is the one of the forced text recovery.  (A stored zero or false is handed
    back as text and does count as a header.) *)
Theorem convertToXlsx_blank_header_falls_back `{SheetJS} `{Codecs}
    (buffer : Buffer) (filename name : jsstring) (sheet : WorkSheet) (more : WorkBook) :
  XLSX_read buffer = Ok ((name, sheet) :: more) ->
  Forall shows_nothing (hd [] (sheet_to_json sheet)) ->
  standardParse buffer = Err MsgEmptyHeader
  /\ convertToXlsx buffer filename false = convertToXlsx buffer filename true.
Proof.
  intros Hread Hblank.
  assert (Hrefused : standardParse buffer = Err MsgEmptyHeader).
  { unfold standardParse. rewrite Hread. cbn [bind].
    destruct (sheet_to_json sheet) as [|header rows]; [reflexivity|].
    cbn [hd] in Hblank. rewrite (shows_nothing_header Hblank). reflexivity. }
  split; [exact Hrefused|].
  exact (convertToXlsx_refused buffer filename Hrefused).
Qed.

Lemma convertToXlsx_blank_header_falls_back_witness :
  @standardParse BlankHeaderBook (bytes "a workbook") = Err MsgEmptyHeader
  /\ @convertToXlsx BlankHeaderBook SevenBitCodecs (bytes "a,b") (lit "book.xls") false
     = @convertToXlsx BlankHeaderBook SevenBitCodecs (bytes "a,b") (lit "book.xls") true
  /\ @convertToXlsx BlankHeaderBook SevenBitCodecs (bytes "a,b") (lit "book.xls") false
     = Ok (bytes "written")
  /\ exists workbook,
       @standardParse ZeroHeaderBook (bytes "a workbook") = Ok workbook.
Proof.
  split; [reflexivity|]. split; [|split; [reflexivity|eexists; reflexivity]].
  apply (@convertToXlsx_blank_header_falls_back BlankHeaderBook SevenBitCodecs
           (bytes "a,b") (lit "book.xls") (lit "Data")
           (aoa_to_sheet [[JNull; JString (lit " "); JString []];
                          [JString (lit "1"); JString (lit "2"); JString (lit "3")]])
           []).
  - reflexivity.
  - repeat constructor.
Defined.

Lemma textBasedRecovery_Ok `{Codecs} (input : Buffer) :
  filter not_blank (split LF (detectAndDecode input)) <> [] ->
  textBasedRecovery input
  = Ok [(lit "Sheet1", aoa_to_sheet (recovered_data (detectAndDecode input)))].
Proof.
  intros Hlines. unfold textBasedRecovery.
  rewrite (recovered_data_rows_of (detectAndDecode input)).
  destruct (filter not_blank (split LF (detectAndDecode input))); [congruence|].
  reflexivity.
Qed.

(** X25. The recovery path, end to end.  When the text recovery runs (it is
    forced, or the standard parser has refused the buffer) on a name that is
    not an xlsx name and the decoded text has a non-blank line, the workbook
    handed to the writer has the one sheet Sheet1, holding the recovered grid
    as the library reads it back, cell by cell normalized again; the conversion
    fails only if the writer does. *)
Theorem convertToXlsx_recovery_path `{SheetJS} `{Codecs}
    (input : Buffer) (filename : jsstring) (forceTextRecovery : bool) :
  last (split 46 (toLowerCase filename)) [] <> lit "xlsx" ->
  filter not_blank (split LF (detectAndDecode input)) <> [] ->
  forceTextRecovery = true \/ (exists m, standardParse input = Err m) ->
  convertToXlsx input filename forceTextRecovery
  = catch
      (XLSX_write
         [(lit "Sheet1",
           aoa_to_sheet
             (normalizeData
                (sheet_to_json
                   (aoa_to_sheet (recovered_data (detectAndDecode input))))))])
      (fun error => Err (MsgConversionFailed error)).
Proof.
  intros Hext Hlines Hpath. unfold convertToXlsx.
  assert (Hname : str_eqb (last (split 46 (toLowerCase filename)) []) (lit "xlsx")
                  = false).
  { destruct (str_eqb _ (lit "xlsx")) eqn:E; [|reflexivity].
    apply str_eqb_eq in E. contradiction. }
  rewrite Hname. unfold convertedWorkbook.
  assert (Hstage : (if negb forceTextRecovery
                    then catch (standardParse input) (fun _ => textBasedRecovery input)
                    else textBasedRecovery input)
                   = Ok [(lit "Sheet1",
                          aoa_to_sheet (recovered_data (detectAndDecode input)))]).
  { destruct Hpath as [-> | [m Hrefused]].
    - apply textBasedRecovery_Ok, Hlines.
    - destruct forceTextRecovery; cbn [negb]; [apply textBasedRecovery_Ok, Hlines|].
      rewrite Hrefused. cbn [catch]. apply textBasedRecovery_Ok, Hlines. }
  rewrite Hstage. reflexivity.
Qed.

Lemma convertToXlsx_recovery_path_witness :
  last (split 46 (toLowerCase (lit "data.csv"))) [] <> lit "xlsx"
  /\ @convertToXlsx NoReader SevenBitCodecs
       (bytes "a,b" ++ x0a :: bytes "1,2") (lit "data.csv") false
     = Ok [].
Proof.
  split; [discriminate|].
  refine (eq_trans (@convertToXlsx_recovery_path NoReader SevenBitCodecs
                      (bytes "a,b" ++ x0a :: bytes "1,2") (lit "data.csv") false
                      _ _ _) _).
  - discriminate.
  - discriminate.
  - right. exists (MsgLibrary (lit "unsupported file")). reflexivity.
  - reflexivity.
Defined.

(** ** processFile: validation, the result, the name of the result *)

Lemma processFile_fails_with `{SheetJS} `{Codecs}
    (buffer : Buffer) (originalFilename : jsstring) (forceTextRecovery : bool)
    (m : Message) :
  message (processFile buffer originalFilename forceTextRecovery) = Some m ->
  (validateFileExtension originalFilename = false /\ m = MsgUnsupportedFormat)
  \/ (validateFileExtension originalFilename = true
      /\ validateFileSize (buffer_length buffer) = false
      /\ m = MsgFileTooLarge)
  \/ (validateFileExtension originalFilename = true
      /\ validateFileSize (buffer_length buffer) = true
      /\ convertToXlsx buffer originalFilename forceTextRecovery = Err m).
Proof.
  unfold processFile.
  destruct (validateFileExtension originalFilename); cbn [bind].
  - destruct (validateFileSize (buffer_length buffer)); cbn [bind].
    + destruct (convertToXlsx buffer originalFilename forceTextRecovery);
        cbn [message]; [discriminate|].
      intros E. injection E as <-. right. right. auto.
    + cbn [message]. intros E. injection E as <-. right. left. auto.
  - cbn [message]. intros E. injection E as <-. left. auto.
Qed.

(** X26. The two refusals of [processFile].  The message is that the format
    is not supported exactly when [validateFileExtension] refuses the name,
    whatever the size; it is that the file is too large exactly when the name
    is accepted and the buffer is longer than 50 MiB.  No conversion error can
    be mistaken for either: those come wrapped. *)
Theorem processFile_validation `{SheetJS} `{Codecs}
    (buffer : Buffer) (originalFilename : jsstring) (forceTextRecovery : bool) :
  (message (processFile buffer originalFilename forceTextRecovery)
   = Some MsgUnsupportedFormat
   <-> validateFileExtension originalFilename = false)
  /\ (message (processFile buffer originalFilename forceTextRecovery)
      = Some MsgFileTooLarge
      <-> validateFileExtension originalFilename = true
          /\ (MAX_FILE_SIZE < buffer_length buffer)%Z).
Proof.
  assert (Hsize : validateFileSize (buffer_length buffer) = false
                  <-> (MAX_FILE_SIZE < buffer_length buffer)%Z).
  { unfold validateFileSize. apply Z.leb_gt. }
  split; split.
  - intros Hmsg.
    destruct (processFile_fails_with _ _ _ Hmsg)
      as [[Hext _] | [(_ & _ & E) | (_ & _ & Herr)]];
      [exact Hext | discriminate |].
    destruct (convertToXlsx_Err _ _ _ Herr) as [cause [E _]]. discriminate.
  - intros Hext. unfold processFile. rewrite Hext. reflexivity.
  - intros Hmsg.
    destruct (processFile_fails_with _ _ _ Hmsg)
      as [[_ E] | [(Hext & Hlarge & _) | (_ & _ & Herr)]];
      [discriminate | split; [exact Hext | apply Hsize, Hlarge] |].
    destruct (convertToXlsx_Err _ _ _ Herr) as [cause [E _]]. discriminate.
  - intros [Hext Hlarge]. apply Hsize in Hlarge.
    unfold processFile. rewrite Hext, Hlarge. reflexivity.
Qed.

(** X27. The two shapes of a result.  The result always carries the size
    of the input.  It is a success carrying a buffer exactly when the name and
    the size are accepted and [convertToXlsx] answers that buffer; a result
    with a buffer carries its length, no message and the new name.  It is a
    failure carrying a message exactly when the name is refused (the format is
    not supported), or the name is accepted and the size refused (the file is
    too large), or both are accepted and [convertToXlsx] fails with that
    message; a failed result carries no buffer, no size, no warnings and the
    name as it was given. *)
Theorem processFile_result_shape `{SheetJS} `{Codecs}
    (input : Buffer) (originalFilename : jsstring) (forceTextRecovery : bool) :
  let result := processFile input originalFilename forceTextRecovery in
  originalSize result = buffer_length input
  /\ (forall converted,
        (validateFileExtension originalFilename = true
         /\ validateFileSize (buffer_length input) = true
         /\ convertToXlsx input originalFilename forceTextRecovery = Ok converted)
        <-> (success result = true /\ buffer result = Some converted))
  /\ (forall converted,
        buffer result = Some converted ->
        success result = true
        /\ convertedSize result = Some (buffer_length converted)
        /\ message result = None
        /\ filename result
           = sanitizeFilename (strip_extension originalFilename) ++ CONVERTED_SUFFIX)
  /\ (forall m,
        ((validateFileExtension originalFilename = false /\ m = MsgUnsupportedFormat)
         \/ (validateFileExtension originalFilename = true
             /\ validateFileSize (buffer_length input) = false
             /\ m = MsgFileTooLarge)
         \/ (validateFileExtension originalFilename = true
             /\ validateFileSize (buffer_length input) = true
             /\ convertToXlsx input originalFilename forceTextRecovery = Err m))
        <-> (success result = false /\ message result = Some m))
  /\ (success result = false ->
      buffer result = None
      /\ convertedSize result = None
      /\ warnings result = None
      /\ filename result = originalFilename).
Proof.
  intros result. unfold result, processFile.
  destruct (validateFileExtension originalFilename); cbn [bind];
    [destruct (validateFileSize (buffer_length input)); cbn [bind];
     [destruct (convertToXlsx input originalFilename forceTextRecovery)
        as [done|failure] eqn:Hconv|]|];
    cbn [success buffer filename originalSize convertedSize message warnings];
    (split; [reflexivity|]);
    (split; [intros converted; split;
             [intros (Hname & Hsize & Hdone); try discriminate;
              injection Hdone as <-; split; reflexivity
             |intros [Hsuccess Hbuffer]; try discriminate;
              injection Hbuffer as <-; repeat split; reflexivity]|]);
    (split; [intros converted Hbuffer; try discriminate;
             injection Hbuffer as <-; repeat split; reflexivity|]);
    (split; [intros m; split;
             [intros [[Hname Hm] | [(Hname & Hsize & Hm) | (Hname & Hsize & Hm)]];
              try discriminate; subst; try (split; reflexivity);
              injection Hm as <-; split; reflexivity
             |intros [Hsuccess Hm]; try discriminate;
              injection Hm as <-; auto 10]|]);
    (intros Hsuccess; try discriminate; repeat split; reflexivity).
Qed.

Lemma processFile_result_shape_witness :
  success (@processFile NoReader SevenBitCodecs (bytes "a,b") (lit "data.csv") false)
  = true
  /\ buffer (@processFile NoReader SevenBitCodecs (bytes "a,b") (lit "data.csv") false)
     = Some []
  /\ success (@processFile NoReader SevenBitCodecs (bytes "a,b") (lit "data.pdf") false)
     = false
  /\ message (@processFile NoReader SevenBitCodecs (bytes "a,b") (lit "data.pdf") false)
     = Some MsgUnsupportedFormat.
Proof.
  pose proof (proj1 (proj1 (proj2
                (@processFile_result_shape NoReader SevenBitCodecs
                   (bytes "a,b") (lit "data.csv") false)) [])
                (conj eq_refl (conj eq_refl eq_refl))) as [Hsuccess Hbuffer].
  pose proof (proj1 (proj1 (proj2 (proj2 (proj2
                (@processFile_result_shape NoReader SevenBitCodecs
                   (bytes "a,b") (lit "data.pdf") false)))) MsgUnsupportedFormat)
                (or_introl (conj eq_refl eq_refl))) as [Hfailure Hmessage].
  split; [exact Hsuccess|]. split; [exact Hbuffer|].
  split; [exact Hfailure|exact Hmessage].
Defined.

Lemma converted_name_accepted (base : jsstring) :
  forallb is_safe_char base = true ->
  validateFileExtension (base ++ CONVERTED_SUFFIX) = true
  /\ last (split 46 (toLowerCase (base ++ CONVERTED_SUFFIX))) [] = lit "xlsx".
Proof.
  intros Hsafe.
  assert (Hname : base ++ CONVERTED_SUFFIX
                  = (base ++ [95; 48320; 54872; 50756; 47308]) ++ 46 :: lit "xlsx").
  { unfold CONVERTED_SUFFIX. rewrite <- app_assoc. reflexivity. }
  split.
  - rewrite Hname.
    refine (eq_trans (validateFileExtension_cut _ (lit "xlsx") eq_refl) _).
    assert (Hstem : includes 304 (base ++ [95; 48320; 54872; 50756; 47308]) = false).
    { rewrite includes_app.
      rewrite (@includes_class 304 is_safe_char base eq_refl Hsafe). reflexivity. }
    apply lowered_stem_cut in Hstem. rewrite Hstem. reflexivity.
  - apply (@xlsx_suffix_extension (base ++ CONVERTED_SUFFIX)
             (toLowerCase (base ++ [95; 48320; 54872; 50756; 47308]))).
    rewrite Hname.
    apply (toLowerCase_app (base ++ [95; 48320; 54872; 50756; 47308]) (46 :: lit "xlsx")).
Qed.

(** X28. The name of a successful result.  It is the sanitized base name
    followed by the suffix that ends in [.xlsx].  [validateFileExtension]
    accepts it, and under that name [convertToXlsx] answers any buffer
    unchanged: a converted file that is sent in again under its new name comes
    back as it is, as long as its size is accepted. *)
Theorem processFile_converted_name `{SheetJS} `{Codecs}
    (input : Buffer) (originalFilename : jsstring) (forceTextRecovery : bool) :
  success (processFile input originalFilename forceTextRecovery) = true ->
  let name := filename (processFile input originalFilename forceTextRecovery) in
  name = sanitizeFilename (strip_extension originalFilename) ++ CONVERTED_SUFFIX
  /\ validateFileExtension name = true
  /\ (forall again force, convertToXlsx again name force = Ok again)
  /\ (forall again force,
        validateFileSize (buffer_length again) = true ->
        buffer (processFile again name force) = Some again).
Proof.
  intros Hsuccess name.
  assert (Hname : name = sanitizeFilename (strip_extension originalFilename)
                         ++ CONVERTED_SUFFIX).
  { unfold name, processFile in *.
    destruct (validateFileExtension originalFilename); cbn [bind] in *;
      [|discriminate].
    destruct (validateFileSize (buffer_length input)); cbn [bind] in *;
      [|discriminate].
    destruct (convertToXlsx input originalFilename forceTextRecovery);
      [reflexivity | discriminate]. }
  destruct (sanitizeFilename_is_clean (strip_extension originalFilename))
    as (Hsafe & _ & _).
  destruct (converted_name_accepted _ Hsafe) as [Hvalid Hext].
  rewrite <- Hname in Hvalid, Hext.
  assert (Hpass : forall again force, convertToXlsx again name force = Ok again).
  { intros again force. unfold convertToXlsx. rewrite Hext, str_eqb_refl. reflexivity. }
  split; [exact Hname|]. split; [exact Hvalid|]. split; [exact Hpass|].
  intros again force Hsize. unfold processFile.
  rewrite Hvalid, Hsize. cbn [bind]. rewrite Hpass. reflexivity.
Qed.

Lemma processFile_converted_name_witness :
  success (@processFile NoReader SevenBitCodecs
             (bytes "a,b" ++ x0a :: bytes "1,2") (lit "my data.csv") false) = true
  /\ filename (@processFile NoReader SevenBitCodecs
                 (bytes "a,b" ++ x0a :: bytes "1,2") (lit "my data.csv") false)
     = lit "my_data" ++ CONVERTED_SUFFIX
  /\ validateFileExtension (lit "my_data" ++ CONVERTED_SUFFIX) = true.
Proof.
  split; [reflexivity|].
  pose proof (@processFile_converted_name NoReader SevenBitCodecs
                (bytes "a,b" ++ x0a :: bytes "1,2") (lit "my data.csv") false
                eq_refl) as Hname.
  cbv zeta in Hname. destruct Hname as (Hname & Hvalid & _).
  split; [exact Hname | exact Hvalid].
Defined.

Lemma strip_extension_last_dot (stem ext : jsstring) :
  includes 46 ext = false ->
  ext <> [] ->
  strip_extension (stem ++ 46 :: ext) = stem.
Proof.
  intros Hext Hne. unfold strip_extension.
  replace (lastIndexOf 46 (stem ++ 46 :: ext)) with (Z.of_nat (length stem))
    by (symmetry; apply lastIndexOf_suffix; exact Hext).
  rewrite Nat2Z.id.
  assert (Hpos : (0 <=? Z.of_nat (length stem))%Z = true) by (apply Z.leb_le; lia).
  assert (Hrest : skipn (S (length stem)) (stem ++ 46 :: ext) = ext).
  { clear. induction stem as [|c stem IH]; [reflexivity | exact IH]. }
  assert (Hstem : firstn (length stem) (stem ++ 46 :: ext) = stem).
  { clear. induction stem as [|c stem IH]; [reflexivity|].
    cbn [app length firstn]. f_equal. exact IH. }
  rewrite Hpos, Hrest, Hstem.
  destruct ext; [congruence | reflexivity].
Qed.

(** X29. The base of the new name.  When the conversion of a file named
    by a stem, a dot and an extension without dot succeeds, the result is
    named by the sanitized stem and the suffix: only what follows the last dot
    is taken off, and a name that is nothing but an extension gets the default
    base name. *)
Theorem processFile_names_result_after_stem `{SheetJS} `{Codecs}
    (input : Buffer) (stem ext : jsstring) (forceTextRecovery : bool) :
  includes 46 ext = false ->
  ext <> [] ->
  success (processFile input (stem ++ 46 :: ext) forceTextRecovery) = true ->
  filename (processFile input (stem ++ 46 :: ext) forceTextRecovery)
  = sanitizeFilename stem ++ CONVERTED_SUFFIX.
Proof.
  intros Hext Hne Hsuccess.
  rewrite <- (strip_extension_last_dot stem Hext Hne) at 2.
  unfold processFile in *.
  destruct (validateFileExtension (stem ++ 46 :: ext)); cbn [bind] in *;
    [|discriminate].
  destruct (validateFileSize (buffer_length input)); cbn [bind] in *;
    [|discriminate].
  destruct (convertToXlsx input (stem ++ 46 :: ext) forceTextRecovery);
    [reflexivity | discriminate].
Qed.

Lemma processFile_names_result_after_stem_witness :
  filename (@processFile NoReader SevenBitCodecs (bytes "a,b")
              (lit "report.final.csv") true)
  = lit "report.final" ++ CONVERTED_SUFFIX
  /\ filename (@processFile NoReader SevenBitCodecs (bytes "a,b") (lit ".csv") true)
     = lit "converted_file" ++ CONVERTED_SUFFIX.
Proof.
  split.
  - refine (eq_trans (@processFile_names_result_after_stem NoReader SevenBitCodecs
                        (bytes "a,b") (lit "report.final") (lit "csv") true
                        eq_refl _ eq_refl) _);
      [discriminate | reflexivity].
  - refine (eq_trans (@processFile_names_result_after_stem NoReader SevenBitCodecs
                        (bytes "a,b") [] (lit "csv") true eq_refl _ eq_refl) _);
      [discriminate | reflexivity].
Defined.
